(** * YAMAHA DELTA-T (ADPCM-B) unit of the YM2610: a shallow embedding of
      [src/3rdParty/ym/ym_delta_t.c] and the properties of its register file,
      decode engine, data-register port and restore path. *)

From Stdlib Require Import ZArith List Bool Lia.

From Stdlib Require Import Floats.PrimFloat Floats.SpecFloat Floats.FloatOps.

From Stdlib Require Import Uint63.

From stdpp Require Import base list.

Import ListNotations.

Local Open Scope Z_scope.

(** ** C integer types *)

Module CInt.

(** Conversion to [uint8_t], [uint32_t] and [int32_t]: reduction modulo
    2^8 and 2^32, the signed one re-centred on zero. *)
Definition to_u8 (z : Z) : Z := z mod 256.

Definition to_u32 (z : Z) : Z := z mod 4294967296.

Definition to_i32 (z : Z) : Z := (z + 2147483648) mod 4294967296 - 2147483648.

(** [(double)z] for an integer that a double holds exactly. *)
Definition Z2F (z : Z) : float :=
  if z <? 0 then PrimFloat.opp (PrimFloat.of_uint63 (Uint63.of_Z (- z)))
  else PrimFloat.of_uint63 (Uint63.of_Z z).

(** Conversion of a double to an integer: truncation toward zero.  C leaves
    the conversion of NaN and of the infinities undefined; they go to 0. *)
Definition F2Z (f : float) : Z :=
  match Prim2SF f with
  | S754_finite sg m e =>
      let mag := if 0 <=? e then Z.pos m * 2 ^ e else Z.pos m / 2 ^ (- e) in
      if sg then - mag else mag
  | _ => 0
  end.

End CInt.

Import CInt.

(** ** Constants and tables *)

Definition YM_DELTAT_SHIFT : Z := 16.

Definition YM_DELTAT_DELTA_MAX : Z := 24576.

Definition YM_DELTAT_DELTA_MIN : Z := 127.

Definition YM_DELTAT_DELTA_DEF : Z := 127.

Definition YM_DELTAT_DECODE_RANGE : Z := 32768.

Definition YM_DELTAT_DECODE_MIN : Z := - YM_DELTAT_DECODE_RANGE.

Definition YM_DELTAT_DECODE_MAX : Z := YM_DELTAT_DECODE_RANGE - 1.

(** Forecast to next forecast (rate = *8). *)
Definition ym_deltat_decode_tableB1 (data : Z) : Z :=
  nth (Z.to_nat data)
    [1; 3; 5; 7; 9; 11; 13; 15; -1; -3; -5; -7; -9; -11; -13; -15] 0.

(** Delta to next delta (rate = *64). *)
Definition ym_deltat_decode_tableB2 (data : Z) : Z :=
  nth (Z.to_nat data)
    [57; 57; 57; 57; 77; 102; 128; 153; 57; 57; 57; 57; 77; 102; 128; 153] 0.

(** 0-DRAM x1, 1-ROM, 2-DRAM x8, 3-ROM. *)
Definition dram_rightshift (i : Z) : Z := nth (Z.to_nat i) [3; 0; 0; 0] 0.

(** The macro [YM_DELTAT_Limit(val,max,min)]. *)
Definition YM_DELTAT_Limit (val max min : Z) : Z :=
  if max <? val then max else if val <? min then min else val.

(** ** The unit *)

(** What the unit does to its host: a call of the status handlers, a call of
    the byte-write callback [write_byte(0, addr, v)], or the addition of the
    sample to the output accumulator selected by [pan] ([*(pan) += adpcml]).
    The opaque [status_change_which_chip] argument is left out. *)
Inductive host_call : Type :=
| StatusSet (bit : Z)
| StatusReset (bit : Z)
| WriteByte (addr v : Z)
| Mix (pan sample : Z).

(** Modelled from the spec: the header [ym_delta_t.h] that declares
    [YM_DELTAT] is not part of the sources.  The fields are the ones the C
    file uses, with the widths its casts and the spec's data model give them:
    addresses, phase and rate are [uint32_t]; volume, predictor, step size and
    held sample are [int32_t]; the byte-wide ones are [uint8_t]; [reg] is the
    16-byte raw register image.  [read_byte] is the external memory, indexed
    as an array of bytes and absent when the pointer is null; [write_byte] and
    the two status handlers record whether the function pointer is set.
    [pan] is the index into [output_pointer] that the C pointer designates;
    [end_] is the field [end]. *)
Record YM_DELTAT : Type := {
  read_byte : option (Z -> Z);
  write_byte : bool;
  pan : Z;
  freqbase : float;
  output_range : Z;
  now_addr : Z;
  now_step : Z;
  step : Z;
  start : Z;
  limit : Z;
  end_ : Z;
  delta : Z;
  volume : Z;
  acc : Z;
  adpcmd : Z;
  adpcml : Z;
  prev_acc : Z;
  now_data : Z;
  CPU_data : Z;
  portstate : Z;
  control2 : Z;
  portshift : Z;
  DRAMportshift : Z;
  memread : Z;
  status_set_handler : bool;
  status_reset_handler : bool;
  status_change_EOS_bit : Z;
  status_change_BRDY_bit : Z;
  PCM_BSY : Z;
  reg : list Z
}.

(** Assignment to one field. *)
Definition set_read_byte (x : option (Z -> Z)) (d : YM_DELTAT) : YM_DELTAT :=
  {| read_byte := x; write_byte := write_byte d; pan := pan d; freqbase := freqbase d;
     output_range := output_range d; now_addr := now_addr d; now_step := now_step d;
     step := step d; start := start d; limit := limit d; end_ := end_ d; delta := delta d;
     volume := volume d; acc := acc d; adpcmd := adpcmd d; adpcml := adpcml d;
     prev_acc := prev_acc d; now_data := now_data d; CPU_data := CPU_data d;
     portstate := portstate d; control2 := control2 d; portshift := portshift d;
     DRAMportshift := DRAMportshift d; memread := memread d;
     status_set_handler := status_set_handler d;
     status_reset_handler := status_reset_handler d;
     status_change_EOS_bit := status_change_EOS_bit d;
     status_change_BRDY_bit := status_change_BRDY_bit d; PCM_BSY := PCM_BSY d;
     reg := reg d |}.

Definition set_write_byte (x : bool) (d : YM_DELTAT) : YM_DELTAT :=
  {| read_byte := read_byte d; write_byte := x; pan := pan d; freqbase := freqbase d;
     output_range := output_range d; now_addr := now_addr d; now_step := now_step d;
     step := step d; start := start d; limit := limit d; end_ := end_ d; delta := delta d;
     volume := volume d; acc := acc d; adpcmd := adpcmd d; adpcml := adpcml d;
     prev_acc := prev_acc d; now_data := now_data d; CPU_data := CPU_data d;
     portstate := portstate d; control2 := control2 d; portshift := portshift d;
     DRAMportshift := DRAMportshift d; memread := memread d;
     status_set_handler := status_set_handler d;
     status_reset_handler := status_reset_handler d;
     status_change_EOS_bit := status_change_EOS_bit d;
     status_change_BRDY_bit := status_change_BRDY_bit d; PCM_BSY := PCM_BSY d;
     reg := reg d |}.

Definition set_pan (x : Z) (d : YM_DELTAT) : YM_DELTAT :=
  {| read_byte := read_byte d; write_byte := write_byte d; pan := x;
     freqbase := freqbase d; output_range := output_range d; now_addr := now_addr d;
     now_step := now_step d; step := step d; start := start d; limit := limit d;
     end_ := end_ d; delta := delta d; volume := volume d; acc := acc d;
     adpcmd := adpcmd d; adpcml := adpcml d; prev_acc := prev_acc d;
     now_data := now_data d; CPU_data := CPU_data d; portstate := portstate d;
     control2 := control2 d; portshift := portshift d; DRAMportshift := DRAMportshift d;
     memread := memread d; status_set_handler := status_set_handler d;
     status_reset_handler := status_reset_handler d;
     status_change_EOS_bit := status_change_EOS_bit d;
     status_change_BRDY_bit := status_change_BRDY_bit d; PCM_BSY := PCM_BSY d;
     reg := reg d |}.

Definition set_now_addr (x : Z) (d : YM_DELTAT) : YM_DELTAT :=
  {| read_byte := read_byte d; write_byte := write_byte d; pan := pan d;
     freqbase := freqbase d; output_range := output_range d; now_addr := x;
     now_step := now_step d; step := step d; start := start d; limit := limit d;
     end_ := end_ d; delta := delta d; volume := volume d; acc := acc d;
     adpcmd := adpcmd d; adpcml := adpcml d; prev_acc := prev_acc d;
     now_data := now_data d; CPU_data := CPU_data d; portstate := portstate d;
     control2 := control2 d; portshift := portshift d; DRAMportshift := DRAMportshift d;
     memread := memread d; status_set_handler := status_set_handler d;
     status_reset_handler := status_reset_handler d;
     status_change_EOS_bit := status_change_EOS_bit d;
     status_change_BRDY_bit := status_change_BRDY_bit d; PCM_BSY := PCM_BSY d;
     reg := reg d |}.

Definition set_now_step (x : Z) (d : YM_DELTAT) : YM_DELTAT :=
  {| read_byte := read_byte d; write_byte := write_byte d; pan := pan d;
     freqbase := freqbase d; output_range := output_range d; now_addr := now_addr d;
     now_step := x; step := step d; start := start d; limit := limit d; end_ := end_ d;
     delta := delta d; volume := volume d; acc := acc d; adpcmd := adpcmd d;
     adpcml := adpcml d; prev_acc := prev_acc d; now_data := now_data d;
     CPU_data := CPU_data d; portstate := portstate d; control2 := control2 d;
     portshift := portshift d; DRAMportshift := DRAMportshift d; memread := memread d;
     status_set_handler := status_set_handler d;
     status_reset_handler := status_reset_handler d;
     status_change_EOS_bit := status_change_EOS_bit d;
     status_change_BRDY_bit := status_change_BRDY_bit d; PCM_BSY := PCM_BSY d;
     reg := reg d |}.

Definition set_step (x : Z) (d : YM_DELTAT) : YM_DELTAT :=
  {| read_byte := read_byte d; write_byte := write_byte d; pan := pan d;
     freqbase := freqbase d; output_range := output_range d; now_addr := now_addr d;
     now_step := now_step d; step := x; start := start d; limit := limit d; end_ := end_ d;
     delta := delta d; volume := volume d; acc := acc d; adpcmd := adpcmd d;
     adpcml := adpcml d; prev_acc := prev_acc d; now_data := now_data d;
     CPU_data := CPU_data d; portstate := portstate d; control2 := control2 d;
     portshift := portshift d; DRAMportshift := DRAMportshift d; memread := memread d;
     status_set_handler := status_set_handler d;
     status_reset_handler := status_reset_handler d;
     status_change_EOS_bit := status_change_EOS_bit d;
     status_change_BRDY_bit := status_change_BRDY_bit d; PCM_BSY := PCM_BSY d;
     reg := reg d |}.

Definition set_start (x : Z) (d : YM_DELTAT) : YM_DELTAT :=
  {| read_byte := read_byte d; write_byte := write_byte d; pan := pan d;
     freqbase := freqbase d; output_range := output_range d; now_addr := now_addr d;
     now_step := now_step d; step := step d; start := x; limit := limit d; end_ := end_ d;
     delta := delta d; volume := volume d; acc := acc d; adpcmd := adpcmd d;
     adpcml := adpcml d; prev_acc := prev_acc d; now_data := now_data d;
     CPU_data := CPU_data d; portstate := portstate d; control2 := control2 d;
     portshift := portshift d; DRAMportshift := DRAMportshift d; memread := memread d;
     status_set_handler := status_set_handler d;
     status_reset_handler := status_reset_handler d;
     status_change_EOS_bit := status_change_EOS_bit d;
     status_change_BRDY_bit := status_change_BRDY_bit d; PCM_BSY := PCM_BSY d;
     reg := reg d |}.

Definition set_limit (x : Z) (d : YM_DELTAT) : YM_DELTAT :=
  {| read_byte := read_byte d; write_byte := write_byte d; pan := pan d;
     freqbase := freqbase d; output_range := output_range d; now_addr := now_addr d;
     now_step := now_step d; step := step d; start := start d; limit := x; end_ := end_ d;
     delta := delta d; volume := volume d; acc := acc d; adpcmd := adpcmd d;
     adpcml := adpcml d; prev_acc := prev_acc d; now_data := now_data d;
     CPU_data := CPU_data d; portstate := portstate d; control2 := control2 d;
     portshift := portshift d; DRAMportshift := DRAMportshift d; memread := memread d;
     status_set_handler := status_set_handler d;
     status_reset_handler := status_reset_handler d;
     status_change_EOS_bit := status_change_EOS_bit d;
     status_change_BRDY_bit := status_change_BRDY_bit d; PCM_BSY := PCM_BSY d;
     reg := reg d |}.

Definition set_end_ (x : Z) (d : YM_DELTAT) : YM_DELTAT :=
  {| read_byte := read_byte d; write_byte := write_byte d; pan := pan d;
     freqbase := freqbase d; output_range := output_range d; now_addr := now_addr d;
     now_step := now_step d; step := step d; start := start d; limit := limit d; end_ := x;
     delta := delta d; volume := volume d; acc := acc d; adpcmd := adpcmd d;
     adpcml := adpcml d; prev_acc := prev_acc d; now_data := now_data d;
     CPU_data := CPU_data d; portstate := portstate d; control2 := control2 d;
     portshift := portshift d; DRAMportshift := DRAMportshift d; memread := memread d;
     status_set_handler := status_set_handler d;
     status_reset_handler := status_reset_handler d;
     status_change_EOS_bit := status_change_EOS_bit d;
     status_change_BRDY_bit := status_change_BRDY_bit d; PCM_BSY := PCM_BSY d;
     reg := reg d |}.

Definition set_delta (x : Z) (d : YM_DELTAT) : YM_DELTAT :=
  {| read_byte := read_byte d; write_byte := write_byte d; pan := pan d;
     freqbase := freqbase d; output_range := output_range d; now_addr := now_addr d;
     now_step := now_step d; step := step d; start := start d; limit := limit d;
     end_ := end_ d; delta := x; volume := volume d; acc := acc d; adpcmd := adpcmd d;
     adpcml := adpcml d; prev_acc := prev_acc d; now_data := now_data d;
     CPU_data := CPU_data d; portstate := portstate d; control2 := control2 d;
     portshift := portshift d; DRAMportshift := DRAMportshift d; memread := memread d;
     status_set_handler := status_set_handler d;
     status_reset_handler := status_reset_handler d;
     status_change_EOS_bit := status_change_EOS_bit d;
     status_change_BRDY_bit := status_change_BRDY_bit d; PCM_BSY := PCM_BSY d;
     reg := reg d |}.

Definition set_volume (x : Z) (d : YM_DELTAT) : YM_DELTAT :=
  {| read_byte := read_byte d; write_byte := write_byte d; pan := pan d;
     freqbase := freqbase d; output_range := output_range d; now_addr := now_addr d;
     now_step := now_step d; step := step d; start := start d; limit := limit d;
     end_ := end_ d; delta := delta d; volume := x; acc := acc d; adpcmd := adpcmd d;
     adpcml := adpcml d; prev_acc := prev_acc d; now_data := now_data d;
     CPU_data := CPU_data d; portstate := portstate d; control2 := control2 d;
     portshift := portshift d; DRAMportshift := DRAMportshift d; memread := memread d;
     status_set_handler := status_set_handler d;
     status_reset_handler := status_reset_handler d;
     status_change_EOS_bit := status_change_EOS_bit d;
     status_change_BRDY_bit := status_change_BRDY_bit d; PCM_BSY := PCM_BSY d;
     reg := reg d |}.

Definition set_acc (x : Z) (d : YM_DELTAT) : YM_DELTAT :=
  {| read_byte := read_byte d; write_byte := write_byte d; pan := pan d;
     freqbase := freqbase d; output_range := output_range d; now_addr := now_addr d;
     now_step := now_step d; step := step d; start := start d; limit := limit d;
     end_ := end_ d; delta := delta d; volume := volume d; acc := x; adpcmd := adpcmd d;
     adpcml := adpcml d; prev_acc := prev_acc d; now_data := now_data d;
     CPU_data := CPU_data d; portstate := portstate d; control2 := control2 d;
     portshift := portshift d; DRAMportshift := DRAMportshift d; memread := memread d;
     status_set_handler := status_set_handler d;
     status_reset_handler := status_reset_handler d;
     status_change_EOS_bit := status_change_EOS_bit d;
     status_change_BRDY_bit := status_change_BRDY_bit d; PCM_BSY := PCM_BSY d;
     reg := reg d |}.

Definition set_adpcmd (x : Z) (d : YM_DELTAT) : YM_DELTAT :=
  {| read_byte := read_byte d; write_byte := write_byte d; pan := pan d;
     freqbase := freqbase d; output_range := output_range d; now_addr := now_addr d;
     now_step := now_step d; step := step d; start := start d; limit := limit d;
     end_ := end_ d; delta := delta d; volume := volume d; acc := acc d; adpcmd := x;
     adpcml := adpcml d; prev_acc := prev_acc d; now_data := now_data d;
     CPU_data := CPU_data d; portstate := portstate d; control2 := control2 d;
     portshift := portshift d; DRAMportshift := DRAMportshift d; memread := memread d;
     status_set_handler := status_set_handler d;
     status_reset_handler := status_reset_handler d;
     status_change_EOS_bit := status_change_EOS_bit d;
     status_change_BRDY_bit := status_change_BRDY_bit d; PCM_BSY := PCM_BSY d;
     reg := reg d |}.

Definition set_adpcml (x : Z) (d : YM_DELTAT) : YM_DELTAT :=
  {| read_byte := read_byte d; write_byte := write_byte d; pan := pan d;
     freqbase := freqbase d; output_range := output_range d; now_addr := now_addr d;
     now_step := now_step d; step := step d; start := start d; limit := limit d;
     end_ := end_ d; delta := delta d; volume := volume d; acc := acc d;
     adpcmd := adpcmd d; adpcml := x; prev_acc := prev_acc d; now_data := now_data d;
     CPU_data := CPU_data d; portstate := portstate d; control2 := control2 d;
     portshift := portshift d; DRAMportshift := DRAMportshift d; memread := memread d;
     status_set_handler := status_set_handler d;
     status_reset_handler := status_reset_handler d;
     status_change_EOS_bit := status_change_EOS_bit d;
     status_change_BRDY_bit := status_change_BRDY_bit d; PCM_BSY := PCM_BSY d;
     reg := reg d |}.

Definition set_prev_acc (x : Z) (d : YM_DELTAT) : YM_DELTAT :=
  {| read_byte := read_byte d; write_byte := write_byte d; pan := pan d;
     freqbase := freqbase d; output_range := output_range d; now_addr := now_addr d;
     now_step := now_step d; step := step d; start := start d; limit := limit d;
     end_ := end_ d; delta := delta d; volume := volume d; acc := acc d;
     adpcmd := adpcmd d; adpcml := adpcml d; prev_acc := x; now_data := now_data d;
     CPU_data := CPU_data d; portstate := portstate d; control2 := control2 d;
     portshift := portshift d; DRAMportshift := DRAMportshift d; memread := memread d;
     status_set_handler := status_set_handler d;
     status_reset_handler := status_reset_handler d;
     status_change_EOS_bit := status_change_EOS_bit d;
     status_change_BRDY_bit := status_change_BRDY_bit d; PCM_BSY := PCM_BSY d;
     reg := reg d |}.

Definition set_now_data (x : Z) (d : YM_DELTAT) : YM_DELTAT :=
  {| read_byte := read_byte d; write_byte := write_byte d; pan := pan d;
     freqbase := freqbase d; output_range := output_range d; now_addr := now_addr d;
     now_step := now_step d; step := step d; start := start d; limit := limit d;
     end_ := end_ d; delta := delta d; volume := volume d; acc := acc d;
     adpcmd := adpcmd d; adpcml := adpcml d; prev_acc := prev_acc d; now_data := x;
     CPU_data := CPU_data d; portstate := portstate d; control2 := control2 d;
     portshift := portshift d; DRAMportshift := DRAMportshift d; memread := memread d;
     status_set_handler := status_set_handler d;
     status_reset_handler := status_reset_handler d;
     status_change_EOS_bit := status_change_EOS_bit d;
     status_change_BRDY_bit := status_change_BRDY_bit d; PCM_BSY := PCM_BSY d;
     reg := reg d |}.

Definition set_CPU_data (x : Z) (d : YM_DELTAT) : YM_DELTAT :=
  {| read_byte := read_byte d; write_byte := write_byte d; pan := pan d;
     freqbase := freqbase d; output_range := output_range d; now_addr := now_addr d;
     now_step := now_step d; step := step d; start := start d; limit := limit d;
     end_ := end_ d; delta := delta d; volume := volume d; acc := acc d;
     adpcmd := adpcmd d; adpcml := adpcml d; prev_acc := prev_acc d;
     now_data := now_data d; CPU_data := x; portstate := portstate d;
     control2 := control2 d; portshift := portshift d; DRAMportshift := DRAMportshift d;
     memread := memread d; status_set_handler := status_set_handler d;
     status_reset_handler := status_reset_handler d;
     status_change_EOS_bit := status_change_EOS_bit d;
     status_change_BRDY_bit := status_change_BRDY_bit d; PCM_BSY := PCM_BSY d;
     reg := reg d |}.

Definition set_portstate (x : Z) (d : YM_DELTAT) : YM_DELTAT :=
  {| read_byte := read_byte d; write_byte := write_byte d; pan := pan d;
     freqbase := freqbase d; output_range := output_range d; now_addr := now_addr d;
     now_step := now_step d; step := step d; start := start d; limit := limit d;
     end_ := end_ d; delta := delta d; volume := volume d; acc := acc d;
     adpcmd := adpcmd d; adpcml := adpcml d; prev_acc := prev_acc d;
     now_data := now_data d; CPU_data := CPU_data d; portstate := x;
     control2 := control2 d; portshift := portshift d; DRAMportshift := DRAMportshift d;
     memread := memread d; status_set_handler := status_set_handler d;
     status_reset_handler := status_reset_handler d;
     status_change_EOS_bit := status_change_EOS_bit d;
     status_change_BRDY_bit := status_change_BRDY_bit d; PCM_BSY := PCM_BSY d;
     reg := reg d |}.

Definition set_control2 (x : Z) (d : YM_DELTAT) : YM_DELTAT :=
  {| read_byte := read_byte d; write_byte := write_byte d; pan := pan d;
     freqbase := freqbase d; output_range := output_range d; now_addr := now_addr d;
     now_step := now_step d; step := step d; start := start d; limit := limit d;
     end_ := end_ d; delta := delta d; volume := volume d; acc := acc d;
     adpcmd := adpcmd d; adpcml := adpcml d; prev_acc := prev_acc d;
     now_data := now_data d; CPU_data := CPU_data d; portstate := portstate d;
     control2 := x; portshift := portshift d; DRAMportshift := DRAMportshift d;
     memread := memread d; status_set_handler := status_set_handler d;
     status_reset_handler := status_reset_handler d;
     status_change_EOS_bit := status_change_EOS_bit d;
     status_change_BRDY_bit := status_change_BRDY_bit d; PCM_BSY := PCM_BSY d;
     reg := reg d |}.

Definition set_DRAMportshift (x : Z) (d : YM_DELTAT) : YM_DELTAT :=
  {| read_byte := read_byte d; write_byte := write_byte d; pan := pan d;
     freqbase := freqbase d; output_range := output_range d; now_addr := now_addr d;
     now_step := now_step d; step := step d; start := start d; limit := limit d;
     end_ := end_ d; delta := delta d; volume := volume d; acc := acc d;
     adpcmd := adpcmd d; adpcml := adpcml d; prev_acc := prev_acc d;
     now_data := now_data d; CPU_data := CPU_data d; portstate := portstate d;
     control2 := control2 d; portshift := portshift d; DRAMportshift := x;
     memread := memread d; status_set_handler := status_set_handler d;
     status_reset_handler := status_reset_handler d;
     status_change_EOS_bit := status_change_EOS_bit d;
     status_change_BRDY_bit := status_change_BRDY_bit d; PCM_BSY := PCM_BSY d;
     reg := reg d |}.

Definition set_memread (x : Z) (d : YM_DELTAT) : YM_DELTAT :=
  {| read_byte := read_byte d; write_byte := write_byte d; pan := pan d;
     freqbase := freqbase d; output_range := output_range d; now_addr := now_addr d;
     now_step := now_step d; step := step d; start := start d; limit := limit d;
     end_ := end_ d; delta := delta d; volume := volume d; acc := acc d;
     adpcmd := adpcmd d; adpcml := adpcml d; prev_acc := prev_acc d;
     now_data := now_data d; CPU_data := CPU_data d; portstate := portstate d;
     control2 := control2 d; portshift := portshift d; DRAMportshift := DRAMportshift d;
     memread := x; status_set_handler := status_set_handler d;
     status_reset_handler := status_reset_handler d;
     status_change_EOS_bit := status_change_EOS_bit d;
     status_change_BRDY_bit := status_change_BRDY_bit d; PCM_BSY := PCM_BSY d;
     reg := reg d |}.

Definition set_status_set_handler (x : bool) (d : YM_DELTAT) : YM_DELTAT :=
  {| read_byte := read_byte d; write_byte := write_byte d; pan := pan d;
     freqbase := freqbase d; output_range := output_range d; now_addr := now_addr d;
     now_step := now_step d; step := step d; start := start d; limit := limit d;
     end_ := end_ d; delta := delta d; volume := volume d; acc := acc d;
     adpcmd := adpcmd d; adpcml := adpcml d; prev_acc := prev_acc d;
     now_data := now_data d; CPU_data := CPU_data d; portstate := portstate d;
     control2 := control2 d; portshift := portshift d; DRAMportshift := DRAMportshift d;
     memread := memread d; status_set_handler := x;
     status_reset_handler := status_reset_handler d;
     status_change_EOS_bit := status_change_EOS_bit d;
     status_change_BRDY_bit := status_change_BRDY_bit d; PCM_BSY := PCM_BSY d;
     reg := reg d |}.

Definition set_status_reset_handler (x : bool) (d : YM_DELTAT) : YM_DELTAT :=
  {| read_byte := read_byte d; write_byte := write_byte d; pan := pan d;
     freqbase := freqbase d; output_range := output_range d; now_addr := now_addr d;
     now_step := now_step d; step := step d; start := start d; limit := limit d;
     end_ := end_ d; delta := delta d; volume := volume d; acc := acc d;
     adpcmd := adpcmd d; adpcml := adpcml d; prev_acc := prev_acc d;
     now_data := now_data d; CPU_data := CPU_data d; portstate := portstate d;
     control2 := control2 d; portshift := portshift d; DRAMportshift := DRAMportshift d;
     memread := memread d; status_set_handler := status_set_handler d;
     status_reset_handler := x; status_change_EOS_bit := status_change_EOS_bit d;
     status_change_BRDY_bit := status_change_BRDY_bit d; PCM_BSY := PCM_BSY d;
     reg := reg d |}.

Definition set_PCM_BSY (x : Z) (d : YM_DELTAT) : YM_DELTAT :=
  {| read_byte := read_byte d; write_byte := write_byte d; pan := pan d;
     freqbase := freqbase d; output_range := output_range d; now_addr := now_addr d;
     now_step := now_step d; step := step d; start := start d; limit := limit d;
     end_ := end_ d; delta := delta d; volume := volume d; acc := acc d;
     adpcmd := adpcmd d; adpcml := adpcml d; prev_acc := prev_acc d;
     now_data := now_data d; CPU_data := CPU_data d; portstate := portstate d;
     control2 := control2 d; portshift := portshift d; DRAMportshift := DRAMportshift d;
     memread := memread d; status_set_handler := status_set_handler d;
     status_reset_handler := status_reset_handler d;
     status_change_EOS_bit := status_change_EOS_bit d;
     status_change_BRDY_bit := status_change_BRDY_bit d; PCM_BSY := x; reg := reg d |}.

Definition set_reg (x : list Z) (d : YM_DELTAT) : YM_DELTAT :=
  {| read_byte := read_byte d; write_byte := write_byte d; pan := pan d;
     freqbase := freqbase d; output_range := output_range d; now_addr := now_addr d;
     now_step := now_step d; step := step d; start := start d; limit := limit d;
     end_ := end_ d; delta := delta d; volume := volume d; acc := acc d;
     adpcmd := adpcmd d; adpcml := adpcml d; prev_acc := prev_acc d;
     now_data := now_data d; CPU_data := CPU_data d; portstate := portstate d;
     control2 := control2 d; portshift := portshift d; DRAMportshift := DRAMportshift d;
     memread := memread d; status_set_handler := status_set_handler d;
     status_reset_handler := status_reset_handler d;
     status_change_EOS_bit := status_change_EOS_bit d;
     status_change_BRDY_bit := status_change_BRDY_bit d; PCM_BSY := PCM_BSY d; reg := x |}.

(** ** Status signalling *)

(** [if (h && bit) (h)(chip, bit)]: the handler is called when it is set and
    the host has given the flag a bit. *)
Definition status_set (d : YM_DELTAT) (bit : Z) : list host_call :=
  if status_set_handler d && negb (bit =? 0) then [StatusSet bit] else [].

Definition status_reset (d : YM_DELTAT) (bit : Z) : list host_call :=
  if status_reset_handler d && negb (bit =? 0) then [StatusReset bit] else [].

(** ** Register file *)

(** [reg[i]], and the store [reg[r] = v] into a [uint8_t] cell. *)
Definition reg_at (d : YM_DELTAT) (i : nat) : Z := default 0 (reg d !! i).

Definition store_reg (r v : Z) (d : YM_DELTAT) : YM_DELTAT :=
  set_reg (<[Z.to_nat r := to_u8 v]> (reg d)) d.

(** [(reg[hi] * 0x0100 | reg[lo]) << (portshift - DRAMportshift)], stored in a
    [uint32_t] field.  C defines the shift for counts 0..31 only. *)
Definition pair16 (d : YM_DELTAT) (hi lo : nat) : Z :=
  Z.lor (reg_at d hi * 256) (reg_at d lo).

Definition addr_shift (d : YM_DELTAT) : Z := portshift d - DRAMportshift d.

Definition derive_start (d : YM_DELTAT) : YM_DELTAT :=
  set_start (to_u32 (Z.shiftl (pair16 d 3 2) (addr_shift d))) d.

Definition derive_end (d : YM_DELTAT) : YM_DELTAT :=
  let d := set_end_ (to_u32 (Z.shiftl (pair16 d 5 4) (addr_shift d))) d in
  set_end_ (to_u32 (end_ d + (Z.shiftl 1 (addr_shift d) - 1))) d.

Definition derive_limit (d : YM_DELTAT) : YM_DELTAT :=
  set_limit (to_u32 (Z.shiftl (pair16 d 13 12) (addr_shift d))) d.

(** case 0x00: START, REC, MEMDATA, REPEAT, SPOFF, x, x, RESET. *)
Definition write_control (v : Z) (d : YM_DELTAT) : YM_DELTAT * list host_call :=
  let v := Z.lor v 0x20 in
  let v := Z.land v (Z.lnot 0x40) in
  let d := set_portstate (Z.land v 0xf1) d in
  let d :=
    if Z.land (portstate d) 0x80 =? 0 then d
    else
      let d := set_PCM_BSY 1 d in
      let d := set_now_step 0 d in
      let d := set_acc 0 d in
      let d := set_prev_acc 0 d in
      let d := set_adpcml 0 d in
      let d := set_adpcmd YM_DELTAT_DELTA_DEF d in
      set_now_data 0 d in
  let d :=
    if Z.land (portstate d) 0x20 =? 0 then set_now_addr 0 d
    else
      let d := set_now_addr (to_u32 (Z.shiftl (start d) 1)) d in
      set_memread 2 d in
  if Z.land (portstate d) 0x01 =? 0 then (d, [])
  else
    let d := set_portstate 0 d in
    let d := set_PCM_BSY 0 d in
    (d, status_set d (status_change_BRDY_bit d)).

(** case 0x01: L, R, -, -, SAMPLE, DA/AD, RAMTYPE, ROM. *)
Definition write_control2 (v : Z) (d : YM_DELTAT) : YM_DELTAT :=
  let v := Z.lor v 0x01 in
  let d := set_pan (Z.land (Z.shiftr v 6) 0x03) d in
  let d :=
    if Z.land (control2 d) 3 =? Z.land v 3 then d
    else if DRAMportshift d =? dram_rightshift (Z.land v 3) then d
    else
      let d := set_DRAMportshift (dram_rightshift (Z.land v 3)) d in
      derive_limit (derive_end (derive_start d)) in
  set_control2 (to_u8 v) d.

(** case 0x08: ADPCM data. *)
Definition write_data (v : Z) (d : YM_DELTAT) : YM_DELTAT * list host_call :=
  if Z.land (portstate d) 0xe0 =? 0x60 then
    (* external memory write *)
    let d :=
      if memread d =? 0 then d
      else set_memread 0 (set_now_addr (to_u32 (Z.shiftl (start d) 1)) d) in
    if now_addr d =? to_u32 (Z.shiftl (end_ d) 1) then
      (d, status_set d (status_change_EOS_bit d))
    else
      let w := if write_byte d then [WriteByte (Z.shiftr (now_addr d) 1) v] else [] in
      let d := set_now_addr (to_u32 (now_addr d + 2)) d in
      (d, w ++ status_reset d (status_change_BRDY_bit d)
            ++ status_set d (status_change_BRDY_bit d))
  else if Z.land (portstate d) 0xe0 =? 0x80 then
    (* ADPCM synthesis from CPU *)
    let d := set_CPU_data (to_u8 v) d in
    (d, status_reset d (status_change_BRDY_bit d))
  else (d, []).

(** case 0x09, 0x0a: DELTA-N. *)
Definition write_deltan (d : YM_DELTAT) : YM_DELTAT :=
  let d := set_delta (pair16 d 10 9) d in
  set_step (to_u32 (F2Z (PrimFloat.mul (Z2F (delta d)) (freqbase d)))) d.

(** case 0x0b: output level control (volume, linear).  The held sample is
    rescaled in doubles and converted back to [int]; where the product is
    out of the range of [int] C leaves the conversion undefined, and the
    value is wrapped here. *)
Definition write_volume (v : Z) (d : YM_DELTAT) : YM_DELTAT :=
  let oldvol := volume d in
  let d :=
    set_volume
      (Z.quot (to_i32 (Z.land v 0xff * Z.quot (output_range d) 256))
         YM_DELTAT_DECODE_RANGE) d in
  if oldvol =? 0 then d
  else
    set_adpcml
      (to_i32 (F2Z (PrimFloat.mul (PrimFloat.div (Z2F (adpcml d)) (Z2F oldvol))
                      (Z2F (volume d))))) d.

(** [ADPCMB_write]: DELTA-T ADPCM write register.  The result is [None] where
    the C code stores outside the [reg] array, which it does for a negative
    index: only [r >= 0x10] returns early. *)
Definition ADPCMB_write (d : YM_DELTAT) (r v : Z)
  : option (YM_DELTAT * list host_call) :=
  if 0x10 <=? r then Some (d, [])
  else if r <? 0 then None
  else
    let d := store_reg r v d in
    match r with
    | 0 => Some (write_control v d)
    | 1 => Some (write_control2 v d, [])
    | 2 | 3 => Some (derive_start d, [])
    | 4 | 5 => Some (derive_end d, [])
    | 8 => Some (write_data v d)
    | 9 | 10 => Some (write_deltan d, [])
    | 11 => Some (write_volume v d, [])
    | 12 | 13 => Some (derive_limit d, [])
    | _ => Some (d, [])
    end.

(** [ADPCMB_reset]. *)
Definition ADPCMB_reset (panidx : Z) (d : YM_DELTAT) : YM_DELTAT * list host_call :=
  let d := set_now_addr 0 d in
  let d := set_now_step 0 d in
  let d := set_step 0 d in
  let d := set_start 0 d in
  let d := set_end_ 0 d in
  let d := set_limit (to_u32 (Z.lnot 0)) d in
  let d := set_volume 0 d in
  let d := set_pan panidx d in
  let d := set_acc 0 d in
  let d := set_prev_acc 0 d in
  let d := set_adpcmd 127 d in
  let d := set_adpcml 0 d in
  let d := set_portstate 0x20 d in
  let d := set_control2 0x01 d in
  let d := set_DRAMportshift (dram_rightshift (Z.land (control2 d) 3)) d in
  (d, status_set d (status_change_BRDY_bit d)).

(** [ADPCMB_read]: the data register read.  [None] where the C code indexes a
    null [read_byte]. *)
Definition ADPCMB_read (d : YM_DELTAT) : option (Z * YM_DELTAT * list host_call) :=
  if Z.land (portstate d) 0xe0 =? 0x20 then
    if negb (memread d =? 0) then
      (* two dummy reads *)
      let d := set_now_addr (to_u32 (Z.shiftl (start d) 1)) d in
      let d := set_memread (to_u8 (memread d - 1)) d in
      Some (0, d, [])
    else if negb (now_addr d =? to_u32 (Z.shiftl (end_ d) 1)) then
      match read_byte d with
      | None => None
      | Some m =>
          let v := to_u8 (m (Z.shiftr (now_addr d) 1)) in
          let d := set_now_addr (to_u32 (now_addr d + 2)) d in
          Some (v, d, status_reset d (status_change_BRDY_bit d)
                        ++ status_set d (status_change_BRDY_bit d))
      end
    else Some (0, d, status_set d (status_change_EOS_bit d))
  else Some (0, d, []).

(** [ADPCMB_postload]: the registers 1..15 of the image go through
    [ADPCMB_write], register 0 is stored raw. *)
Fixpoint replay (rs : list nat) (regs : list Z) (d : YM_DELTAT)
  : option (YM_DELTAT * list host_call) :=
  match rs with
  | [] => Some (d, [])
  | r :: rs' =>
      match ADPCMB_write d (Z.of_nat r) (to_u8 (default 0 (regs !! r))) with
      | None => None
      | Some (d1, ev1) =>
          match replay rs' regs d1 with
          | None => None
          | Some (d2, ev2) => Some (d2, ev1 ++ ev2)
          end
      end
  end.

(** The body of [ADPCMB_postload] for the registers [rs] to replay. *)
Definition postload_regs (rs : list nat) (d : YM_DELTAT) (regs : list Z)
  : option (YM_DELTAT * list host_call) :=
  let d := set_volume 0 d in
  match replay rs regs d with
  | None => None
  | Some (d, ev) =>
      let d := set_reg (<[0%nat := to_u8 (default 0 (regs !! 0%nat))]> (reg d)) d in
      match read_byte d with
      | None => None
      | Some m => Some (set_now_data (to_u8 (m (Z.shiftr (now_addr d) 1))) d, ev)
      end
  end.

(** [for (int r = 1; r < 16; r++)]. *)
Definition ADPCMB_postload (d : YM_DELTAT) (regs : list Z)
  : option (YM_DELTAT * list host_call) :=
  postload_regs (seq 1 15) d regs.

(** ** Decode engine *)

(** The update shared by the two synthesis loops: store the accumulator,
    forecast to next forecast, delta to next delta, each followed by
    [YM_DELTAT_Limit]. *)
Definition adpcm_update (data : Z) (d : YM_DELTAT) : YM_DELTAT :=
  let d := set_prev_acc (acc d) d in
  let d :=
    set_acc (to_i32 (acc d + Z.quot (to_i32 (ym_deltat_decode_tableB1 data * adpcmd d)) 8)) d in
  let d := set_acc (YM_DELTAT_Limit (acc d) YM_DELTAT_DECODE_MAX YM_DELTAT_DECODE_MIN) d in
  let d := set_adpcmd (Z.quot (to_i32 (adpcmd d * ym_deltat_decode_tableB2 data)) 64) d in
  set_adpcmd (YM_DELTAT_Limit (adpcmd d) YM_DELTAT_DELTA_MAX YM_DELTAT_DELTA_MIN) d.

(** How one pass of a [do ... while (--step)] body ends: it falls through to
    the loop test, or it leaves the function by [return]. *)
Inductive flow : Type := Next | Return.

(** The body of the loop of [YM_DELTAT_synthesis_from_external_memory]. *)
Definition ext_limit_wrap (d : YM_DELTAT) : YM_DELTAT :=
  if now_addr d =? to_u32 (Z.shiftl (limit d) 1) then set_now_addr 0 d else d.

Definition ext_end_of_sample (d : YM_DELTAT) : YM_DELTAT * list host_call :=
  let ev := status_set d (status_change_EOS_bit d) in
  let d := set_PCM_BSY 0 d in
  let d := set_portstate 0 d in
  let d := set_adpcml 0 d in
  let d := set_prev_acc 0 d in
  (d, ev).

Definition ext_repeat (d : YM_DELTAT) : YM_DELTAT :=
  let d := set_now_addr (to_u32 (Z.shiftl (start d) 1)) d in
  let d := set_acc 0 d in
  let d := set_adpcmd YM_DELTAT_DELTA_DEF d in
  set_prev_acc 0 d.

Definition ext_fetch (d : YM_DELTAT) : option (Z * YM_DELTAT) :=
  if Z.odd (now_addr d) then Some (Z.land (now_data d) 0x0f, d)
  else
    match read_byte d with
    | None => None
    | Some m =>
        let d := set_now_data (to_u8 (m (Z.shiftr (now_addr d) 1))) d in
        Some (Z.shiftr (now_data d) 4, d)
    end.

Definition ext_decode (d : YM_DELTAT) : option YM_DELTAT :=
  match ext_fetch d with
  | None => None
  | Some (data, d) =>
      let d := set_now_addr (to_u32 (now_addr d + 1)) d in
      let d := set_now_addr (Z.land (now_addr d) (Z.shiftl 1 (24 + 1) - 1)) d in
      Some (adpcm_update data d)
  end.

Definition ext_body (d : YM_DELTAT) : option (flow * YM_DELTAT * list host_call) :=
  let d := ext_limit_wrap d in
  if now_addr d =? to_u32 (Z.shiftl (end_ d) 1) then
    if Z.land (portstate d) 0x10 =? 0 then
      let (d, ev) := ext_end_of_sample d in Some (Return, d, ev)
    else
      match ext_decode (ext_repeat d) with
      | None => None
      | Some d => Some (Next, d, [])
      end
  else
    match ext_decode d with
    | None => None
    | Some d => Some (Next, d, [])
    end.

(** The body of the loop of [YM_DELTAT_synthesis_from_CPU_memory]. *)
Definition cpu_body (d : YM_DELTAT) : option (flow * YM_DELTAT * list host_call) :=
  let '(data, d, ev) :=
    if Z.odd (now_addr d) then
      let data := Z.land (now_data d) 0x0f in
      let d := set_now_data (CPU_data d) d in
      (data, d, status_set d (status_change_BRDY_bit d))
    else (Z.shiftr (now_data d) 4, d, []) in
  let d := set_now_addr (to_u32 (now_addr d + 1)) d in
  Some (Next, adpcm_update data d, ev).

(** [do { body } while (--step)] entered with [step = n >= 1]: the body runs
    until it returns or [n] passes are done. *)
Fixpoint do_while (body : YM_DELTAT -> option (flow * YM_DELTAT * list host_call))
    (n : nat) (d : YM_DELTAT) : option (flow * YM_DELTAT * list host_call) :=
  match n with
  | O => Some (Next, d, [])
  | S n' =>
      match body d with
      | None => None
      | Some (Return, d1, ev1) => Some (Return, d1, ev1)
      | Some (Next, d1, ev1) =>
          match do_while body n' d1 with
          | None => None
          | Some (fl, d2, ev2) => Some (fl, d2, ev1 ++ ev2)
          end
      end
  end.

(** ElSemi's interpolator and the output into the pan's accumulator. *)
Definition interpolate (d : YM_DELTAT) : YM_DELTAT * list host_call :=
  let d :=
    set_adpcml
      (to_i32 (prev_acc d * to_i32 (to_u32 (Z.shiftl 1 YM_DELTAT_SHIFT - now_step d)))) d in
  let d := set_adpcml (to_i32 (adpcml d + to_i32 (acc d * to_i32 (now_step d)))) d in
  let d := set_adpcml (to_i32 (Z.shiftr (adpcml d) YM_DELTAT_SHIFT * volume d)) d in
  (d, [Mix (pan d) (adpcml d)]).

Definition synthesis (body : YM_DELTAT -> option (flow * YM_DELTAT * list host_call))
    (d : YM_DELTAT) : option (YM_DELTAT * list host_call) :=
  let d := set_now_step (to_u32 (now_step d + step d)) d in
  if Z.shiftl 1 YM_DELTAT_SHIFT <=? now_step d then
    let n := Z.shiftr (now_step d) YM_DELTAT_SHIFT in
    let d := set_now_step (Z.land (now_step d) (Z.shiftl 1 YM_DELTAT_SHIFT - 1)) d in
    match do_while body (Z.to_nat n) d with
    | None => None
    | Some (Return, d, ev) => Some (d, ev)
    | Some (Next, d, ev) => let (d', ev') := interpolate d in Some (d', ev ++ ev')
    end
  else Some (interpolate d).

(** The number of decode steps that a tick takes ([now_step >> 16] after the
    rate is added), and the state in which it enters the loop. *)
Definition tick_steps (d : YM_DELTAT) : nat :=
  Z.to_nat (Z.shiftr (to_u32 (now_step d + step d)) YM_DELTAT_SHIFT).

Definition tick_entry (d : YM_DELTAT) : YM_DELTAT :=
  let d := set_now_step (to_u32 (now_step d + step d)) d in
  set_now_step (Z.land (now_step d) (Z.shiftl 1 YM_DELTAT_SHIFT - 1)) d.

Definition YM_DELTAT_synthesis_from_external_memory := synthesis ext_body.

Definition YM_DELTAT_synthesis_from_CPU_memory := synthesis cpu_body.

(** [ADPCMB_CALC]: one output tick. *)
Definition ADPCMB_CALC (d : YM_DELTAT) : option (YM_DELTAT * list host_call) :=
  if Z.land (portstate d) 0xe0 =? 0xa0 then YM_DELTAT_synthesis_from_external_memory d
  else if Z.land (portstate d) 0xe0 =? 0x80 then YM_DELTAT_synthesis_from_CPU_memory d
  else Some (d, []).

(** ** Runs of the unit *)

(** The calls a host makes after construction. *)
Inductive op : Type :=
| OpReset (panidx : Z)
| OpWrite (r v : Z)
| OpRead
| OpCalc
| OpPostload (regs : list Z).

Definition run_op (o : op) (d : YM_DELTAT) : option (YM_DELTAT * list host_call) :=
  match o with
  | OpReset panidx => Some (ADPCMB_reset panidx d)
  | OpWrite r v => ADPCMB_write d r v
  | OpRead =>
      match ADPCMB_read d with
      | None => None
      | Some (_, d', ev) => Some (d', ev)
      end
  | OpCalc => ADPCMB_CALC d
  | OpPostload regs => ADPCMB_postload d regs
  end.

Fixpoint run (os : list op) (d : YM_DELTAT) : option (YM_DELTAT * list host_call) :=
  match os with
  | [] => Some (d, [])
  | o :: os' =>
      match run_op o d with
      | None => None
      | Some (d1, ev1) =>
          match run os' d1 with
          | None => None
          | Some (d2, ev2) => Some (d2, ev1 ++ ev2)
          end
      end
  end.

(** A state is reachable when the host gets it from a reset of the unit,
    whatever the memory held before, by further calls. *)
Inductive reachable : YM_DELTAT -> Prop :=
| reach_reset d0 panidx : reachable (fst (ADPCMB_reset panidx d0))
| reach_op d o d' ev : reachable d -> run_op o d = Some (d', ev) -> reachable d'.

(** ** A YM2610 instance *)

(** The unit as a YM2610 host attaches it, before the first reset: address
    shift 8, output range 1 << 23, both status handlers and the byte-write
    callback set, EOS on bit 7 and BRDY on bit 3 of the host's status
    register, the register image cleared.  [fb] is the ratio of the chip's
    clock to the host's sample rate. *)
Definition attach_at (fb : float) (rom : option (Z -> Z)) : YM_DELTAT :=
  {| read_byte := rom; write_byte := true; pan := 0; freqbase := fb;
     output_range := 8388608; now_addr := 0; now_step := 0; step := 0; start := 0;
     limit := 0; end_ := 0; delta := 0; volume := 0; acc := 0; adpcmd := 0; adpcml := 0;
     prev_acc := 0; now_data := 0; CPU_data := 0; portstate := 0; control2 := 0;
     portshift := 8; DRAMportshift := 0; memread := 0; status_set_handler := true;
     status_reset_handler := true; status_change_EOS_bit := 0x80;
     status_change_BRDY_bit := 0x08; PCM_BSY := 0; reg := repeat 0 16 |}.

(** The same with one chip clock per output sample. *)
Definition attach : option (Z -> Z) -> YM_DELTAT := attach_at 1%float.

(** A ROM whose byte at offset [a] is the low byte of [a + 0x55]. *)
Definition rom55 : Z -> Z := fun a => a + 0x55.

(** The YM2610 after its first reset. *)
Definition ym2610 : YM_DELTAT := fst (ADPCMB_reset 0 (attach (Some rom55))).

(** * Notions of the properties *)

(** ** Bytes and masks *)

(** The value that [ADPCMB_write] gives [portstate] on a write of [v] to
    register 0, before the reset bit is looked at. *)
Definition control_bits (v : Z) : Z :=
  Z.land (Z.land (Z.lor v 0x20) (Z.lnot 0x40)) 0xf1.

(** ** The control state of the YM2610 *)

(** The control state is idle, or it has the external-memory bit and no
    record bit. *)
Definition ym2610_portstate (p : Z) : Prop :=
  p = 0 \/ (Z.land p 0x20 = 0x20 /\ Z.land p 0x40 = 0).

(** ** C6: the start bit *)

(** A unit whose staging byte holds 0x5a: the attach leaves the byte there
    and the reset does not touch it. *)
Definition staged : YM_DELTAT :=
  fst (ADPCMB_reset 0 (set_CPU_data 0x5a (attach (Some rom55)))).

(** ** C1: the predictor and the step size stay in range *)

(** The saturation range of the predictor and the range of the step size. *)
Definition in_range (d : YM_DELTAT) : Prop :=
  YM_DELTAT_DECODE_MIN <= acc d <= YM_DELTAT_DECODE_MAX /\
  YM_DELTAT_DELTA_MIN <= adpcmd d <= YM_DELTAT_DELTA_MAX.

(** The states after each decode step of a loop of [n] passes, up to the
    pass that leaves the function. *)
Fixpoint decode_trace (body : YM_DELTAT -> option (flow * YM_DELTAT * list host_call))
    (n : nat) (d : YM_DELTAT) : list YM_DELTAT :=
  match n with
  | O => []
  | S n' =>
      match body d with
      | Some (Next, d1, _) => d1 :: decode_trace body n' d1
      | _ => []
      end
  end.

(** The nibbles of a stream decoded one after the other. *)
Fixpoint decode_nibbles (nibbles : list Z) (d : YM_DELTAT) : list YM_DELTAT :=
  match nibbles with
  | [] => []
  | data :: rest => let d1 := adpcm_update data d in d1 :: decode_nibbles rest d1
  end.

(** ** Runs from reachable states *)

(** The state that a sequence of calls leaves. *)
Definition run_state (os : list op) (d : YM_DELTAT) : option YM_DELTAT :=
  match run os d with
  | Some (d', _) => Some d'
  | None => None
  end.

(** ** C7: the cursor after an increment *)

(** The YM2610 playing a sample of 512 bytes from offset 0, repeat off. *)
Definition playing : YM_DELTAT :=
  default ym2610 (run_state [OpWrite 4 0x01; OpWrite 0 0x80] ym2610).

(** Its state after the first decode step of a tick. *)
Definition playing_next : YM_DELTAT :=
  match ext_body playing with
  | Some (_, d', _) => d'
  | None => playing
  end.

(** The calls that put the YM2610 in external-memory read mode with the
    start address at 0xffff00 and read the data register 257 times: the two
    dummy reads and 255 reads of a byte. *)
Definition read_to_top : list op :=
  [OpWrite 2 0xff; OpWrite 3 0xff; OpWrite 0 0x20] ++ repeat OpRead 257.

(** The state they leave: the cursor is on the last byte below 2^24. *)
Definition reading_top : YM_DELTAT := default ym2610 (run_state read_to_top ym2610).

(** ** C3: the dummy reads of the data register *)

(** The start and the end address as cursors, in nibbles: [start << 1] and
    [end << 1]. *)
Definition start_cursor (d : YM_DELTAT) : Z := to_u32 (Z.shiftl (start d) 1).

Definition end_cursor (d : YM_DELTAT) : Z := to_u32 (Z.shiftl (end_ d) 1).

(** The values of [n] successive reads of the data register, and the state
    they leave. *)
Fixpoint read_values (n : nat) (d : YM_DELTAT) : option (list Z * YM_DELTAT) :=
  match n with
  | O => Some ([], d)
  | S n' =>
      match ADPCMB_read d with
      | None => None
      | Some (v, d1, _) =>
          match read_values n' d1 with
          | None => None
          | Some (vs, d2) => Some (v :: vs, d2)
          end
      end
  end.

(** The YM2610 with the stop address registers at 0x0001: the sample spans
    the bytes 0 to 0x1ff. *)
Definition loaded : YM_DELTAT := default ym2610 (run_state [OpWrite 4 0x01] ym2610).

(** ** C5: the end address against the start address *)




(** The start and the end address are the ones that the register image
    gives under the current shift. *)
Definition addresses_derived (d : YM_DELTAT) : Prop :=
  start d = start (derive_start d) /\ end_ d = end_ (derive_end d).


(** What a write to the register [r] needs of the two addresses: the one
    that it does not recompute is the one that the register image gives.  A
    write to a start register keeps the end address, a write to a stop
    register keeps the start address, a write to a limit register keeps
    both; a change of the memory type recomputes both. *)
Definition kept_derived (d : YM_DELTAT) (r : Z) : Prop :=
  (r = 2 \/ r = 3 -> end_ d = end_ (derive_end d)) /\
  (r = 4 \/ r = 5 -> start d = start (derive_start d)) /\
  (r = 12 \/ r = 13 -> addresses_derived d).




(** The YM2610 with the start address at 0x3400 and the end address at
    0x12ff. *)
Definition addressed : YM_DELTAT :=
  default ym2610 (run_state [OpWrite 2 0x34; OpWrite 4 0x12] ym2610).

(** Its state after the write of 0x01 to register 5. *)
Definition addressed_next : YM_DELTAT :=
  default addressed (run_state [OpWrite 5 0x01] addressed).

(** ** C2: the end of the sample with the repeat bit clear *)

(** The state after [k] passes of the external-memory loop that all went on
    to the loop test. *)
Fixpoint ext_passes (k : nat) (d : YM_DELTAT) : option YM_DELTAT :=
  match k with
  | O => Some d
  | S k' =>
      match ext_body d with
      | Some (Next, d1, _) => ext_passes k' d1
      | _ => None
      end
  end.

(** A call that is not a write to register 0 with the start bit set. *)
Definition no_start (o : op) : Prop :=
  match o with
  | OpWrite r v => r = 0 -> Z.land v 0x80 = 0
  | _ => True
  end.

(** What a decode step leaves alone. *)
Definition same_control (d d' : YM_DELTAT) : Prop :=
  portstate d' = portstate d /\ end_ d' = end_ d /\ limit d' = limit d /\
  status_set_handler d' = status_set_handler d /\
  status_change_EOS_bit d' = status_change_EOS_bit d.

(** A YM2610 on a host that takes 512 chip clocks per output sample, playing
    the 255 bytes from offset 0 at the highest rate, repeat off: the first
    tick takes 511 decode steps and the cursor reaches the end address on
    the last of them. *)
Definition fast : YM_DELTAT :=
  let d := fst (ADPCMB_reset 0 (attach_at 512%float (Some rom55))) in
  default d
    (run_state [OpWrite 9 0xff; OpWrite 10 0xff; OpWrite 4 0x00; OpWrite 0 0x80] d).

(** Its state after 510 decode steps of the first tick. *)
Definition fast_end : YM_DELTAT := default fast (ext_passes 510 (tick_entry fast)).

(** ** C8: hosts without callbacks *)

(** Which of its three callbacks a host provides: the byte-write callback,
    the status-set handler and the status-reset handler. *)
Record callbacks : Type := {
  has_write : bool;
  has_set : bool;
  has_reset : bool
}.

(** The unit on a host that provides the callbacks [h] only: the others are
    null. *)
Definition configure (h : callbacks) (d : YM_DELTAT) : YM_DELTAT :=
  set_write_byte (has_write h && write_byte d)
    (set_status_set_handler (has_set h && status_set_handler d)
       (set_status_reset_handler (has_reset h && status_reset_handler d) d)).

(** The calls that reach such a host: those of the callbacks it provides,
    and the additions to its accumulators. *)
Definition kept (h : callbacks) (c : host_call) : bool :=
  match c with
  | WriteByte _ _ => has_write h
  | StatusSet _ => has_set h
  | StatusReset _ => has_reset h
  | Mix _ _ => true
  end.

(** The result of a call on such a host, from its result on a host with
    every callback. *)
Definition configured (h : callbacks) (res : option (YM_DELTAT * list host_call))
  : option (YM_DELTAT * list host_call) :=
  match res with
  | Some (d, ev) => Some (configure h d, List.filter (kept h) ev)
  | None => None
  end.

(** The same for a pass of a loop, for the loop and for the tick. *)
Definition configured_pass (h : callbacks)
    (res : option (flow * YM_DELTAT * list host_call))
  : option (flow * YM_DELTAT * list host_call) :=
  match res with
  | Some (fl, d, ev) => Some (fl, configure h d, List.filter (kept h) ev)
  | None => None
  end.

(** *** No call fails for the lack of a callback *)

(** The external memory is mapped. *)
Definition mapped (rom : Z -> Z) (d : YM_DELTAT) : Prop := read_byte d = Some rom.

(** The register index of a write is not negative. *)
Definition index_ok (o : op) : Prop :=
  match o with
  | OpWrite r _ => 0 <= r
  | _ => True
  end.

(** A host with none of the three callbacks. *)
Definition no_callbacks : callbacks :=
  {| has_write := false; has_set := false; has_reset := false |}.

(** The YM2610 on a host that maps no external memory. *)
Definition unmapped : YM_DELTAT := fst (ADPCMB_reset 0 (attach None)).

(** Whether a sequence of calls runs to its end. *)
Definition goes_through (os : list op) (d : YM_DELTAT) : bool :=
  match run os d with
  | Some _ => true
  | None => false
  end.

(** ** C4: the restore from the register image *)

(** The fields that the registers 1 to 15 determine, as [ADPCMB_write]
    derives them from the register image and the host's constants. *)
Definition volume_of (v range : Z) : Z :=
  Z.quot (to_i32 (Z.land v 0xff * Z.quot range 256)) YM_DELTAT_DECODE_RANGE.

Definition rate_of (d : YM_DELTAT) : Z * Z :=
  (pair16 d 10 9, to_u32 (F2Z (PrimFloat.mul (Z2F (pair16 d 10 9)) (freqbase d)))).

Definition start_derived (d : YM_DELTAT) : Prop := start d = start (derive_start d).

Definition end_derived (d : YM_DELTAT) : Prop := end_ d = end_ (derive_end d).

Definition limit_derived (d : YM_DELTAT) : Prop := limit d = limit (derive_limit d).

Definition rate_derived (d : YM_DELTAT) : Prop := (delta d, step d) = rate_of d.

Definition volume_derived (d : YM_DELTAT) : Prop :=
  volume d = volume_of (reg_at d 11) (output_range d).

Definition control2_derived (d : YM_DELTAT) : Prop :=
  control2 d = Z.lor (reg_at d 1) 0x01.

(** The register image has its 16 cells and the memory type is the ROM of
    the YM2610: no right shift of the addresses. *)
Definition image_ok (d : YM_DELTAT) : Prop :=
  length (reg d) = 16%nat /\ DRAMportshift d = 0.

(** A sequence of register writes, as calls. *)
Definition write_ops (ws : list (Z * Z)) : list op :=
  map (fun w => OpWrite (fst w) (snd w)) ws.

(** The restore replays the image as such a sequence. *)
Definition image_writes (rs : list nat) (regs : list Z) : list (Z * Z) :=
  map (fun r => (Z.of_nat r, to_u8 (default 0 (regs !! r)))) rs.

(** Some write of the sequence goes to a register of the group [g]. *)
Definition written (g : Z -> bool) (ws : list (Z * Z)) : bool :=
  existsb (fun w => g (fst w)) ws.

(** The register groups of the derived fields. *)
Definition start_regs (r : Z) : bool := (r =? 2) || (r =? 3).

Definition end_regs (r : Z) : bool := (r =? 4) || (r =? 5).

Definition limit_regs (r : Z) : bool := (r =? 12) || (r =? 13).

Definition rate_regs (r : Z) : bool := (r =? 9) || (r =? 10).

Definition volume_regs (r : Z) : bool := r =? 11.

Definition control2_regs (r : Z) : bool := r =? 1.

Definition all_groups_written (ws : list (Z * Z)) : bool :=
  written start_regs ws && written end_regs ws && written limit_regs ws
  && written rate_regs ws && written volume_regs ws && written control2_regs ws.

(** All the derived fields follow the register image. *)
Definition image_derived (d : YM_DELTAT) : Prop :=
  start_derived d /\ end_derived d /\ limit_derived d /\ rate_derived d /\
  volume_derived d /\ control2_derived d.

(** The host's constants, which no call of the unit changes. *)
Definition same_host (d d' : YM_DELTAT) : Prop :=
  portshift d = portshift d' /\ output_range d = output_range d' /\
  freqbase d = freqbase d'.

(** The fields that the restore is to bring back. *)
Definition derived_fields (d : YM_DELTAT) : Z * Z * Z * Z * Z * Z * Z :=
  (start d, end_ d, limit d, delta d, step d, volume d, control2 d).

(** The register image [l] after the replay of the registers [rs] of the
    image [regs]. *)
Definition replay_image (rs : list nat) (regs l : list Z) : list Z :=
  fold_left (fun l r => <[r := to_u8 (default 0 (regs !! r))]> l) rs l.

(** A YM2610 programmed by its host: pan, start 0x1234, stop 0x5678, rate
    0x8000, full volume, limit 0xffff, then the start bit. *)
Definition program : list (Z * Z) :=
  [(1, 0xc0); (2, 0x34); (3, 0x12); (4, 0x78); (5, 0x56); (9, 0x00); (10, 0x80);
   (11, 0xff); (12, 0xff); (13, 0xff); (0, 0x80)].

(** The state and the host calls of this program on the YM2610. *)
Definition programmed : YM_DELTAT :=
  default ym2610 (run_state (write_ops program) ym2610).

Definition program_calls : list host_call :=
  match run (write_ops program) ym2610 with
  | Some (_, ev) => ev
  | None => []
  end.




(** ** C3: the reads after further writes *)

(** The unit is in external-memory read mode with the two dummy reads to
    come. *)
Definition read_armed (d : YM_DELTAT) : Prop :=
  Z.land (portstate d) 0xe0 = 0x20 /\ memread d = 2.

(** The writes of a sequence all go to registers other than register 0. *)
Definition other_registers (ws : list (Z * Z)) : bool :=
  forallb (fun w => negb (fst w =? 0)) ws.

(** The YM2610 put in read mode first and given its addresses afterwards:
    the sample spans the bytes 0x100 to 0x2ff. *)
Definition addressed_late : YM_DELTAT :=
  default ym2610
    (run_state (write_ops [(0, 0x20); (4, 0x02); (2, 0x01)]) ym2610).

(** * Notions of the further properties *)

(** ** The register file *)

(** The two bytes of a 16-bit register pair written low byte first, or high
    byte first. *)
Definition write_pair (lo hi a b : Z) (high_first : bool) : list op :=
  if high_first then [OpWrite hi b; OpWrite lo a] else [OpWrite lo a; OpWrite hi b].

(** The memory type is the ROM's: no right shift of the addresses, and the
    ROM bit of control 2 set. *)
Definition rom_type (d : YM_DELTAT) : Prop :=
  DRAMportshift d = 0 /\ Z.odd (control2 d) = true.

(** ** The data register as a port to the memory *)

(** The [k] bytes of the memory [rom] from the byte address [a] on. *)
Definition rom_bytes (rom : Z -> Z) (a : Z) (k : nat) : list Z :=
  map (fun i => to_u8 (rom (a + Z.of_nat i))) (seq 0 k).

(** The YM2610 in read mode on the bytes 0 to 0x1ff, after the two dummy
    reads. *)
Definition reading : YM_DELTAT :=
  default ym2610
    (run_state [OpWrite 4 0x01; OpWrite 0 0x20; OpRead; OpRead] ym2610).

(** The YM2610 in read mode right after the reset, where the start and the
    end address are both 0, after the two dummy reads. *)
Definition reading_empty : YM_DELTAT :=
  default ym2610 (run_state [OpWrite 0 0x20; OpRead; OpRead] ym2610).

(** ** The decode engine, pass by pass *)

(** What a decode step computes: the previous predictor, the predictor and
    the step size. *)
Definition decoded (d : YM_DELTAT) : Z * Z * Z := (prev_acc d, acc d, adpcmd d).

(** The limit address as a cursor, in nibbles: [limit << 1]. *)
Definition limit_cursor (d : YM_DELTAT) : Z := to_u32 (Z.shiftl (limit d) 1).

(** The state of the first pass of [playing], and of the second. *)
Definition playing_second : YM_DELTAT :=
  match ext_body playing_next with
  | Some (_, d', _) => d'
  | None => playing_next
  end.

(** The sample between the previous predictor and the predictor, at the
    phase [now_step] of 65536. *)
Definition interpolated (d : YM_DELTAT) : Z :=
  (prev_acc d * (65536 - now_step d) + acc d * now_step d) / 65536.

(** The predictor and the previous predictor are 16-bit samples, the phase
    is below 65536 and the volume is a 16-bit level. *)
Definition mixable (d : YM_DELTAT) : Prop :=
  YM_DELTAT_DECODE_MIN <= acc d <= YM_DELTAT_DECODE_MAX /\
  YM_DELTAT_DECODE_MIN <= prev_acc d <= YM_DELTAT_DECODE_MAX /\
  0 <= now_step d < 65536 /\ 0 <= volume d < 65536.

(** [playing] at full volume, a quarter of a sample into the first step. *)
Definition playing_loud : YM_DELTAT :=
  set_now_step 16384 (set_volume 255 playing_second).

(** ** The output tick *)

(** The phase after the rate is added, and its fraction: the low 16 bits. *)
Definition tick_phase (d : YM_DELTAT) : Z := to_u32 (now_step d + step d).

(** A call that adds a sample to the output [p]. *)
Definition mixes (p : Z) (c : host_call) : Prop := exists s, c = Mix p s.

(** The YM2610 playing the bytes 0 to 0xff in a loop, at a quarter of the
    highest rate. *)
Definition looping : YM_DELTAT :=
  default ym2610
    (run_state [OpWrite 4 0x00; OpWrite 10 0x40; OpWrite 11 0xff; OpWrite 0 0x90]
       ym2610).

(** The state and the host calls of one tick. *)
Definition tick_state (d : YM_DELTAT) : YM_DELTAT :=
  match ADPCMB_CALC d with
  | Some (d', _) => d'
  | None => d
  end.

Definition tick_calls (d : YM_DELTAT) : list host_call :=
  match ADPCMB_CALC d with
  | Some (_, ev) => ev
  | None => []
  end.

(** ** The volume and the range of the output *)

(** The output range of the host is a non-negative [int32_t]. *)
Definition range_ok (d : YM_DELTAT) : Prop := 0 <= output_range d < 2147483648.

(** The predictor, the step size and the previous predictor are in range,
    and on a host with a valid output range the volume is a level of 0 to
    65279. *)
Definition levels (d : YM_DELTAT) : Prop :=
  in_range d /\
  YM_DELTAT_DECODE_MIN <= prev_acc d <= YM_DELTAT_DECODE_MAX /\
  (range_ok d -> 0 <= volume d <= 65279).

(** [looping] nine ticks later: two nibbles are decoded. *)
Definition looping_later : YM_DELTAT :=
  default looping (run_state (repeat OpCalc 9) looping).

(** ** The busy flag *)

(** While the start bit is set the unit is busy. *)
Definition busy_while_started (d : YM_DELTAT) : Prop :=
  Z.land (portstate d) 0x80 <> 0 -> PCM_BSY d = 1.

(** ** What a call leaves alone *)

(** What the host programs through the registers: the register image and
    the fields derived from it, the pan, and the state of the data port. *)
Definition programmed_fields (d : YM_DELTAT)
  : list Z * (Z * Z * Z) * (Z * Z) * Z * (Z * Z * Z) * (Z * Z) :=
  (reg d, (start d, end_ d, limit d), (delta d, step d), volume d,
   (control2 d, DRAMportshift d, pan d), (memread d, CPU_data d)).

(** What the host sets up when it attaches the unit: the memory, the
    callbacks, the status bits, the address shift, the output range and the
    clock ratio. *)
Definition host_fields (d : YM_DELTAT)
  : option (Z -> Z) * bool * (bool * bool) * (Z * Z) * (Z * Z) * float :=
  (read_byte d, write_byte d, (status_set_handler d, status_reset_handler d),
   (status_change_EOS_bit d, status_change_BRDY_bit d),
   (portshift d, output_range d), freqbase d).

(** ** The restore and the playback in flight *)

(** The playback in flight: the held sample, the predictor and the previous
    one, the step size, the phase, the control state, the busy flag, and
    the cursor with the state of the data port. *)
Definition playback (d : YM_DELTAT)
  : Z * (Z * Z * Z) * Z * (Z * Z) * (Z * Z * Z) :=
  (adpcml d, (acc d, prev_acc d, adpcmd d), now_step d, (portstate d, PCM_BSY d),
   (now_addr d, memread d, CPU_data d)).

(** [looping_later] after the restore of a cleared register image. *)
Definition restored : YM_DELTAT :=
  match ADPCMB_postload looping_later (repeat 0 16) with
  | Some (d', _) => d'
  | None => looping_later
  end.

(** ** The calls to the host *)

(** The calls that the YM2610 makes to its host: the status-set handler,
    when it is set, for the EOS or the BRDY bit, when the bit is not 0; the
    status-reset handler, when it is set, for the BRDY bit only; the
    addition of a sample to an output.  The byte-write callback is not among
    them. *)
Definition expected_call (d : YM_DELTAT) (c : host_call) : Prop :=
  match c with
  | StatusSet bit =>
      status_set_handler d = true /\ bit <> 0 /\
      (bit = status_change_EOS_bit d \/ bit = status_change_BRDY_bit d)
  | StatusReset bit =>
      status_reset_handler d = true /\ bit <> 0 /\ bit = status_change_BRDY_bit d
  | WriteByte _ _ => False
  | Mix _ _ => True
  end.

(** ** The CPU-fed synthesis *)

(** What a pass of the CPU-fed loop keeps. *)
Definition same_feed (d d' : YM_DELTAT) : Prop :=
  portstate d' = portstate d /\ PCM_BSY d' = PCM_BSY d /\ pan d' = pan d /\
  now_step d' = now_step d /\ CPU_data d' = CPU_data d /\
  status_set_handler d' = status_set_handler d /\
  status_change_BRDY_bit d' = status_change_BRDY_bit d.

(** A unit put in the CPU-fed mode by hand, with the rate at one and a half
    nibbles per tick and the byte 0x7f staged. *)
Definition cpu_fed : YM_DELTAT :=
  set_CPU_data 0x7f (set_step 0x18000 (set_portstate 0x80 ym2610)).

(** ** The start of the playback *)

(** The state that a write to register 0 with the start bit set and the
    reset bit clear leaves. *)
Definition started (v : Z) (d : YM_DELTAT) : YM_DELTAT :=
  fst (write_control v (store_reg 0 v d)).

(** ** The limit address *)

(** The YM2610 playing the bytes 0 to 0x1ff with the limit address at
    0x100, and the cursor put on the limit address. *)
Definition at_limit : YM_DELTAT :=
  set_now_addr 0x200
    (default ym2610
       (run_state [OpWrite 4 0x01; OpWrite 12 0x01; OpWrite 0 0x80] ym2610)).

(** ** The restore, twice *)

(** The pan follows the register image: it is the bits 7 and 6 of
    register 1. *)
Definition pan_derived (d : YM_DELTAT) : Prop := pan d = reg_at d 1 / 64.

(** ** The rate of the playback *)

(** The [n] cursors from the one of [d] on are off the limit and the end
    address, and below the top of the 25-bit range. *)
Definition clear_run (n : nat) (d : YM_DELTAT) : Prop :=
  0 <= now_addr d /\ now_addr d + Z.of_nat n < 2 ^ 25 /\
  forall i, 0 <= i < Z.of_nat n ->
            now_addr d + i <> limit_cursor d /\ now_addr d + i <> end_cursor d.

(** The check of [clear_run]. *)
Definition clear_runb (n : nat) (d : YM_DELTAT) : bool :=
  (0 <=? now_addr d) && (now_addr d + Z.of_nat n <? 2 ^ 25)
  && forallb (fun i => negb (now_addr d + Z.of_nat i =? limit_cursor d)
                       && negb (now_addr d + Z.of_nat i =? end_cursor d))
       (seq 0 n).

(** A YM2610 on a host that takes 4 chip clocks per output sample, playing
    the bytes 0 to 0x1ff at three and a half nibbles a tick. *)
Definition hurrying : YM_DELTAT :=
  let d := fst (ADPCMB_reset 0 (attach_at 4%float (Some rom55))) in
  default d
    (run_state [OpWrite 4 0x01; OpWrite 9 0x00; OpWrite 10 0xe0; OpWrite 0 0x80] d).

(** ** The stream of nibbles *)

(** The nibble of the memory [rom] at the cursor [c]: the high nibble of the
    byte [c >> 1] when [c] is even, its low nibble when [c] is odd. *)
Definition rom_nibble (rom : Z -> Z) (c : Z) : Z :=
  let b := to_u8 (rom (Z.shiftr c 1)) in
  if Z.odd c then Z.land b 0x0f else Z.shiftr b 4.

(** The [n] nibbles from the cursor [c] on. *)
Definition rom_nibbles (rom : Z -> Z) (c : Z) (n : nat) : list Z :=
  map (fun i => rom_nibble rom (c + Z.of_nat i)) (seq 0 n).

(** On the low nibble of a byte, [now_data] holds the byte. *)
Definition byte_held (rom : Z -> Z) (d : YM_DELTAT) : Prop :=
  Z.odd (now_addr d) = true -> now_data d = to_u8 (rom (Z.shiftr (now_addr d) 1)).

(** * Properties *)

(** ** Bytes and masks *)

Section Bytes.

(** A check that passes on each of the 256 bytes holds of every byte. *)
Lemma forall_bytes (P : Z -> bool) :
  forallb P (map Z.of_nat (seq 0 256)) = true ->
  forall x, 0 <= x < 256 -> P x = true.
Proof.
  intros H x Hx.
  rewrite forallb_forall in H. apply H.
  apply in_map_iff. exists (Z.to_nat x). split; [lia|].
  apply in_seq. lia.
Qed.

Lemma to_u8_range z : 0 <= to_u8 z < 256.
Proof. unfold to_u8. apply Z.mod_pos_bound. lia. Qed.

Lemma to_u32_range z : 0 <= to_u32 z < 4294967296.
Proof. unfold to_u32. apply Z.mod_pos_bound. lia. Qed.

Lemma to_u8_small z : 0 <= z < 256 -> to_u8 z = z.
Proof. intros. unfold to_u8. apply Z.mod_small. lia. Qed.

Lemma to_u32_small z : 0 <= z < 4294967296 -> to_u32 z = z.
Proof. intros. unfold to_u32. apply Z.mod_small. lia. Qed.

Lemma to_i32_small z : -2147483648 <= z < 2147483648 -> to_i32 z = z.
Proof. intros. unfold to_i32. rewrite Z.mod_small; lia. Qed.

(** A mask below 256 sees the low byte only. *)
Lemma land_byte_mask v m : 0 <= m < 256 -> Z.land v m = Z.land (to_u8 v) m.
Proof.
  intros Hm. unfold to_u8.
  change 256 with (2 ^ 8). rewrite <- Z.land_ones by lia.
  rewrite <- Z.land_assoc. f_equal.
  symmetry. rewrite Z.land_comm. change (Z.ones 8) with 255.
  apply Z.bits_inj'. intros n Hn. rewrite Z.land_spec.
  destruct (Z.testbit m n) eqn:E; [|reflexivity].
  destruct (Z_lt_le_dec n 8) as [Hlt|Hge].
  - change 255 with (Z.ones 8). rewrite Z.ones_spec_low by lia. reflexivity.
  - exfalso. assert (m < 2 ^ n).
    { apply Z.lt_le_trans with (2 ^ 8); [simpl; lia|].
      apply Z.pow_le_mono_r; lia. }
    rewrite Z.bits_above_log2 in E; [discriminate|lia|].
    destruct (Z.eq_dec m 0) as [->|Hz]; [simpl; lia|].
    apply Z.log2_lt_pow2; lia.
Qed.

Lemma control_bits_byte v : control_bits v = control_bits (to_u8 v).
Proof.
  unfold control_bits.
  rewrite <- !Z.land_assoc. change (Z.land (Z.lnot 0x40) 0xf1) with 0xb1.
  rewrite !Z.land_lor_distr_l. f_equal.
  apply land_byte_mask. lia.
Qed.

End Bytes.

(** ** Invariants of runs *)

(** Results are taken apart without looking into the state. *)
Lemma Some_pair_inv {A B : Type} (a c : A) (b d : B) :
  Some (a, b) = Some (c, d) -> a = c /\ b = d.
Proof. intros H. split; congruence. Qed.

Lemma Some_triple_inv {A B C : Type} (a a' : A) (b b' : B) (c c' : C) :
  Some (a, b, c) = Some (a', b', c') -> a = a' /\ b = b' /\ c = c'.
Proof. intros H. repeat split; congruence. Qed.

Section Invariants.

Variable P : YM_DELTAT -> Prop.

(** A property that the loop body keeps is kept by the loop. *)
Lemma do_while_inv body :
  (forall d fl d' ev, P d -> body d = Some (fl, d', ev) -> P d') ->
  forall n d fl d' ev, P d -> do_while body n d = Some (fl, d', ev) -> P d'.
Proof.
  intros Hbody n. induction n as [|n IH]; intros d fl d' ev Hd Hrun; simpl in Hrun.
  - inversion Hrun; subst; assumption.
  - destruct (body d) as [[[fl1 d1] ev1]|] eqn:Eb; [|discriminate].
    pose proof (Hbody _ _ _ _ Hd Eb) as Hd1.
    destruct fl1.
    + destruct (do_while body n d1) as [[[fl2 d2] ev2]|] eqn:Er; [|discriminate].
      inversion Hrun; subst. eapply IH; eassumption.
    + inversion Hrun; subst; assumption.
Qed.

Lemma synthesis_inv body :
  (forall d x, P d -> P (set_now_step x d)) ->
  (forall d, P d -> P (fst (interpolate d))) ->
  (forall d fl d' ev, P d -> body d = Some (fl, d', ev) -> P d') ->
  forall d d' ev, P d -> synthesis body d = Some (d', ev) -> P d'.
Proof.
  intros Hstep Hint Hbody d d' ev Hd Hrun. unfold synthesis in Hrun.
  match type of Hrun with (if ?c then _ else _) = _ => destruct c end.
  - match type of Hrun with
      match do_while _ ?n ?d0 with _ => _ end = _ =>
        destruct (do_while body n d0) as [[[fl d1] ev1]|] eqn:Er; [|discriminate];
        assert (P d1) as Hd1
          by (eapply do_while_inv; [exact Hbody| |exact Er]; auto)
    end.
    destruct fl.
    + pose proof (Hint d1 Hd1) as Hd2.
      destruct (interpolate d1) as [d2 ev2].
      inversion Hrun; subst; exact Hd2.
    + inversion Hrun; subst; assumption.
  - pose proof (Hint _ (Hstep d (to_u32 (now_step d + step d)) Hd)) as Hd2.
    assert (interpolate (set_now_step (to_u32 (now_step d + step d)) d) = (d', ev))
      as Hi by congruence.
    rewrite Hi in Hd2. exact Hd2.
Qed.

(** A property that the reset establishes and every call keeps holds of
    every reachable state. *)
Lemma reachable_inv :
  (forall d0 panidx, P (fst (ADPCMB_reset panidx d0))) ->
  (forall o d d' ev, P d -> run_op o d = Some (d', ev) -> P d') ->
  forall d, reachable d -> P d.
Proof.
  intros Hreset Hop d Hr. induction Hr; eauto.
Qed.

End Invariants.

(** ** Case analysis on calls *)

Ltac reg_cases r :=
  let H := fresh "Hr" in
  assert (r = 0 \/ r = 1 \/ r = 2 \/ r = 3 \/ r = 4 \/ r = 5 \/ r = 6 \/ r = 7 \/
          r = 8 \/ r = 9 \/ r = 10 \/ r = 11 \/ r = 12 \/ r = 13 \/ r = 14 \/ r = 15)
    as H by lia;
  repeat (destruct H as [H|H]; [subst r|]); [..|subst r].

Ltac break_ifs :=
  repeat match goal with
    | |- context [if ?c then _ else _] => destruct c
    end.

Ltac unfold_write :=
  unfold write_control, write_control2, write_data, write_deltan, write_volume,
    derive_limit, derive_end, derive_start, store_reg.

Ltac unfold_decode :=
  unfold ext_limit_wrap, ext_end_of_sample, ext_repeat, interpolate.

(** The fields of a state built by assignments. *)
Ltac reduce_fields :=
  cbn [set_write_byte set_status_set_handler set_status_reset_handler
         set_portstate set_PCM_BSY set_now_step set_acc set_prev_acc set_adpcml
         set_adpcmd set_now_data set_now_addr set_memread set_CPU_data set_pan
         set_DRAMportshift set_control2 set_start set_end_ set_limit set_delta
         set_step set_volume set_reg fst snd
         read_byte write_byte pan freqbase output_range now_addr now_step step start
         limit end_ delta volume acc adpcmd adpcml prev_acc now_data CPU_data portstate
         control2 portshift DRAMportshift memread status_set_handler
         status_reset_handler status_change_EOS_bit status_change_BRDY_bit PCM_BSY reg].

(** A field that an operation does not assign keeps its value. *)
Ltac frame :=
  intros; unfold_write; unfold_decode; cbn; break_ifs; cbn; try assumption.

(** A write to a valid register goes through; its effect is the stored byte
    followed by the register's case of the [switch]. *)
Lemma ADPCMB_write_cases d r v d' ev :
  ADPCMB_write d r v = Some (d', ev) ->
  (16 <= r /\ d' = d /\ ev = []) \/
  (0 <= r < 16 /\
   let s := store_reg r v d in
   (d', ev) =
     if r =? 0 then write_control v s
     else if r =? 1 then (write_control2 v s, [])
     else if (r =? 2) || (r =? 3) then (derive_start s, [])
     else if (r =? 4) || (r =? 5) then (derive_end s, [])
     else if r =? 8 then write_data v s
     else if (r =? 9) || (r =? 10) then (write_deltan s, [])
     else if r =? 11 then (write_volume v s, [])
     else if (r =? 12) || (r =? 13) then (derive_limit s, [])
     else (s, [])).
Proof.
  unfold ADPCMB_write. intros H.
  destruct (0x10 <=? r) eqn:Hhi.
  - left. apply Z.leb_le in Hhi. inversion H; subst. auto.
  - destruct (r <? 0) eqn:Hlo; [discriminate|].
    apply Z.leb_gt in Hhi. apply Z.ltb_ge in Hlo.
    right. split; [lia|].
    reg_cases r; cbn in H |- *; congruence.
Qed.

(** The same for a state predicate: what every case of the switch keeps, the
    write keeps. *)
Lemma ADPCMB_write_inv (P : YM_DELTAT -> Prop) d r v d' ev :
  (forall x, P d -> P (store_reg r x d)) ->
  (r = 0 -> forall s, P s -> P (fst (write_control v s))) ->
  (forall s, P s -> P (write_control2 v s)) ->
  (forall s, P s -> P (derive_start s)) ->
  (forall s, P s -> P (derive_end s)) ->
  (forall s, P s -> P (fst (write_data v s))) ->
  (forall s, P s -> P (write_deltan s)) ->
  (forall s, P s -> P (write_volume v s)) ->
  (forall s, P s -> P (derive_limit s)) ->
  P d -> ADPCMB_write d r v = Some (d', ev) -> P d'.
Proof.
  intros Hs H0 H1 H2 H4 H8 H9 H11 H12 Hd Hw.
  apply ADPCMB_write_cases in Hw. destruct Hw as [(_ & -> & _)|(Hr & Hw)]; [assumption|].
  cbv zeta in Hw.
  assert (P (store_reg r v d)) as Hd' by auto.
  destruct (r =? 0) eqn:E0.
  - apply Z.eqb_eq in E0.
    replace d' with (fst (write_control v (store_reg r v d)))
      by (rewrite <- Hw; reflexivity).
    auto.
  - repeat match type of Hw with
      | _ = (if ?c then _ else _) => destruct c
      end;
      match type of Hw with
      | (_, _) = (_, _) => apply pair_equal_spec in Hw; destruct Hw as [-> _]; auto
      | _ = ?rhs => replace d' with (fst rhs) by (rewrite <- Hw; reflexivity); auto
      end.
Qed.

Lemma ADPCMB_read_inv (P : YM_DELTAT -> Prop) d v d' ev :
  (forall s x, P s -> P (set_now_addr x s)) ->
  (forall s x, P s -> P (set_memread x s)) ->
  P d -> ADPCMB_read d = Some (v, d', ev) -> P d'.
Proof.
  intros Ha Hm Hd H. unfold ADPCMB_read in H.
  repeat match type of H with
    | (if ?c then _ else _) = _ => destruct c
    | match ?x with Some _ => _ | None => _ end = _ => destruct x; [|discriminate]
    end; apply Some_triple_inv in H; destruct H as (_ & <- & _); auto.
Qed.

Lemma replay_inv (P : YM_DELTAT -> Prop) rs regs :
  (forall d r v d' ev,
      In r rs -> P d -> ADPCMB_write d (Z.of_nat r) v = Some (d', ev) -> P d') ->
  forall d d' ev, P d -> replay rs regs d = Some (d', ev) -> P d'.
Proof.
  induction rs as [|r rs IH]; intros Hw d d' ev Hd H; cbn [replay] in H.
  - inversion H; subst; assumption.
  - destruct (ADPCMB_write d (Z.of_nat r) _) as [[d1 ev1]|] eqn:E1; [|discriminate].
    destruct (replay rs regs d1) as [[d2 ev2]|] eqn:E2; [|discriminate].
    inversion H; subst.
    eapply IH; [| |exact E2].
    + intros; eapply Hw; eauto. right; assumption.
    + eapply Hw; eauto. left; reflexivity.
Qed.

(** The restore is the replay of the registers 1 to 15. *)
Lemma ADPCMB_postload_eq d regs :
  ADPCMB_postload d regs = postload_regs (seq 1 15) d regs.
Proof. unfold ADPCMB_postload. reflexivity. Qed.

Lemma postload_regs_inv (P : YM_DELTAT -> Prop) rs d regs d' ev :
  (forall s, P s -> P (set_volume 0 s)) ->
  (forall s x, P s -> P (set_reg x s)) ->
  (forall s x, P s -> P (set_now_data x s)) ->
  (forall s r v s' e,
      In r rs -> P s -> ADPCMB_write s (Z.of_nat r) v = Some (s', e) -> P s') ->
  P d -> postload_regs rs d regs = Some (d', ev) -> P d'.
Proof.
  intros Hv Hr Hn Hw Hd H. unfold postload_regs in H.
  destruct (replay rs regs (set_volume 0 d)) as [[d1 ev1]|] eqn:E; [|discriminate].
  assert (P d1) as Hd1 by (eapply replay_inv; [exact Hw| |exact E]; auto).
  cbv zeta in H.
  match type of H with
  | match read_byte ?s with _ => _ end = _ => destruct (read_byte s); [|discriminate]
  end.
  apply Some_pair_inv in H. destruct H as [<- _]. auto.
Qed.

Lemma ADPCMB_postload_inv (P : YM_DELTAT -> Prop) d regs d' ev :
  (forall s, P s -> P (set_volume 0 s)) ->
  (forall s x, P s -> P (set_reg x s)) ->
  (forall s x, P s -> P (set_now_data x s)) ->
  (forall s r v s' e,
      (1 <= r < 16)%nat -> P s -> ADPCMB_write s (Z.of_nat r) v = Some (s', e) -> P s') ->
  P d -> ADPCMB_postload d regs = Some (d', ev) -> P d'.
Proof.
  intros Hv Hr Hn Hw Hd H. rewrite ADPCMB_postload_eq in H.
  eapply postload_regs_inv; [exact Hv|exact Hr|exact Hn| |exact Hd|exact H].
  intros s r v s' e Hin. apply Hw. apply in_seq in Hin. clear - Hin. lia.
Qed.

(** ** The control state of the YM2610 *)

Section ControlState.

Lemma control_bits_mode v :
  Z.land (control_bits v) 0x20 = 0x20 /\ Z.land (control_bits v) 0x40 = 0.
Proof.
  rewrite control_bits_byte.
  assert (forallb
            (fun x => (Z.land (control_bits x) 0x20 =? 0x20)
                      && (Z.land (control_bits x) 0x40 =? 0))
            (map Z.of_nat (seq 0 256)) = true) as H by (vm_compute; reflexivity).
  pose proof (forall_bytes _ H (to_u8 v) (to_u8_range v)) as Hv.
  apply andb_prop in Hv. destruct Hv as [H1 H2].
  apply Z.eqb_eq in H1, H2. auto.
Qed.

Lemma ym2610_portstate_not_cpu p :
  ym2610_portstate p -> Z.land p 0xe0 <> 0x80 /\ Z.land p 0xe0 <> 0x60.
Proof.
  intros [->|[H5 H6]]; [split; discriminate|].
  assert (Z.land (Z.land p 0xe0) 0x20 = 0x20) as E5
    by (rewrite <- Z.land_assoc; exact H5).
  assert (Z.land (Z.land p 0xe0) 0x40 = 0) as E6
    by (rewrite <- Z.land_assoc; exact H6).
  split; intros E; rewrite E in *; discriminate.
Qed.

Lemma write_control_portstate v d :
  ym2610_portstate (portstate (fst (write_control v d))).
Proof.
  unfold write_control. fold (control_bits v). cbn.
  pose proof (control_bits_mode v).
  break_ifs; cbn; solve [left; reflexivity | right; assumption].
Qed.

End ControlState.

(** ** The loop bodies, by cases *)

Lemma ext_decode_cases d d' :
  ext_decode d = Some d' ->
  exists data d1,
    ext_fetch d = Some (data, d1) /\
    (d1 = d \/ exists x, d1 = set_now_data x d) /\
    d' = adpcm_update data
           (set_now_addr (Z.land (to_u32 (now_addr d1 + 1)) (Z.shiftl 1 (24 + 1) - 1))
              (set_now_addr (to_u32 (now_addr d1 + 1)) d1)).
Proof.
  unfold ext_decode. intros H.
  destruct (ext_fetch d) as [[data d1]|] eqn:E; [|discriminate].
  exists data, d1. split; [reflexivity|]. split.
  - unfold ext_fetch in E. destruct (Z.odd (now_addr d)).
    + apply Some_pair_inv in E. destruct E as [_ <-]. left; reflexivity.
    + destruct (read_byte d); [|discriminate].
      apply Some_pair_inv in E. destruct E as [_ <-]. right; eexists; reflexivity.
  - cbv zeta in H. apply Some_inj in H. rewrite <- H. reflexivity.
Qed.

Lemma ext_body_cases d fl d' ev :
  ext_body d = Some (fl, d', ev) ->
  let d1 := ext_limit_wrap d in
  (fl = Return /\ now_addr d1 = to_u32 (Z.shiftl (end_ d1) 1) /\
   Z.land (portstate d1) 0x10 = 0 /\ (d', ev) = ext_end_of_sample d1) \/
  (fl = Next /\ ev = [] /\ now_addr d1 = to_u32 (Z.shiftl (end_ d1) 1) /\
   Z.land (portstate d1) 0x10 <> 0 /\ ext_decode (ext_repeat d1) = Some d') \/
  (fl = Next /\ ev = [] /\ now_addr d1 <> to_u32 (Z.shiftl (end_ d1) 1) /\
   ext_decode d1 = Some d').
Proof.
  intros H. unfold ext_body in H. cbv zeta in H |- *.
  set (d1 := ext_limit_wrap d) in *.
  destruct (now_addr d1 =? to_u32 (Z.shiftl (end_ d1) 1)) eqn:Eend.
  - apply Z.eqb_eq in Eend.
    destruct (Z.land (portstate d1) 0x10 =? 0) eqn:Erep.
    + apply Z.eqb_eq in Erep. left.
      destruct (ext_end_of_sample d1) as [d2 ev2].
      apply Some_triple_inv in H. destruct H as (<- & <- & <-). auto.
    + apply Z.eqb_neq in Erep. right; left.
      destruct (ext_decode (ext_repeat d1)); [|discriminate].
      apply Some_triple_inv in H. destruct H as (<- & <- & <-). auto.
  - apply Z.eqb_neq in Eend. right; right.
    destruct (ext_decode d1); [|discriminate].
    apply Some_triple_inv in H. destruct H as (<- & <- & <-). auto.
Qed.

Lemma cpu_body_cases d fl d' ev :
  cpu_body d = Some (fl, d', ev) ->
  fl = Next /\
  exists data d1,
    (d1 = d \/ d1 = set_now_data (CPU_data d) d) /\
    d' = adpcm_update data (set_now_addr (to_u32 (now_addr d1 + 1)) d1).
Proof.
  unfold cpu_body. intros H.
  destruct (Z.odd (now_addr d));
    apply Some_triple_inv in H; destruct H as (<- & <- & <-);
    (split; [reflexivity|]); do 2 eexists; (split; [|reflexivity]); auto.
Qed.

Section BodyInvariants.

Variable P : YM_DELTAT -> Prop.

Hypothesis P_now_addr : forall d x, P d -> P (set_now_addr x d).

Hypothesis P_now_data : forall d x, P d -> P (set_now_data x d).

Hypothesis P_update : forall d data, P d -> P (adpcm_update data d).

Lemma ext_decode_inv d d' : P d -> ext_decode d = Some d' -> P d'.
Proof.
  intros Hd H. apply ext_decode_cases in H.
  destruct H as (data & d1 & _ & [->|[x ->]] & ->); auto.
Qed.

Lemma ext_limit_wrap_inv d : P d -> P (ext_limit_wrap d).
Proof. intros Hd. unfold ext_limit_wrap. destruct (_ =? _); auto. Qed.

Lemma ext_body_inv d fl d' ev :
  (forall s, P s -> P (fst (ext_end_of_sample s))) ->
  (forall s, P s -> P (ext_repeat s)) ->
  P d -> ext_body d = Some (fl, d', ev) -> P d'.
Proof.
  intros Heos Hrep Hd H. apply ext_body_cases in H. cbv zeta in H.
  pose proof (ext_limit_wrap_inv d Hd) as Hd1.
  destruct H as [(_ & _ & _ & H)|[(_ & _ & _ & _ & H)|(_ & _ & _ & H)]].
  - replace d' with (fst (ext_end_of_sample (ext_limit_wrap d)))
      by (rewrite <- H; reflexivity).
    auto.
  - eapply ext_decode_inv; [|exact H]. auto.
  - eapply ext_decode_inv; [|exact H]. auto.
Qed.

Lemma cpu_body_inv d fl d' ev : P d -> cpu_body d = Some (fl, d', ev) -> P d'.
Proof.
  intros Hd H. apply cpu_body_cases in H.
  destruct H as (_ & data & d1 & [->| ->] & ->); auto.
Qed.

Lemma ADPCMB_CALC_inv d d' ev :
  (forall s x, P s -> P (set_now_step x s)) ->
  (forall s, P s -> P (fst (interpolate s))) ->
  (forall s, P s -> P (fst (ext_end_of_sample s))) ->
  (forall s, P s -> P (ext_repeat s)) ->
  P d -> ADPCMB_CALC d = Some (d', ev) -> P d'.
Proof.
  intros Hstep Hint Heos Hrep Hd H. unfold ADPCMB_CALC in H.
  destruct (_ =? 0xa0).
  - eapply synthesis_inv; [exact Hstep|exact Hint| |exact Hd|exact H].
    intros; eapply ext_body_inv; eauto.
  - destruct (_ =? 0x80).
    + eapply synthesis_inv; [exact Hstep|exact Hint| |exact Hd|exact H].
      intros; eapply cpu_body_inv; eauto.
    + apply Some_pair_inv in H. destruct H as [<- _]. assumption.
Qed.

End BodyInvariants.

(** ** C10: the CPU-fed mode is out of reach *)

Lemma run_op_postload regs d : run_op (OpPostload regs) d = ADPCMB_postload d regs.
Proof. cbn [run_op]. reflexivity. Qed.

Lemma run_op_portstate o d d' ev :
  ym2610_portstate (portstate d) -> run_op o d = Some (d', ev) ->
  ym2610_portstate (portstate d').
Proof.
  intros Hd H. destruct o as [panidx|r v| | |regs]; revert H; cbn [run_op]; intros H.
  - apply Some_pair_inv in H. destruct H as [<- _]. right. split; reflexivity.
  - revert Hd H.
    apply (ADPCMB_write_inv (fun s => ym2610_portstate (portstate s))); try solve [frame].
    intros _ s _. apply write_control_portstate.
  - destruct (ADPCMB_read d) as [[[x d1] ev1]|] eqn:E; [|discriminate].
    apply Some_pair_inv in H. destruct H as [<- _].
    revert Hd E.
    apply (ADPCMB_read_inv (fun s => ym2610_portstate (portstate s))); frame.
  - revert Hd H.
    apply (ADPCMB_CALC_inv (fun s => ym2610_portstate (portstate s))); try solve [frame].
    intros s _. left. reflexivity.
  - revert Hd H.
    apply (ADPCMB_postload_inv (fun s => ym2610_portstate (portstate s))); try solve [frame].
    intros s r v s' e Hr.
    apply (ADPCMB_write_inv (fun s => ym2610_portstate (portstate s))); try solve [frame].
    intros _ s0 _. apply write_control_portstate.
Qed.

Lemma reachable_portstate d : reachable d -> ym2610_portstate (portstate d).
Proof.
  apply (reachable_inv (fun s => ym2610_portstate (portstate s))).
  - intros. right. split; reflexivity.
  - intros; eapply run_op_portstate; eauto.
Qed.

(** C10. In every reachable state the control state is 0 or has the
    external-memory bit 0x20 set and the record bit 0x40 clear, and so it is
    after a write to register 0; [(portstate & 0xe0) == 0x80] never holds:
    the output tick runs the external-memory synthesis or nothing, and a
    write to the data register only stores the byte in the register image
    (no latch of [CPU_data], no host call). *)
Theorem cpu_mode_unreachable (d : YM_DELTAT) :
  reachable d ->
  ym2610_portstate (portstate d) /\
  (forall v d' ev, ADPCMB_write d 0 v = Some (d', ev) ->
                   ym2610_portstate (portstate d')) /\
  Z.land (portstate d) 0xe0 <> 0x80 /\
  ADPCMB_CALC d =
    (if Z.land (portstate d) 0xe0 =? 0xa0
     then YM_DELTAT_synthesis_from_external_memory d else Some (d, [])) /\
  (forall v, ADPCMB_write d 8 v = Some (store_reg 8 v d, [])).
Proof.
  intros Hr. pose proof (reachable_portstate d Hr) as Hp.
  pose proof (ym2610_portstate_not_cpu _ Hp) as [Hcpu Hrec].
  split; [exact Hp|]. split; [|split; [exact Hcpu|split]].
  - intros v d' ev H. apply (run_op_portstate (OpWrite 0 v) d d' ev Hp H).
  - unfold ADPCMB_CALC. apply Z.eqb_neq in Hcpu. rewrite Hcpu. reflexivity.
  - intros v. cbn. unfold write_data. cbn.
    apply Z.eqb_neq in Hcpu, Hrec. rewrite Hcpu, Hrec. reflexivity.
Qed.

Lemma cpu_mode_unreachable_witness :
  reachable ym2610 /\ Z.land (portstate ym2610) 0xe0 <> 0x80.
Proof.
  split.
  - apply reach_reset.
  - apply (cpu_mode_unreachable ym2610 (reach_reset _ _)).
Defined.

(** ** C9: register indices out of range *)

(** An index of 0x10 or more is rejected: nothing changes and the host is
    not called. *)
Lemma ADPCMB_write_high_index d r v : 0x10 <= r -> ADPCMB_write d r v = Some (d, []).
Proof.
  intros Hr. unfold ADPCMB_write. apply Z.leb_le in Hr. rewrite Hr. reflexivity.
Qed.

(** A negative index passes the only test, [r >= 0x10], and reaches the
    store [reg[r] = v], which lies outside the array. *)
Lemma ADPCMB_write_negative_index d r v : r < 0 -> ADPCMB_write d r v = None.
Proof.
  intros Hr. unfold ADPCMB_write.
  destruct (0x10 <=? r) eqn:E; [apply Z.leb_le in E; lia|].
  apply Z.ltb_lt in Hr. rewrite Hr. reflexivity.
Qed.

(** C9. A write to register 0x10 leaves the unit as it is, but a write to
    register -1 is not rejected: it is the store outside the register image,
    not the no-op that leaves the state unchanged. *)
Theorem ADPCMB_write_index_minus_one :
  ADPCMB_write ym2610 0x10 0x55 = Some (ym2610, []) /\
  ADPCMB_write ym2610 (-1) 0x55 = None /\
  ADPCMB_write ym2610 (-1) 0x55 <> Some (ym2610, []).
Proof.
  split; [apply ADPCMB_write_high_index; lia|].
  rewrite ADPCMB_write_negative_index by lia. split; [reflexivity|discriminate].
Qed.

(** ** C6: the start bit *)

(** Bit 7 of the written value is bit 7 of the control state. *)
Lemma control_bits_start v : Z.land (control_bits v) 0x80 = Z.land v 0x80.
Proof.
  unfold control_bits.
  rewrite <- !Z.land_assoc. change (Z.land (Z.lnot 0x40) (Z.land 0xf1 0x80)) with 0x80.
  rewrite Z.land_lor_distr_l. change (Z.land 0x20 0x80) with 0.
  apply Z.lor_0_r.
Qed.

(** C6, amended. A write to register 0 with the start bit set zeroes the
    phase accumulator, the predictor, the previous predictor and the held
    output sample, resets the step size to 127 and clears [now_data], the
    byte the nibbles are taken from; the staging byte [CPU_data] keeps its
    value. *)
Theorem write_start_bit (d : YM_DELTAT) (v : Z) :
  Z.land v 0x80 <> 0 ->
  exists d' ev,
    ADPCMB_write d 0 v = Some (d', ev) /\
    now_step d' = 0 /\ acc d' = 0 /\ prev_acc d' = 0 /\ adpcml d' = 0 /\
    adpcmd d' = YM_DELTAT_DELTA_DEF /\ now_data d' = 0 /\
    CPU_data d' = CPU_data d.
Proof.
  intros Hv. rewrite <- control_bits_start in Hv. apply Z.eqb_neq in Hv.
  exists (fst (write_control v (store_reg 0 v d))),
         (snd (write_control v (store_reg 0 v d))).
  split.
  - cbn. rewrite <- surjective_pairing. reflexivity.
  - unfold write_control. fold (control_bits v). cbn. rewrite Hv. cbn.
    break_ifs; cbn; repeat split; reflexivity.
Qed.

Lemma write_start_bit_witness :
  Z.land 0x80 0x80 <> 0 /\
  exists d' ev,
    ADPCMB_write ym2610 0 0x80 = Some (d', ev) /\
    now_step d' = 0 /\ acc d' = 0 /\ prev_acc d' = 0 /\ adpcml d' = 0 /\
    adpcmd d' = YM_DELTAT_DELTA_DEF /\ now_data d' = 0 /\
    CPU_data d' = CPU_data ym2610.
Proof.
  assert (Z.land 0x80 0x80 <> 0) as H by (vm_compute; discriminate).
  split; [exact H|]. exact (write_start_bit ym2610 0x80 H).
Defined.

(** C6 as stated fails: after the write of 0x80 to register 0 the staging
    byte is still 0x5a. *)
Lemma write_start_bit_keeps_CPU_data :
  reachable staged /\
  option_map (fun r => CPU_data (fst r)) (ADPCMB_write staged 0 0x80) = Some 0x5a.
Proof.
  split; [apply reach_reset|]. vm_compute. reflexivity.
Qed.

(** ** C1: the predictor and the step size stay in range *)

Lemma YM_DELTAT_Limit_range val max min :
  min <= max -> min <= YM_DELTAT_Limit val max min <= max.
Proof.
  intros H. unfold YM_DELTAT_Limit.
  destruct (max <? val) eqn:E1; [lia|].
  destruct (val <? min) eqn:E2; [lia|].
  apply Z.ltb_ge in E1, E2. lia.
Qed.

Lemma adpcm_update_in_range data d : in_range (adpcm_update data d).
Proof.
  unfold in_range, adpcm_update. cbn.
  split; apply YM_DELTAT_Limit_range; vm_compute; discriminate.
Qed.

(** In range, the 32-bit arithmetic of the update does not wrap: the update
    is the one on unbounded integers. *)
Lemma decode_tables_bounds data :
  0 <= data < 16 ->
  -15 <= ym_deltat_decode_tableB1 data <= 15 /\
  57 <= ym_deltat_decode_tableB2 data <= 153.
Proof.
  intros H.
  assert (data = 0 \/ data = 1 \/ data = 2 \/ data = 3 \/ data = 4 \/ data = 5 \/
          data = 6 \/ data = 7 \/ data = 8 \/ data = 9 \/ data = 10 \/ data = 11 \/
          data = 12 \/ data = 13 \/ data = 14 \/ data = 15) as Hc by lia.
  repeat (destruct Hc as [->|Hc]; [vm_compute; intuition discriminate|]).
  subst data. vm_compute. intuition discriminate.
Qed.

Lemma adpcm_update_exact data d :
  in_range d -> 0 <= data < 16 ->
  prev_acc (adpcm_update data d) = acc d /\
  acc (adpcm_update data d) =
    YM_DELTAT_Limit (acc d + Z.quot (ym_deltat_decode_tableB1 data * adpcmd d) 8)
      YM_DELTAT_DECODE_MAX YM_DELTAT_DECODE_MIN /\
  adpcmd (adpcm_update data d) =
    YM_DELTAT_Limit (Z.quot (adpcmd d * ym_deltat_decode_tableB2 data) 64)
      YM_DELTAT_DELTA_MAX YM_DELTAT_DELTA_MIN.
Proof.
  intros [Ha Hs] Hdata. destruct (decode_tables_bounds data Hdata) as [H1 H2].
  unfold YM_DELTAT_DECODE_MIN, YM_DELTAT_DECODE_MAX, YM_DELTAT_DECODE_RANGE,
    YM_DELTAT_DELTA_MIN, YM_DELTAT_DELTA_MAX in Ha, Hs.
  unfold adpcm_update. cbn [prev_acc acc adpcmd set_prev_acc set_acc set_adpcmd].
  set (b1 := ym_deltat_decode_tableB1 data) in *.
  set (b2 := ym_deltat_decode_tableB2 data) in *.
  assert (-368640 <= b1 * adpcmd d <= 368640) as Hm1 by nia.
  assert (0 <= adpcmd d * b2 <= 3760128) as Hm2 by nia.
  assert (-46080 <= Z.quot (b1 * adpcmd d) 8 <= 46080) as Hq
    by (Z.quot_rem_to_equations; lia).
  rewrite (to_i32_small (b1 * adpcmd d)) by lia.
  rewrite (to_i32_small (acc d + _)) by lia.
  rewrite (to_i32_small (adpcmd d * b2)) by lia.
  auto.
Qed.

(** The loop ends in the last state of its trace when it runs to the end. *)
Lemma do_while_trace body n d d' ev :
  do_while body n d = Some (Next, d', ev) ->
  last (decode_trace body n d) = (if n is O then None else Some d') /\
  length (decode_trace body n d) = n.
Proof.
  revert d d' ev. induction n as [|n IH]; intros d d' ev H; cbn in H |- *.
  - auto.
  - destruct (body d) as [[[fl d1] ev1]|]; [|discriminate].
    destruct fl; [|discriminate].
    destruct (do_while body n d1) as [[[fl2 d2] ev2]|] eqn:E; [|discriminate].
    apply Some_triple_inv in H. destruct H as (-> & -> & _).
    destruct (IH _ _ _ E) as [Hl Hn]. split; [|cbn; lia].
    destruct n as [|n'].
    + cbn in E |- *. apply Some_triple_inv in E. destruct E as (_ & -> & _). reflexivity.
    + cbn [length] in *. rewrite last_cons, Hl. reflexivity.
Qed.

Lemma in_range_reset panidx d0 : in_range (fst (ADPCMB_reset panidx d0)).
Proof. unfold in_range. cbn. vm_compute. intuition discriminate. Qed.

Ltac frame_range := unfold in_range; frame; try solve [vm_compute; intuition discriminate].

Lemma in_range_write d r v d' ev :
  in_range d -> ADPCMB_write d r v = Some (d', ev) -> in_range d'.
Proof. apply (ADPCMB_write_inv in_range); frame_range. Qed.

Lemma in_range_run_op o d d' ev :
  in_range d -> run_op o d = Some (d', ev) -> in_range d'.
Proof.
  intros Hd H. destruct o as [panidx|r v| | |regs]; revert H; cbn [run_op]; intros H.
  - apply Some_pair_inv in H. destruct H as [<- _]. apply in_range_reset.
  - eapply in_range_write; eauto.
  - destruct (ADPCMB_read d) as [[[x d1] ev1]|] eqn:E; [|discriminate].
    apply Some_pair_inv in H. destruct H as [<- _].
    revert Hd E. apply (ADPCMB_read_inv in_range); frame_range.
  - revert Hd H.
    apply (ADPCMB_CALC_inv in_range);
      [frame_range|frame_range|intros; apply adpcm_update_in_range|frame_range..].
  - revert Hd H. apply (ADPCMB_postload_inv in_range); try solve [frame_range].
    intros s r v s' e _. apply in_range_write.
Qed.

Lemma reachable_in_range d : reachable d -> in_range d.
Proof.
  apply (reachable_inv in_range).
  - intros; apply in_range_reset.
  - intros; eapply in_range_run_op; eauto.
Qed.

Lemma decode_trace_in_range body n d :
  (forall s fl s' ev, in_range s -> body s = Some (fl, s', ev) -> in_range s') ->
  in_range d -> Forall in_range (decode_trace body n d).
Proof.
  intros Hbody. revert d. induction n as [|n IH]; intros d Hd; cbn.
  - constructor.
  - destruct (body d) as [[[fl d1] ev1]|] eqn:E; [|constructor].
    destruct fl; [|constructor].
    pose proof (Hbody _ _ _ _ Hd E). constructor; auto.
Qed.

Lemma ext_body_in_range s fl s' ev :
  in_range s -> ext_body s = Some (fl, s', ev) -> in_range s'.
Proof.
  apply (ext_body_inv in_range);
    [frame_range|frame_range|intros; apply adpcm_update_in_range|frame_range..].
Qed.

Lemma cpu_body_in_range s fl s' ev :
  in_range s -> cpu_body s = Some (fl, s', ev) -> in_range s'.
Proof.
  apply (cpu_body_inv in_range);
    [frame_range|frame_range|intros; apply adpcm_update_in_range|frame_range..].
Qed.

Lemma decode_nibbles_in_range nibbles d : Forall in_range (decode_nibbles nibbles d).
Proof.
  revert d. induction nibbles as [|data rest IH]; intros d; cbn; constructor.
  - apply adpcm_update_in_range.
  - apply IH.
Qed.

Lemma ym2610_reachable : reachable ym2610.
Proof. exact (reach_reset (attach (Some rom55)) 0). Qed.

(** C1. In a reachable state the predictor lies in [-32768, 32767] and the
    step size in [127, 24576]; so they do after every decode step of the
    tick that starts there, in the external-memory loop and in the CPU-fed
    loop, whatever the number of steps the tick takes, and in the state the
    tick ends in.  From the
    defaults [acc = 0], [adpcmd = 127] the bounds hold after each nibble of
    any sequence. *)
Theorem predictor_and_step_size_in_range (d : YM_DELTAT) :
  reachable d ->
  in_range d /\
  (forall n, Forall in_range (decode_trace ext_body n (tick_entry d))) /\
  (forall n, Forall in_range (decode_trace cpu_body n (tick_entry d))) /\
  (forall d' ev, ADPCMB_CALC d = Some (d', ev) -> in_range d') /\
  (forall s nibbles,
      acc s = 0 -> adpcmd s = YM_DELTAT_DELTA_DEF ->
      in_range s /\ Forall in_range (decode_nibbles nibbles s)).
Proof.
  intros Hr. pose proof (reachable_in_range d Hr) as Hd.
  split; [exact Hd|]. split; [|split; [|split]].
  - intros n. apply decode_trace_in_range; [apply ext_body_in_range|exact Hd].
  - intros n. apply decode_trace_in_range; [apply cpu_body_in_range|exact Hd].
  - intros d' ev H. apply (in_range_run_op OpCalc d d' ev Hd H).
  - intros s nibbles Ha Hs. split; [|apply decode_nibbles_in_range].
    unfold in_range. rewrite Ha, Hs. vm_compute. intuition discriminate.
Qed.

Lemma predictor_and_step_size_in_range_witness :
  reachable ym2610 /\ in_range ym2610.
Proof.
  split; [exact ym2610_reachable|].
  exact (proj1 (predictor_and_step_size_in_range ym2610 ym2610_reachable)).
Defined.

(** ** Runs from reachable states *)

Lemma run_reachable os : forall d d' ev,
  reachable d -> run os d = Some (d', ev) -> reachable d'.
Proof.
  induction os as [|o os IH]; intros d d' ev Hd H; cbn [run] in H.
  - apply Some_pair_inv in H. destruct H as [<- _]. exact Hd.
  - destruct (run_op o d) as [[d1 ev1]|] eqn:E1; [|discriminate].
    destruct (run os d1) as [[d2 ev2]|] eqn:E2; [|discriminate].
    apply Some_pair_inv in H. destruct H as [<- _].
    eapply IH; [|exact E2]. eapply reach_op; eauto.
Qed.

Lemma run_state_reachable os d d' :
  reachable d -> run_state os d = Some d' -> reachable d'.
Proof.
  unfold run_state. intros Hd H.
  destruct (run os d) as [[d1 ev1]|] eqn:E; [|discriminate].
  apply Some_inj in H. subst d1. eapply run_reachable; eauto.
Qed.

(** ** C7: the cursor after an increment *)

(** C7, amended. After the increment of the cursor by a decode step of the
    external-memory loop the cursor is masked to 25 bits: it is below 2^25. *)
Theorem ext_decode_step_masks_cursor (d d' : YM_DELTAT) (ev : list host_call) :
  ext_body d = Some (Next, d', ev) -> 0 <= now_addr d' < 2 ^ 25.
Proof.
  intros H. apply ext_body_cases in H. cbv zeta in H.
  assert (exists s, ext_decode s = Some d') as [s Hs].
  { destruct H as [(Hfl & _)|[(_ & _ & _ & _ & H)|(_ & _ & _ & H)]];
      [discriminate|eauto..]. }
  apply ext_decode_cases in Hs. destruct Hs as (data & d1 & _ & _ & ->).
  unfold adpcm_update. cbn [now_addr set_adpcmd set_acc set_prev_acc set_now_addr].
  change (Z.shiftl 1 (24 + 1) - 1) with (Z.ones 25).
  rewrite Z.land_ones by lia. apply Z.mod_pos_bound. lia.
Qed.

Lemma ext_decode_step_masks_cursor_witness :
  ext_body playing = Some (Next, playing_next, []) /\
  0 <= now_addr playing_next < 2 ^ 25.
Proof.
  assert (ext_body playing = Some (Next, playing_next, [])) as H
    by (vm_compute; reflexivity).
  split; [exact H|].
  exact (ext_decode_step_masks_cursor playing playing_next [] H).
Defined.

(** C7 as stated fails: the increment by a read of the data register is not
    masked, and takes the cursor of a reachable state from 2^25 - 2 to
    2^25. *)
Lemma data_read_cursor_unmasked :
  reachable reading_top /\
  now_addr reading_top = 2 ^ 25 - 2 /\
  option_map now_addr (run_state [OpRead] reading_top) = Some (2 ^ 25).
Proof.
  split; [|split; vm_compute; reflexivity].
  apply (run_state_reachable read_to_top ym2610); [exact ym2610_reachable|].
  vm_compute. reflexivity.
Qed.

(** Neither is the increment by a decode step of the CPU-fed loop. *)
Lemma cpu_decode_cursor_unmasked :
  option_map (fun r => now_addr (snd (fst r)))
    (cpu_body (set_now_addr (2 ^ 25 - 1) ym2610)) = Some (2 ^ 25).
Proof. vm_compute. reflexivity. Qed.

(** ** C3: the dummy reads of the data register *)

(** A write to register 0 with the start and reset bits clear selects the
    external-memory read mode. *)
Lemma control_bits_read_mode v :
  Z.land v 0x80 = 0 -> Z.land v 0x01 = 0 ->
  Z.land (control_bits v) 0x80 = 0 /\ Z.land (control_bits v) 0x20 <> 0 /\
  Z.land (control_bits v) 0x01 = 0 /\ Z.land (control_bits v) 0xe0 = 0x20.
Proof.
  intros H7 H0.
  rewrite land_byte_mask in H7, H0 by lia. rewrite control_bits_byte.
  assert (forallb
            (fun x =>
               implb ((Z.land x 0x80 =? 0) && (Z.land x 0x01 =? 0))
                 ((Z.land (control_bits x) 0x80 =? 0)
                  && negb (Z.land (control_bits x) 0x20 =? 0)
                  && (Z.land (control_bits x) 0x01 =? 0)
                  && (Z.land (control_bits x) 0xe0 =? 0x20)))
            (map Z.of_nat (seq 0 256)) = true) as H by (vm_compute; reflexivity).
  pose proof (forall_bytes _ H (to_u8 v) (to_u8_range v)) as Hv. cbv beta in Hv.
  apply Z.eqb_eq in H7, H0. rewrite H7, H0 in Hv. cbn [andb implb] in Hv.
  repeat (apply andb_prop in Hv; destruct Hv as [Hv ?]).
  repeat match goal with
    | E : (_ =? _) = true |- _ => apply Z.eqb_eq in E
    | E : negb (_ =? _) = true |- _ => apply negb_true_iff, Z.eqb_neq in E
    end.
  auto.
Qed.

(** The state that such a write leaves. *)
Lemma write_control_read_mode v d :
  Z.land v 0x80 = 0 -> Z.land v 0x01 = 0 ->
  write_control v d =
    (set_memread 2
       (set_now_addr (to_u32 (Z.shiftl (start d) 1))
          (set_portstate (control_bits v) d)), []).
Proof.
  intros H7 H0. destruct (control_bits_read_mode v H7 H0) as (B7 & B5 & B0 & _).
  unfold write_control. fold (control_bits v).
  cbn [portstate set_portstate set_now_addr set_memread].
  apply Z.eqb_eq in B7, B0. apply Z.eqb_neq in B5. rewrite B7.
  cbn [portstate set_portstate set_now_addr set_memread]. rewrite B5.
  cbn [portstate set_portstate set_now_addr set_memread start]. rewrite B0.
  reflexivity.
Qed.

Lemma start_cursor_byte d : 0 <= start d < 2 ^ 31 -> Z.shiftr (start_cursor d) 1 = start d.
Proof.
  intros H. unfold start_cursor. rewrite Z.shiftl_mul_pow2 by lia.
  rewrite to_u32_small by lia. rewrite Z.shiftr_div_pow2 by lia.
  apply Z.div_mul. lia.
Qed.

(** A write to a register other than register 0 keeps the read mode, the
    count of dummy reads and the memory. *)
Lemma read_armed_write d r v d' ev :
  r <> 0 -> read_armed d -> ADPCMB_write d r v = Some (d', ev) ->
  read_armed d' /\ read_byte d' = read_byte d.
Proof.
  intros Hr Ha Hw.
  assert (read_armed d /\ read_byte d = read_byte d) as H0 by (split; [exact Ha|reflexivity]).
  revert H0 Hw.
  apply (ADPCMB_write_inv (fun s => read_armed s /\ read_byte s = read_byte d));
    try solve [unfold read_armed; frame].
  - intros E. contradiction.
  - intros s [[Hm Hc] Hb]. unfold write_data. rewrite Hm.
    cbn [Z.eqb Pos.eqb fst]. split; [split|]; assumption.
Qed.

Lemma read_armed_writes ws : forall d d' ev,
  other_registers ws = true -> read_armed d ->
  run (write_ops ws) d = Some (d', ev) ->
  read_armed d' /\ read_byte d' = read_byte d.
Proof.
  induction ws as [|[r v] ws IH]; intros d d' ev Hws Ha H;
    cbn [write_ops map run run_op fst snd] in H.
  - apply Some_pair_inv in H. destruct H as [<- _]. auto.
  - destruct (ADPCMB_write d r v) as [[d1 ev1]|] eqn:E1; [|discriminate].
    fold (write_ops ws) in H.
    destruct (run (write_ops ws) d1) as [[d2 ev2]|] eqn:E2; [|discriminate].
    apply Some_pair_inv in H. destruct H as [<- _].
    cbn [other_registers forallb fst] in Hws. apply andb_prop in Hws.
    destruct Hws as [Hr Hws]. apply negb_true_iff, Z.eqb_neq in Hr.
    destruct (read_armed_write d r v d1 ev1 Hr Ha E1) as [Ha1 Hb1].
    destruct (IH d1 d2 ev2 Hws Ha1 E2) as [Ha2 Hb2].
    split; [exact Ha2|congruence].
Qed.

(** The three reads that follow, from any state in read mode with the two
    dummy reads to come, wherever its cursor is. *)
Lemma dummy_reads_from (s : YM_DELTAT) (rom : Z -> Z) :
  read_armed s -> read_byte s = Some rom ->
  exists s1 s2,
    ADPCMB_read s = Some (0, s1, []) /\
    now_addr s1 = start_cursor s /\ memread s1 = 1 /\
    ADPCMB_read s1 = Some (0, s2, []) /\
    now_addr s2 = start_cursor s /\ memread s2 = 0 /\
    (start_cursor s <> end_cursor s ->
     exists s3 ev3,
       ADPCMB_read s2 = Some (to_u8 (rom (Z.shiftr (start_cursor s) 1)), s3, ev3) /\
       now_addr s3 = to_u32 (start_cursor s + 2) /\
       (0 <= start s < 2 ^ 31 -> Z.shiftr (start_cursor s) 1 = start s)) /\
    (start_cursor s = end_cursor s ->
     ADPCMB_read s2 = Some (0, s2, status_set s2 (status_change_EOS_bit s2))).
Proof.
  intros [Hmode Hmem] Hrom. apply Z.eqb_eq in Hmode.
  set (s1 := set_memread 1 (set_now_addr (start_cursor s) s)).
  set (s2 := set_memread 0 (set_now_addr (start_cursor s) s1)).
  exists s1, s2.
  split; [|split; [|split; [|split; [|split; [|split; [|split]]]]]].
  - unfold ADPCMB_read. rewrite Hmode. cbv zeta. cbn [memread set_now_addr].
    rewrite Hmem. reflexivity.
  - reflexivity.
  - reflexivity.
  - unfold ADPCMB_read. cbn [portstate s1 set_memread set_now_addr memread].
    rewrite Hmode. reflexivity.
  - reflexivity.
  - reflexivity.
  - intros Hne. apply Z.eqb_neq in Hne.
    exists (set_now_addr (to_u32 (start_cursor s + 2)) s2),
           (status_reset s2 (status_change_BRDY_bit s2)
              ++ status_set s2 (status_change_BRDY_bit s2)).
    split; [|split; [reflexivity|apply start_cursor_byte]].
    unfold ADPCMB_read.
    cbn [portstate s2 s1 set_memread set_now_addr memread now_addr end_ read_byte].
    rewrite Hmode. fold (end_cursor s). rewrite Hne, Hrom. reflexivity.
  - intros He. apply Z.eqb_eq in He.
    unfold ADPCMB_read.
    cbn [portstate s2 s1 set_memread set_now_addr memread now_addr end_ read_byte].
    rewrite Hmode. fold (end_cursor s). rewrite He. reflexivity.
Qed.

(** C3, amended. A write to register 0 with the start and reset bits clear
    puts the unit in external-memory read mode, with the cursor on the start
    address of that moment, and calls nothing.  Whatever registers other
    than register 0 the host writes next (the addresses in particular), the
    unit stays in read mode with the two dummy reads to come; the first two
    reads of the data register then return 0 and each puts the cursor on
    the start address as it is now; the third read returns the byte of the
    memory at the start address and moves the cursor on by two nibbles,
    provided the start address is not the end address: when it is, the
    third read returns 0, raises EOS and leaves the cursor. *)
Theorem data_register_dummy_reads
    (d : YM_DELTAT) (v : Z) (ws : list (Z * Z)) (s : YM_DELTAT)
    (ev : list host_call) (rom : Z -> Z) :
  Z.land v 0x80 = 0 -> Z.land v 0x01 = 0 -> read_byte d = Some rom ->
  other_registers ws = true ->
  run (write_ops ((0, v) :: ws)) d = Some (s, ev) ->
  (exists d0,
      ADPCMB_write d 0 v = Some (d0, []) /\ now_addr d0 = start_cursor d /\
      run (write_ops ws) d0 = Some (s, ev)) /\
  Z.land (portstate s) 0xe0 = 0x20 /\ memread s = 2 /\
  exists s1 s2,
    ADPCMB_read s = Some (0, s1, []) /\
    now_addr s1 = start_cursor s /\ memread s1 = 1 /\
    ADPCMB_read s1 = Some (0, s2, []) /\
    now_addr s2 = start_cursor s /\ memread s2 = 0 /\
    (start_cursor s <> end_cursor s ->
     exists s3 ev3,
       ADPCMB_read s2 = Some (to_u8 (rom (Z.shiftr (start_cursor s) 1)), s3, ev3) /\
       now_addr s3 = to_u32 (start_cursor s + 2) /\
       (0 <= start s < 2 ^ 31 -> Z.shiftr (start_cursor s) 1 = start s)) /\
    (start_cursor s = end_cursor s ->
     ADPCMB_read s2 = Some (0, s2, status_set s2 (status_change_EOS_bit s2))).
Proof.
  intros H7 H0 Hrom Hws Hrun.
  destruct (control_bits_read_mode v H7 H0) as (_ & _ & _ & Hmode).
  set (d0 := set_memread 2
               (set_now_addr (start_cursor d)
                  (set_portstate (control_bits v) (store_reg 0 v d)))).
  assert (ADPCMB_write d 0 v = Some (d0, [])) as Hw
    by (cbn -[write_control]; rewrite write_control_read_mode by assumption;
        reflexivity).
  assert (run (write_ops ws) d0 = Some (s, ev)) as Hrun0.
  { cbn [write_ops map run run_op fst snd] in Hrun. rewrite Hw in Hrun.
    fold (write_ops ws) in Hrun.
    destruct (run (write_ops ws) d0) as [[d2 ev2]|]; [|discriminate].
    cbn [app] in Hrun. exact Hrun. }
  assert (read_armed d0) as Ha0 by (split; [exact Hmode|reflexivity]).
  destruct (read_armed_writes ws d0 s ev Hws Ha0 Hrun0) as [Ha Hb].
  split; [exists d0; split; [exact Hw|split; [reflexivity|exact Hrun0]]|].
  split; [apply Ha|]. split; [apply Ha|].
  apply dummy_reads_from; [exact Ha|].
  rewrite Hb. exact Hrom.
Qed.

Lemma data_register_dummy_reads_witness :
  Z.land 0x20 0x80 = 0 /\ Z.land 0x20 0x01 = 0 /\ read_byte ym2610 = Some rom55 /\
  other_registers [(4, 0x02); (2, 0x01)] = true /\
  run (write_ops [(0, 0x20); (4, 0x02); (2, 0x01)]) ym2610 = Some (addressed_late, []) /\
  now_addr addressed_late = 0 /\
  start_cursor addressed_late <> end_cursor addressed_late /\
  exists s1 s2 s3 ev3,
    ADPCMB_read addressed_late = Some (0, s1, []) /\ now_addr s1 = 0x200 /\
    ADPCMB_read s1 = Some (0, s2, []) /\ now_addr s2 = 0x200 /\
    ADPCMB_read s2 = Some (to_u8 (rom55 0x100), s3, ev3) /\
    now_addr s3 = 0x202.
Proof.
  assert (Z.land 0x20 0x80 = 0) as H7 by reflexivity.
  assert (Z.land 0x20 0x01 = 0) as H0 by reflexivity.
  assert (read_byte ym2610 = Some rom55) as Hrom by reflexivity.
  assert (other_registers [(4, 0x02); (2, 0x01)] = true) as Hws by reflexivity.
  assert (run (write_ops [(0, 0x20); (4, 0x02); (2, 0x01)]) ym2610
          = Some (addressed_late, [])) as Hrun by (vm_compute; reflexivity).
  assert (start_cursor addressed_late <> end_cursor addressed_late) as Hne
    by (vm_compute; discriminate).
  split; [exact H7|]. split; [exact H0|]. split; [exact Hrom|]. split; [exact Hws|].
  split; [exact Hrun|]. split; [vm_compute; reflexivity|]. split; [exact Hne|].
  destruct (data_register_dummy_reads ym2610 0x20 [(4, 0x02); (2, 0x01)]
              addressed_late [] rom55 H7 H0 Hrom Hws Hrun)
    as (_ & _ & _ & s1 & s2 & Hr1 & Ha1 & _ & Hr2 & Ha2 & _ & Hr3 & _).
  destruct (Hr3 Hne) as (s3 & ev3 & Hr & Ha & _).
  exists s1, s2, s3, ev3.
  split; [exact Hr1|]. split; [exact Ha1|]. split; [exact Hr2|].
  split; [exact Ha2|]. split; [exact Hr|exact Ha].
Defined.

(** C3 as stated fails: right after the reset the start and the end address
    are both 0, and the third read returns 0, not the byte 0x55 that the
    memory holds at the start address; the cursor stays at 0. *)
Lemma third_read_at_end_of_sample :
  reachable ym2610 /\
  option_map (fun m => to_u8 (m (start ym2610))) (read_byte ym2610) = Some 0x55 /\
  match run_state [OpWrite 0 0x20] ym2610 with
  | Some d0 => option_map (fun r => (fst r, now_addr (snd r))) (read_values 3 d0)
  | None => None
  end = Some ([0; 0; 0], 0).
Proof.
  split; [exact ym2610_reachable|]. split; vm_compute; reflexivity.
Qed.

(** ** C5: the end address against the start address *)

Lemma lor_bytes hi lo :
  0 <= hi < 256 -> 0 <= lo < 256 -> Z.lor (hi * 256) lo = hi * 256 + lo.
Proof.
  intros Hhi Hlo.
  assert (forallb
            (fun h => forallb (fun l => Z.lor (h * 256) l =? h * 256 + l)
                        (map Z.of_nat (seq 0 256)))
            (map Z.of_nat (seq 0 256)) = true) as H by (vm_compute; reflexivity).
  pose proof (forall_bytes _ H hi Hhi) as H1. cbv beta in H1.
  pose proof (forall_bytes _ H1 lo Hlo) as H2. cbv beta in H2.
  apply Z.eqb_eq in H2. exact H2.
Qed.







Lemma odd_memory_type v : dram_rightshift (Z.land (Z.lor v 0x01) 3) = 0.
Proof.
  rewrite (land_byte_mask (Z.lor v 1) 3) by lia.
  assert (to_u8 (Z.lor v 1) = Z.lor (to_u8 v) 1) as ->.
  { unfold to_u8. change 256 with (2 ^ 8). rewrite <- !Z.land_ones by lia.
    rewrite Z.land_lor_distr_l. reflexivity. }
  assert (forallb (fun x => dram_rightshift (Z.land (Z.lor x 1) 3) =? 0)
            (map Z.of_nat (seq 0 256)) = true) as H by (vm_compute; reflexivity).
  pose proof (forall_bytes _ H (to_u8 v) (to_u8_range v)) as Hv.
  apply Z.eqb_eq in Hv. exact Hv.
Qed.






Lemma addresses_kept_derived d r : r = 1 \/ addresses_derived d -> kept_derived d r.
Proof.
  intros [->|[Hs He]]; unfold kept_derived, addresses_derived.
  - repeat split; intros; lia.
  - auto.
Qed.





(** ** C2: the end of the sample with the repeat bit clear *)

Lemma ext_body_next d d' ev :
  ext_body d = Some (Next, d', ev) -> ev = [] /\ same_control d d'.
Proof.
  intros H. apply ext_body_cases in H. cbv zeta in H.
  assert (same_control d (ext_limit_wrap d)) as H1
    by (unfold same_control, ext_limit_wrap; destruct (_ =? _); cbn; auto 6).
  assert (same_control d (ext_repeat (ext_limit_wrap d))) as H2
    by (unfold same_control, ext_repeat, ext_limit_wrap; destruct (_ =? _); cbn; auto 6).
  assert (forall s, same_control d s -> ext_decode s = Some d' -> same_control d d') as Hdec.
  { intros s Hs Hd. apply ext_decode_cases in Hd.
    destruct Hd as (data & s1 & _ & [->|[x ->]] & ->); exact Hs. }
  destruct H as [(Hfl & _)|[(_ & -> & _ & _ & H)|(_ & -> & _ & H)]];
    [discriminate|split; eauto..].
Qed.

Lemma ext_passes_same_control k : forall d dk,
  ext_passes k d = Some dk -> same_control d dk.
Proof.
  induction k as [|k IH]; intros d dk H; cbn [ext_passes] in H.
  - apply Some_inj in H. subst dk. unfold same_control. auto 6.
  - destruct (ext_body d) as [[[fl d1] ev1]|] eqn:E; [|discriminate].
    destruct fl; [|discriminate].
    apply ext_body_next in E. destruct E as [_ (E1 & E2 & E3 & E4 & E5)].
    apply IH in H. destruct H as (H1 & H2 & H3 & H4 & H5).
    unfold same_control. repeat split; congruence.
Qed.

(** The loop leaves the function at the first pass that does. *)
Lemma do_while_ext_return k : forall n d dk d' ev,
  (k < n)%nat -> ext_passes k d = Some dk -> ext_body dk = Some (Return, d', ev) ->
  do_while ext_body n d = Some (Return, d', ev).
Proof.
  induction k as [|k IH]; intros n d dk d' ev Hn Hk Hret;
    (destruct n as [|n]; [lia|]); cbn [ext_passes] in Hk; cbn [do_while].
  - apply Some_inj in Hk. subst dk. rewrite Hret. reflexivity.
  - destruct (ext_body d) as [[[fl d1] ev1]|] eqn:E; [|discriminate].
    destruct fl; [|discriminate].
    apply ext_body_next in E. destruct E as [-> _].
    rewrite (IH n d1 dk d' ev) by (assumption || lia). reflexivity.
Qed.

(** At the end address with the repeat bit clear a pass is the end of the
    sample. *)
Lemma ext_body_end_of_sample d :
  now_addr (ext_limit_wrap d) = end_cursor d -> Z.land (portstate d) 0x10 = 0 ->
  ext_body d =
    Some (Return, fst (ext_end_of_sample (ext_limit_wrap d)),
          status_set d (status_change_EOS_bit d)).
Proof.
  intros Hend Hrep. unfold ext_body, end_cursor in *. cbv zeta.
  apply Z.eqb_eq in Hrep.
  unfold ext_limit_wrap in *.
  destruct (now_addr d =? to_u32 (Z.shiftl (limit d) 1));
    cbn [now_addr end_ portstate set_now_addr] in *;
    apply Z.eqb_eq in Hend; rewrite Hend, Hrep; reflexivity.
Qed.

(** With the start bit clear a tick does nothing. *)
Lemma ADPCMB_CALC_stopped d : Z.land (portstate d) 0x80 = 0 -> ADPCMB_CALC d = Some (d, []).
Proof.
  intros H. unfold ADPCMB_CALC.
  assert (Z.land (Z.land (portstate d) 0xe0) 0x80 = 0) as H'
    by (rewrite <- Z.land_assoc; exact H).
  destruct (Z.land (portstate d) 0xe0 =? 0xa0) eqn:E1;
    [apply Z.eqb_eq in E1; rewrite E1 in H'; discriminate|].
  destruct (Z.land (portstate d) 0xe0 =? 0x80) eqn:E2;
    [apply Z.eqb_eq in E2; rewrite E2 in H'; discriminate|].
  reflexivity.
Qed.

(** Only a write to register 0 with the start bit sets the start bit. *)
Lemma write_control_stopped v s :
  Z.land v 0x80 = 0 -> Z.land (portstate (fst (write_control v s))) 0x80 = 0.
Proof.
  intros Hv. unfold write_control. fold (control_bits v). cbn.
  rewrite control_bits_start, Hv. cbn.
  break_ifs; cbn; first [reflexivity | rewrite control_bits_start; exact Hv].
Qed.

Lemma ADPCMB_write_stopped d r v d' ev :
  (r = 0 -> Z.land v 0x80 = 0) ->
  Z.land (portstate d) 0x80 = 0 -> ADPCMB_write d r v = Some (d', ev) ->
  Z.land (portstate d') 0x80 = 0.
Proof.
  intros Ho.
  apply (ADPCMB_write_inv (fun s => Z.land (portstate s) 0x80 = 0)); try solve [frame].
  intros E0 s _. apply write_control_stopped. auto.
Qed.

Lemma run_op_stopped o d d' ev :
  no_start o -> Z.land (portstate d) 0x80 = 0 -> run_op o d = Some (d', ev) ->
  Z.land (portstate d') 0x80 = 0.
Proof.
  intros Ho Hd H. destruct o as [panidx|r v| | |regs]; revert H; cbn [run_op]; intros H.
  - apply Some_pair_inv in H. destruct H as [<- _]. reflexivity.
  - eapply ADPCMB_write_stopped; eauto.
  - destruct (ADPCMB_read d) as [[[x d1] ev1]|] eqn:E; [|discriminate].
    apply Some_pair_inv in H. destruct H as [<- _].
    revert Hd E. apply (ADPCMB_read_inv (fun s => Z.land (portstate s) 0x80 = 0)); frame.
  - rewrite ADPCMB_CALC_stopped in H by assumption.
    apply Some_pair_inv in H. destruct H as [<- _]. exact Hd.
  - revert Hd H.
    apply (ADPCMB_postload_inv (fun s => Z.land (portstate s) 0x80 = 0));
      try solve [frame].
    intros s r v s' e Hr. apply ADPCMB_write_stopped. lia.
Qed.

Lemma run_stopped os : forall d d' ev,
  Forall no_start os -> Z.land (portstate d) 0x80 = 0 -> run os d = Some (d', ev) ->
  Z.land (portstate d') 0x80 = 0.
Proof.
  induction os as [|o os IH]; intros d d' ev Hos Hd H; cbn [run] in H.
  - apply Some_pair_inv in H. destruct H as [<- _]. exact Hd.
  - destruct (run_op o d) as [[d1 ev1]|] eqn:E1; [|discriminate].
    destruct (run os d1) as [[d2 ev2]|] eqn:E2; [|discriminate].
    apply Some_pair_inv in H. destruct H as [<- _].
    inversion Hos as [|? ? Ho Hos']; subst.
    eapply IH; [exact Hos'| |exact E2].
    eapply run_op_stopped; eauto.
Qed.

Lemma synthesis_loop body d :
  (0 < tick_steps d)%nat ->
  synthesis body d =
    match do_while body (tick_steps d) (tick_entry d) with
    | None => None
    | Some (Return, d', ev) => Some (d', ev)
    | Some (Next, d', ev) => let (d'', ev') := interpolate d' in Some (d'', ev ++ ev')
    end.
Proof.
  intros Hn. unfold synthesis, tick_steps, tick_entry in *. cbv zeta.
  cbn [now_step set_now_step].
  set (phase := to_u32 (now_step d + step d)) in *.
  assert ((Z.shiftl 1 YM_DELTAT_SHIFT <=? phase) = true) as ->; [|reflexivity].
  apply Z.leb_le. change (Z.shiftl 1 YM_DELTAT_SHIFT) with 65536.
  unfold YM_DELTAT_SHIFT in Hn. rewrite Z.shiftr_div_pow2 in Hn by lia.
  destruct (Z_lt_le_dec phase 65536) as [Hlt|Hge]; [|exact Hge].
  pose proof (to_u32_range (now_step d + step d)) as Hph. fold phase in Hph.
  rewrite Z.div_small in Hn by (change (2 ^ 16) with 65536; lia).
  cbn in Hn. lia.
Qed.

(** C2. In external-memory playback with the repeat bit clear, a tick whose
    loop finds the cursor on the end address, after [k] decode steps, calls
    the status-set handler for EOS and makes no other call: once, when the
    handler is set and EOS has a bit.  It leaves the unit not busy, with the
    control state, the held sample and the previous predictor at zero and
    the cursor on the end address.  From then on, whatever the host calls
    other than a write to register 0 with the start bit, a tick changes
    nothing and calls nothing. *)
Theorem end_of_sample_without_repeat (d : YM_DELTAT) (k : nat) (dk : YM_DELTAT) :
  Z.land (portstate d) 0xe0 = 0xa0 ->
  Z.land (portstate d) 0x10 = 0 ->
  (k < tick_steps d)%nat ->
  ext_passes k (tick_entry d) = Some dk ->
  now_addr (ext_limit_wrap dk) = end_cursor dk ->
  exists d',
    ADPCMB_CALC d = Some (d', status_set d (status_change_EOS_bit d)) /\
    (status_set_handler d = true -> status_change_EOS_bit d <> 0 ->
     status_set d (status_change_EOS_bit d) = [StatusSet (status_change_EOS_bit d)]) /\
    PCM_BSY d' = 0 /\ portstate d' = 0 /\ adpcml d' = 0 /\ prev_acc d' = 0 /\
    now_addr d' = end_cursor dk /\
    (forall os d'' ev,
        Forall no_start os -> run os d' = Some (d'', ev) ->
        ADPCMB_CALC d'' = Some (d'', [])).
Proof.
  intros Hmode Hrep Hk Hpass Hend.
  pose proof (ext_passes_same_control _ _ _ Hpass) as (Hp & _ & _ & Hh & Hb).
  change (portstate (tick_entry d)) with (portstate d) in Hp.
  change (status_set_handler (tick_entry d)) with (status_set_handler d) in Hh.
  change (status_change_EOS_bit (tick_entry d)) with (status_change_EOS_bit d) in Hb.
  assert (ext_body dk =
            Some (Return, fst (ext_end_of_sample (ext_limit_wrap dk)),
                  status_set d (status_change_EOS_bit d))) as Hret.
  { rewrite ext_body_end_of_sample by (rewrite ?Hp; assumption).
    unfold status_set. rewrite Hh, Hb. reflexivity. }
  exists (fst (ext_end_of_sample (ext_limit_wrap dk))).
  split; [|split; [|split; [|split; [|split; [|split; [|split]]]]]].
  - unfold ADPCMB_CALC. apply Z.eqb_eq in Hmode. rewrite Hmode.
    unfold YM_DELTAT_synthesis_from_external_memory.
    rewrite synthesis_loop by lia.
    rewrite (do_while_ext_return k _ _ dk _ _ Hk Hpass Hret). reflexivity.
  - intros H1 H2. unfold status_set. rewrite H1.
    apply Z.eqb_neq in H2. rewrite H2. reflexivity.
  - reflexivity.
  - reflexivity.
  - reflexivity.
  - reflexivity.
  - exact Hend.
  - intros os d'' ev Hos Hrun. apply ADPCMB_CALC_stopped.
    eapply run_stopped; [exact Hos| |exact Hrun]. reflexivity.
Qed.

Lemma end_of_sample_without_repeat_witness :
  Z.land (portstate fast) 0xe0 = 0xa0 /\
  Z.land (portstate fast) 0x10 = 0 /\
  (510 < tick_steps fast)%nat /\
  ext_passes 510 (tick_entry fast) = Some fast_end /\
  now_addr (ext_limit_wrap fast_end) = end_cursor fast_end /\
  exists d',
    ADPCMB_CALC fast = Some (d', [StatusSet 0x80]) /\
    PCM_BSY d' = 0 /\ portstate d' = 0 /\ adpcml d' = 0 /\ prev_acc d' = 0 /\
    now_addr d' = 510.
Proof.
  assert (Z.land (portstate fast) 0xe0 = 0xa0) as H1 by (vm_compute; reflexivity).
  assert (Z.land (portstate fast) 0x10 = 0) as H2 by (vm_compute; reflexivity).
  assert (510 < tick_steps fast)%nat as H3.
  { assert (tick_steps fast = 511%nat) as -> by (vm_compute; reflexivity). lia. }
  assert (ext_passes 510 (tick_entry fast) = Some fast_end) as H4
    by (vm_compute; reflexivity).
  assert (now_addr (ext_limit_wrap fast_end) = end_cursor fast_end) as H5
    by (vm_compute; reflexivity).
  split; [exact H1|]. split; [exact H2|]. split; [exact H3|].
  split; [exact H4|]. split; [exact H5|].
  destruct (end_of_sample_without_repeat fast 510 fast_end H1 H2 H3 H4 H5)
    as (d' & Hc & _ & Hb & Hp & Hl & Hv & Ha & _).
  exists d'. split; [exact Hc|]. split; [exact Hb|]. split; [exact Hp|].
  split; [exact Hl|]. split; [exact Hv|]. rewrite Ha. vm_compute. reflexivity.
Defined.

(** ** C8: hosts without callbacks *)

Ltac unfold_configure :=
  cbn [configure set_write_byte set_status_set_handler set_status_reset_handler
         set_portstate set_PCM_BSY set_now_step set_acc set_prev_acc set_adpcml
         set_adpcmd set_now_data set_now_addr set_memread set_CPU_data set_pan
         set_DRAMportshift set_control2 set_start set_end_ set_limit set_delta
         set_step set_volume set_reg fst snd
         read_byte write_byte pan freqbase output_range now_addr now_step step start
         limit end_ delta volume acc adpcmd adpcml prev_acc now_data CPU_data portstate
         control2 portshift DRAMportshift memread status_set_handler
         status_reset_handler status_change_EOS_bit status_change_BRDY_bit PCM_BSY reg].

Lemma status_set_configure h d bit :
  status_set (configure h d) bit = List.filter (kept h) (status_set d bit).
Proof.
  unfold status_set. unfold_configure.
  destruct h as [w s r]. cbn [has_set].
  destruct s, (status_set_handler d), (negb (bit =? 0)); reflexivity.
Qed.

Lemma status_reset_configure h d bit :
  status_reset (configure h d) bit = List.filter (kept h) (status_reset d bit).
Proof.
  unfold status_reset. unfold_configure.
  destruct h as [w s r]. cbn [has_reset].
  destruct r, (status_reset_handler d), (negb (bit =? 0)); reflexivity.
Qed.

Ltac split_conditions :=
  unfold_configure;
  repeat (match goal with
          | |- context [if ?c =? ?x then _ else _] =>
              lazymatch c with
              | context [if _ then _ else _] => fail
              | _ => destruct (c =? x)
              end
          end; unfold_configure).

Lemma write_control_configure h v d :
  write_control v (configure h d) =
    (configure h (fst (write_control v d)),
     List.filter (kept h) (snd (write_control v d))).
Proof.
  unfold write_control. cbv zeta. split_conditions;
    rewrite <- ?status_set_configure; reflexivity.
Qed.

Lemma write_data_configure h v d :
  write_data v (configure h d) =
    (configure h (fst (write_data v d)),
     List.filter (kept h) (snd (write_data v d))).
Proof.
  unfold write_data. cbv zeta. split_conditions;
    rewrite ?List.filter_app, <- ?status_set_configure, <- ?status_reset_configure;
    try reflexivity.
  all: destruct h as [w s r]; cbn [has_write]; destruct w, (write_byte d); reflexivity.
Qed.

Lemma write_control2_configure h v d :
  write_control2 v (configure h d) = configure h (write_control2 v d).
Proof.
  unfold write_control2, derive_limit, derive_end, derive_start, addr_shift, pair16,
    reg_at. cbv zeta. split_conditions; reflexivity.
Qed.

Lemma write_volume_configure h v d :
  write_volume v (configure h d) = configure h (write_volume v d).
Proof. unfold write_volume. cbv zeta. split_conditions; reflexivity. Qed.

Lemma ADPCMB_write_configure h d r v :
  ADPCMB_write (configure h d) r v = configured h (ADPCMB_write d r v).
Proof.
  unfold ADPCMB_write.
  destruct (0x10 <=? r) eqn:Hhi; [reflexivity|].
  destruct (r <? 0) eqn:Hlo; [reflexivity|].
  apply Z.leb_gt in Hhi. apply Z.ltb_ge in Hlo.
  change (store_reg r v (configure h d)) with (configure h (store_reg r v d)).
  generalize (store_reg r v d). intros t.
  reg_cases r; cbn [configured];
    rewrite ?write_control_configure, ?write_data_configure, ?write_control2_configure,
      ?write_volume_configure;
    try reflexivity.
  - destruct (write_control v t); reflexivity.
  - destruct (write_data v t); reflexivity.
Qed.

Lemma ADPCMB_reset_configure h panidx d :
  ADPCMB_reset panidx (configure h d) =
    (configure h (fst (ADPCMB_reset panidx d)),
     List.filter (kept h) (snd (ADPCMB_reset panidx d))).
Proof.
  unfold ADPCMB_reset. cbv zeta. cbn [fst snd].
  rewrite <- status_set_configure. reflexivity.
Qed.

Lemma ADPCMB_read_configure h d :
  ADPCMB_read (configure h d) =
    match ADPCMB_read d with
    | Some (v, d', ev) => Some (v, configure h d', List.filter (kept h) ev)
    | None => None
    end.
Proof.
  unfold ADPCMB_read. unfold_configure.
  destruct (Z.land (portstate d) 0xe0 =? 0x20); [|reflexivity].
  destruct (memread d =? 0); cbn [negb]; [|reflexivity].
  destruct (now_addr d =? to_u32 (Z.shiftl (end_ d) 1)); cbn [negb].
  - rewrite <- status_set_configure. reflexivity.
  - destruct (read_byte d); [|reflexivity].
    rewrite List.filter_app, <- status_set_configure, <- status_reset_configure.
    reflexivity.
Qed.

Lemma adpcm_update_configure h data d :
  adpcm_update data (configure h d) = configure h (adpcm_update data d).
Proof. reflexivity. Qed.

Lemma ext_decode_configure h d :
  ext_decode (configure h d) = option_map (configure h) (ext_decode d).
Proof.
  unfold ext_decode, ext_fetch. unfold_configure.
  destruct (Z.odd (now_addr d)); [reflexivity|].
  destruct (read_byte d); reflexivity.
Qed.

Lemma ext_body_configure h d :
  ext_body (configure h d) = configured_pass h (ext_body d).
Proof.
  unfold ext_body. cbv zeta.
  assert (ext_limit_wrap (configure h d) = configure h (ext_limit_wrap d)) as ->
    by (unfold ext_limit_wrap; unfold_configure; destruct (_ =? _); reflexivity).
  generalize (ext_limit_wrap d). intros t. unfold_configure.
  destruct (now_addr t =? to_u32 (Z.shiftl (end_ t) 1)).
  - destruct (Z.land (portstate t) 0x10 =? 0).
    + unfold ext_end_of_sample. cbv zeta. cbn [configured_pass].
      rewrite <- status_set_configure. reflexivity.
    + change (ext_repeat (configure h t)) with (configure h (ext_repeat t)).
      rewrite ext_decode_configure. destruct (ext_decode (ext_repeat t)); reflexivity.
  - rewrite ext_decode_configure. destruct (ext_decode t); reflexivity.
Qed.

Lemma cpu_body_configure h d :
  cpu_body (configure h d) = configured_pass h (cpu_body d).
Proof.
  unfold cpu_body. unfold_configure.
  destruct (Z.odd (now_addr d)); cbn [configured_pass].
  - rewrite <- status_set_configure. reflexivity.
  - reflexivity.
Qed.

Lemma do_while_configure h body :
  (forall d, body (configure h d) = configured_pass h (body d)) ->
  forall n d, do_while body n (configure h d) = configured_pass h (do_while body n d).
Proof.
  intros Hbody n. induction n as [|n IH]; intros d; cbn [do_while].
  - reflexivity.
  - rewrite Hbody. destruct (body d) as [[[fl d1] ev1]|]; cbn [configured_pass];
      [|reflexivity].
    destruct fl; [|reflexivity].
    rewrite IH. destruct (do_while body n d1) as [[[fl2 d2] ev2]|];
      cbn [configured_pass]; [|reflexivity].
    rewrite List.filter_app. reflexivity.
Qed.

Lemma synthesis_configure h body :
  (forall d, body (configure h d) = configured_pass h (body d)) ->
  forall d, synthesis body (configure h d) = configured h (synthesis body d).
Proof.
  intros Hbody d. unfold synthesis. cbv zeta. unfold_configure.
  destruct (Z.shiftl 1 YM_DELTAT_SHIFT <=? to_u32 (now_step d + step d)).
  - match goal with
    | |- context [do_while body ?n (set_now_step ?x (set_now_step ?y (configure h d)))] =>
        change (set_now_step x (set_now_step y (configure h d)))
          with (configure h (set_now_step x (set_now_step y d)));
        rewrite (do_while_configure h body Hbody n);
        destruct (do_while body n (set_now_step x (set_now_step y d)))
          as [[[fl d1] ev1]|]
    end; cbn [configured_pass configured]; [|reflexivity].
    destruct fl; [|reflexivity].
    unfold interpolate. cbv zeta. unfold_configure. cbn [configured].
    rewrite List.filter_app. reflexivity.
  - reflexivity.
Qed.

Lemma ADPCMB_CALC_configure h d :
  ADPCMB_CALC (configure h d) = configured h (ADPCMB_CALC d).
Proof.
  unfold ADPCMB_CALC. unfold_configure.
  destruct (Z.land (portstate d) 0xe0 =? 0xa0).
  - apply synthesis_configure, ext_body_configure.
  - destruct (Z.land (portstate d) 0xe0 =? 0x80); [|reflexivity].
    apply synthesis_configure, cpu_body_configure.
Qed.

Lemma replay_configure h rs regs : forall d,
  replay rs regs (configure h d) = configured h (replay rs regs d).
Proof.
  induction rs as [|x rs IH]; intros d; cbn [replay].
  - reflexivity.
  - rewrite ADPCMB_write_configure.
    destruct (ADPCMB_write d (Z.of_nat x) _) as [[d1 ev1]|]; cbn [configured];
      [|reflexivity].
    rewrite IH. destruct (replay rs regs d1) as [[d2 ev2]|]; cbn [configured];
      [|reflexivity].
    rewrite List.filter_app. reflexivity.
Qed.

Lemma postload_regs_configure h rs d regs :
  postload_regs rs (configure h d) regs = configured h (postload_regs rs d regs).
Proof.
  unfold postload_regs. cbv zeta.
  change (set_volume 0 (configure h d)) with (configure h (set_volume 0 d)).
  rewrite replay_configure.
  destruct (replay rs regs (set_volume 0 d)) as [[d1 ev1]|]; cbn [configured];
    [|reflexivity].
  unfold_configure. destruct (read_byte d1); reflexivity.
Qed.

Lemma ADPCMB_postload_configure h d regs :
  ADPCMB_postload (configure h d) regs = configured h (ADPCMB_postload d regs).
Proof.
  rewrite (ADPCMB_postload_eq d regs), (ADPCMB_postload_eq (configure h d) regs).
  exact (postload_regs_configure h (seq 1 15) d regs).
Qed.

Lemma run_op_configure h o d : run_op o (configure h d) = configured h (run_op o d).
Proof.
  destruct o as [panidx|x v| | |regs]; cbn [run_op].
  - rewrite ADPCMB_reset_configure. destruct (ADPCMB_reset panidx d); reflexivity.
  - apply ADPCMB_write_configure.
  - rewrite ADPCMB_read_configure. destruct (ADPCMB_read d) as [[[v d1] ev1]|]; reflexivity.
  - apply ADPCMB_CALC_configure.
  - apply ADPCMB_postload_configure.
Qed.

(** *** No call fails for the lack of a callback *)

Lemma ADPCMB_write_total d r v :
  0 <= r -> exists d' ev, ADPCMB_write d r v = Some (d', ev).
Proof.
  intros Hr. unfold ADPCMB_write.
  destruct (0x10 <=? r) eqn:Hhi; [eauto|].
  apply Z.ltb_ge in Hr. rewrite Hr. apply Z.ltb_ge in Hr. apply Z.leb_gt in Hhi.
  generalize (store_reg r v d). intros t.
  reg_cases r; cbn; try (do 2 eexists; reflexivity).
  - destruct (write_control v t); eauto.
  - destruct (write_data v t); eauto.
Qed.

Lemma mapped_write rom d r v d' ev :
  mapped rom d -> ADPCMB_write d r v = Some (d', ev) -> mapped rom d'.
Proof. apply (ADPCMB_write_inv (mapped rom)); unfold mapped; frame. Qed.

Lemma ext_body_total rom d :
  mapped rom d -> exists fl d' ev, ext_body d = Some (fl, d', ev) /\ mapped rom d'.
Proof.
  unfold mapped. intros Hd.
  assert (forall t, read_byte t = Some rom ->
                    exists t', ext_decode t = Some t' /\ read_byte t' = Some rom) as Hdec.
  { intros t Ht. unfold ext_decode, ext_fetch.
    destruct (Z.odd (now_addr t)); [|rewrite Ht]; eexists; (split; [reflexivity|exact Ht]). }
  unfold ext_body. cbv zeta.
  assert (read_byte (ext_limit_wrap d) = Some rom) as Hw
    by (unfold ext_limit_wrap; destruct (_ =? _); exact Hd).
  revert Hw. generalize (ext_limit_wrap d). intros t Ht.
  destruct (now_addr t =? _).
  - destruct (Z.land (portstate t) 0x10 =? 0).
    + unfold ext_end_of_sample. cbv zeta. do 3 eexists. split; [reflexivity|exact Ht].
    + destruct (Hdec (ext_repeat t) Ht) as (t' & -> & Ht'). eauto 6.
  - destruct (Hdec t Ht) as (t' & -> & Ht'). eauto 6.
Qed.

Lemma cpu_body_total rom d :
  mapped rom d -> exists fl d' ev, cpu_body d = Some (fl, d', ev) /\ mapped rom d'.
Proof.
  unfold mapped, cpu_body. intros Hd.
  destruct (Z.odd (now_addr d)); do 3 eexists; (split; [reflexivity|exact Hd]).
Qed.

Lemma do_while_total rom body :
  (forall d, mapped rom d ->
             exists fl d' ev, body d = Some (fl, d', ev) /\ mapped rom d') ->
  forall n d, mapped rom d ->
              exists fl d' ev, do_while body n d = Some (fl, d', ev) /\ mapped rom d'.
Proof.
  intros Hbody n. induction n as [|n IH]; intros d Hd; cbn [do_while].
  - eauto 6.
  - destruct (Hbody d Hd) as (fl & d1 & ev1 & -> & Hd1).
    destruct fl; [|eauto 6].
    destruct (IH d1 Hd1) as (fl2 & d2 & ev2 & -> & Hd2). eauto 6.
Qed.

Lemma synthesis_total rom body d :
  (forall t, mapped rom t ->
             exists fl t' ev, body t = Some (fl, t', ev) /\ mapped rom t') ->
  mapped rom d -> exists d' ev, synthesis body d = Some (d', ev) /\ mapped rom d'.
Proof.
  intros Hbody Hd. unfold synthesis. cbv zeta.
  destruct (_ <=? _).
  - match goal with
    | |- context [do_while body ?n ?t] =>
        destruct (do_while_total rom body Hbody n t Hd) as (fl & d1 & ev1 & -> & Hd1)
    end.
    destruct fl; [|eauto].
    unfold interpolate. cbv zeta. do 2 eexists. split; [reflexivity|exact Hd1].
  - unfold interpolate. cbv zeta. do 2 eexists. split; [reflexivity|exact Hd].
Qed.

Lemma replay_total rom rs regs : forall d,
  mapped rom d -> exists d' ev, replay rs regs d = Some (d', ev) /\ mapped rom d'.
Proof.
  induction rs as [|x rs IH]; intros d Hd; cbn [replay].
  - eauto.
  - destruct (ADPCMB_write_total d (Z.of_nat x) (to_u8 (default 0 (regs !! x))))
      as (d1 & ev1 & E1); [lia|].
    rewrite E1. pose proof (mapped_write _ _ _ _ _ _ Hd E1) as Hd1.
    destruct (IH d1 Hd1) as (d2 & ev2 & -> & Hd2). eauto.
Qed.

Lemma run_op_total rom o d :
  mapped rom d -> index_ok o ->
  exists d' ev, run_op o d = Some (d', ev) /\ mapped rom d'.
Proof.
  intros Hd Ho. destruct o as [panidx|x v| | |regs]; cbn [run_op].
  - do 2 eexists. split; [reflexivity|exact Hd].
  - destruct (ADPCMB_write_total d x v Ho) as (d' & ev & E).
    exists d', ev. split; [exact E|]. eapply mapped_write; eauto.
  - unfold ADPCMB_read. unfold mapped in Hd.
    destruct (_ =? 0x20); [|eauto].
    destruct (negb (memread d =? 0)); [do 2 eexists; split; [reflexivity|exact Hd]|].
    destruct (negb (now_addr d =? _)); [|eauto].
    rewrite Hd. do 2 eexists; split; [reflexivity|exact Hd].
  - unfold ADPCMB_CALC.
    destruct (_ =? 0xa0); [apply synthesis_total; [apply ext_body_total|exact Hd]|].
    destruct (_ =? 0x80); [apply synthesis_total; [apply cpu_body_total|exact Hd]|].
    eauto.
  - rewrite ADPCMB_postload_eq. unfold postload_regs. cbv zeta.
    destruct (replay_total rom (seq 1 15) regs (set_volume 0 d) Hd)
      as (d1 & ev1 & -> & Hd1).
    unfold mapped in Hd1. cbn [read_byte set_reg]. rewrite Hd1.
    do 2 eexists. split; [reflexivity|exact Hd1].
Qed.

(** C8, amended. On a host that lacks any of the byte-write callback, the
    status-set handler and the status-reset handler, every call of the unit
    does what it does on a host that has them, less the calls of the missing
    callbacks: it fails or goes through alike and leaves the same state.  It
    goes through whenever the external memory is mapped and the register
    index is not negative, calling only what the host provides. *)
Theorem missing_callbacks_are_skipped (h : callbacks) (o : op) (d : YM_DELTAT) :
  run_op o (configure h d) = configured h (run_op o d) /\
  (forall rom,
      mapped rom d -> index_ok o ->
      exists d' ev,
        run_op o (configure h d) = Some (d', ev) /\
        Forall (fun c => kept h c = true) ev).
Proof.
  split; [apply run_op_configure|].
  intros rom Hd Ho. rewrite run_op_configure.
  destruct (run_op_total rom o d Hd Ho) as (d' & ev & -> & _).
  cbn [configured]. do 2 eexists. split; [reflexivity|].
  apply List.Forall_forall. intros c Hc. apply List.filter_In in Hc. apply Hc.
Qed.

Lemma missing_callbacks_are_skipped_witness :
  mapped rom55 ym2610 /\ index_ok (OpWrite 0 0x01) /\
  exists d' ev,
    run_op (OpWrite 0 0x01) (configure no_callbacks ym2610) = Some (d', ev) /\
    Forall (fun c => kept no_callbacks c = true) ev.
Proof.
  assert (mapped rom55 ym2610) as H1 by reflexivity.
  assert (index_ok (OpWrite 0 0x01)) as H2 by (cbn; lia).
  split; [exact H1|]. split; [exact H2|].
  exact (proj2 (missing_callbacks_are_skipped no_callbacks (OpWrite 0 0x01) ym2610)
           rom55 H1 H2).
Defined.

(** C8 as stated fails for the memory read: with [read_byte] null the
    restore, the third read of the data register and the first decode step
    index the null pointer. *)
Lemma unmapped_memory_fails :
  reachable unmapped /\
  ADPCMB_postload unmapped (reg unmapped) = None /\
  goes_through [OpWrite 4 0x01; OpWrite 0 0x20; OpRead; OpRead] unmapped = true /\
  goes_through [OpWrite 4 0x01; OpWrite 0 0x20; OpRead; OpRead; OpRead] unmapped = false /\
  goes_through [OpWrite 9 0xff; OpWrite 10 0xff; OpWrite 4 0x01; OpWrite 0 0x80; OpCalc]
    unmapped = true /\
  goes_through
    [OpWrite 9 0xff; OpWrite 10 0xff; OpWrite 4 0x01; OpWrite 0 0x80; OpCalc; OpCalc]
    unmapped = false.
Proof.
  split; [apply reach_reset|].
  repeat split; vm_compute; reflexivity.
Qed.

(** ** C4: the restore from the register image *)

Lemma to_u8_lor_1 v : to_u8 (Z.lor v 1) = Z.lor (to_u8 v) 1.
Proof.
  unfold to_u8. change 256 with (2 ^ 8). rewrite <- !Z.land_ones by lia.
  rewrite Z.land_lor_distr_l. reflexivity.
Qed.

Lemma to_u8_land_ff v : Z.land v 0xff = to_u8 v.
Proof. unfold to_u8. change 0xff with (Z.ones 8). apply Z.land_ones. lia. Qed.

Lemma reg_at_store_eq r v d :
  (Z.to_nat r < length (reg d))%nat -> reg_at (store_reg r v d) (Z.to_nat r) = to_u8 v.
Proof.
  intros H. unfold reg_at, store_reg. cbn [reg set_reg].
  rewrite list_lookup_insert_eq by assumption. reflexivity.
Qed.

Lemma image_ok_write d r v d' ev :
  image_ok d -> ADPCMB_write d r v = Some (d', ev) -> image_ok d'.
Proof.
  apply (ADPCMB_write_inv image_ok); unfold image_ok;
    try solve [frame; rewrite ?length_insert; assumption].
  intros s [Hl Hs]. unfold write_control2. cbv zeta.
  rewrite odd_memory_type. cbn [DRAMportshift set_pan]. rewrite Hs. cbn.
  break_ifs; cbn; auto.
Qed.

(** Each derived field follows the register image: a write to a register of
    its group derives it, and a write to another register keeps it. *)
Ltac write_case Hw :=
  apply ADPCMB_write_cases in Hw;
  destruct Hw as [(? & -> & _)|(Hr & Hw)]; [intuition lia|];
  cbv zeta in Hw;
  match type of Hw with
  | _ = ?rhs => replace_state rhs Hw
  end
with replace_state rhs Hw :=
  match goal with
  | |- context [?p ?d'] =>
      is_var d'; match type of Hw with (d', _) = _ => idtac end;
      replace d' with (fst rhs) by (rewrite <- Hw; reflexivity); clear Hw
  end.

Ltac other_register :=
  unfold write_deltan, write_volume, write_control2, write_data, write_control,
    rate_of in *;
  unfold derive_start, derive_end, derive_limit in *;
  unfold addr_shift, pair16 in *; unfold reg_at, store_reg in *;
  cbv zeta;
  repeat (match goal with
          | |- context [if ?c then _ else _] =>
              lazymatch c with
              | context [if _ then _ else _] => fail
              | _ => destruct c eqn:?
              end
          end; reduce_fields);
  reduce_fields;
  rewrite ?list_lookup_insert_ne by (cbn; lia);
  try reflexivity; try solve [intuition (assumption || lia)].

Lemma start_derived_write d r v d' ev :
  start_derived d \/ r = 2 \/ r = 3 ->
  ADPCMB_write d r v = Some (d', ev) -> start_derived d'.
Proof.
  intros Hd Hw. unfold start_derived in *. write_case Hw.
  reg_cases r; cbn [Z.eqb Pos.eqb orb fst]; other_register.
Qed.

Lemma end_derived_write d r v d' ev :
  end_derived d \/ r = 4 \/ r = 5 ->
  ADPCMB_write d r v = Some (d', ev) -> end_derived d'.
Proof.
  intros Hd Hw. unfold end_derived in *. write_case Hw.
  reg_cases r; cbn [Z.eqb Pos.eqb orb fst]; other_register.
Qed.

Lemma limit_derived_write d r v d' ev :
  limit_derived d \/ r = 12 \/ r = 13 ->
  ADPCMB_write d r v = Some (d', ev) -> limit_derived d'.
Proof.
  intros Hd Hw. unfold limit_derived in *. write_case Hw.
  reg_cases r; cbn [Z.eqb Pos.eqb orb fst]; other_register.
Qed.

Lemma rate_derived_write d r v d' ev :
  rate_derived d \/ r = 9 \/ r = 10 ->
  ADPCMB_write d r v = Some (d', ev) -> rate_derived d'.
Proof.
  intros Hd Hw. unfold rate_derived in *. write_case Hw.
  reg_cases r; cbn [Z.eqb Pos.eqb orb fst]; other_register.
Qed.

Lemma to_u8_idem v : to_u8 (to_u8 v) = to_u8 v.
Proof. apply to_u8_small, to_u8_range. Qed.

Lemma volume_derived_write d r v d' ev :
  image_ok d -> volume_derived d \/ r = 11 ->
  ADPCMB_write d r v = Some (d', ev) -> volume_derived d'.
Proof.
  intros [Hl _] Hd Hw. unfold volume_derived in *. write_case Hw.
  reg_cases r; cbn [Z.eqb Pos.eqb orb fst]; other_register.
  all: rewrite list_lookup_insert_eq by (rewrite Hl; cbn; lia);
    unfold volume_of; cbn [from_option id];
    rewrite !to_u8_land_ff, to_u8_idem; reflexivity.
Qed.

Lemma control2_derived_write d r v d' ev :
  image_ok d -> control2_derived d \/ r = 1 ->
  ADPCMB_write d r v = Some (d', ev) -> control2_derived d'.
Proof.
  intros [Hl _] Hd Hw. unfold control2_derived in *. write_case Hw.
  reg_cases r; cbn [Z.eqb Pos.eqb orb fst]; other_register.
  all: rewrite list_lookup_insert_eq by (rewrite Hl; cbn; lia);
    cbn [from_option id]; apply to_u8_lor_1.
Qed.

Lemma replay_run rs regs : forall d, replay rs regs d = run (write_ops (image_writes rs regs)) d.
Proof.
  induction rs as [|r rs IH]; intros d; cbn [replay image_writes write_ops map run run_op fst snd].
  - reflexivity.
  - destruct (ADPCMB_write d (Z.of_nat r) _) as [[d1 ev1]|]; [|reflexivity].
    rewrite IH. reflexivity.
Qed.

Lemma image_ok_writes ws : forall d d' ev,
  image_ok d -> run (write_ops ws) d = Some (d', ev) -> image_ok d'.
Proof.
  induction ws as [|[r v] ws IH]; intros d d' ev Hd H;
    cbn [write_ops map run run_op fst snd] in H.
  - apply Some_pair_inv in H. destruct H as [<- _]. exact Hd.
  - destruct (ADPCMB_write d r v) as [[d1 ev1]|] eqn:E1; [|discriminate].
    fold (write_ops ws) in H.
    destruct (run (write_ops ws) d1) as [[d2 ev2]|] eqn:E2; [|discriminate].
    apply Some_pair_inv in H. destruct H as [<- _].
    eapply IH; [|exact E2]. eapply image_ok_write; eauto.
Qed.

Section Groups.

Variable I : YM_DELTAT -> Prop.

Variable g : Z -> bool.

Hypothesis I_write : forall d r v d' ev,
  image_ok d -> I d \/ g r = true -> ADPCMB_write d r v = Some (d', ev) -> I d'.

(** A derived field follows the image after a sequence of writes that has
    one to a register of its group. *)
Lemma derived_after_writes ws : forall d d' ev,
  image_ok d -> I d \/ written g ws = true ->
  run (write_ops ws) d = Some (d', ev) -> I d'.
Proof.
  induction ws as [|[r v] ws IH]; intros d d' ev Hok Hd H;
    cbn [write_ops map run run_op fst snd] in H.
  - apply Some_pair_inv in H. destruct H as [<- _].
    destruct Hd as [Hd|Hd]; [exact Hd|discriminate].
  - destruct (ADPCMB_write d r v) as [[d1 ev1]|] eqn:E1; [|discriminate].
    fold (write_ops ws) in H.
    destruct (run (write_ops ws) d1) as [[d2 ev2]|] eqn:E2; [|discriminate].
    apply Some_pair_inv in H. destruct H as [<- _].
    eapply IH; [eapply image_ok_write; eauto| |exact E2].
    cbn [written existsb fst] in Hd. fold (written g ws) in Hd.
    destruct (written g ws); [right; reflexivity|left].
    eapply I_write; [exact Hok| |exact E1].
    destruct Hd as [Hd|Hd]; [left; exact Hd|right].
    rewrite orb_false_r in Hd. exact Hd.
Qed.

End Groups.

Ltac group_regs :=
  match goal with
  | H : _ \/ _ = true |- _ =>
      destruct H as [H|H]; [left; exact H|right];
      unfold start_regs, end_regs, limit_regs, rate_regs, volume_regs,
        control2_regs in H; lia
  end.

Lemma image_derived_after_writes ws d d' ev :
  image_ok d -> all_groups_written ws = true ->
  run (write_ops ws) d = Some (d', ev) -> image_derived d'.
Proof.
  intros Hok Hall Hrun. unfold all_groups_written in Hall.
  repeat (apply andb_prop in Hall; destruct Hall as [Hall ?]).
  repeat split.
  - eapply (derived_after_writes start_derived start_regs); eauto.
    intros; eapply start_derived_write; [|eassumption]. group_regs.
  - eapply (derived_after_writes end_derived end_regs); eauto.
    intros; eapply end_derived_write; [|eassumption]. group_regs.
  - eapply (derived_after_writes limit_derived limit_regs); eauto.
    intros; eapply limit_derived_write; [|eassumption]. group_regs.
  - eapply (derived_after_writes rate_derived rate_regs); eauto.
    intros; eapply rate_derived_write; [|eassumption]. group_regs.
  - eapply (derived_after_writes volume_derived volume_regs); eauto.
    intros; eapply volume_derived_write; [eassumption| |eassumption]. group_regs.
  - eapply (derived_after_writes control2_derived control2_regs); eauto.
    intros; eapply control2_derived_write; [eassumption| |eassumption]. group_regs.
Qed.

Lemma same_host_write T d r v d' ev :
  same_host T d -> ADPCMB_write d r v = Some (d', ev) -> same_host T d'.
Proof. apply (ADPCMB_write_inv (same_host T)); unfold same_host; frame. Qed.

Lemma same_host_writes T ws : forall d d' ev,
  same_host T d -> run (write_ops ws) d = Some (d', ev) -> same_host T d'.
Proof.
  induction ws as [|[r v] ws IH]; intros d d' ev Hd H;
    cbn [write_ops map run run_op fst snd] in H.
  - apply Some_pair_inv in H. destruct H as [<- _]. exact Hd.
  - destruct (ADPCMB_write d r v) as [[d1 ev1]|] eqn:E1; [|discriminate].
    fold (write_ops ws) in H.
    destruct (run (write_ops ws) d1) as [[d2 ev2]|] eqn:E2; [|discriminate].
    apply Some_pair_inv in H. destruct H as [<- _].
    eapply IH; [|exact E2]. eapply same_host_write; eauto.
Qed.

Lemma image_derived_unique d d' :
  image_derived d -> image_derived d' -> reg d = reg d' -> same_host d d' ->
  DRAMportshift d = DRAMportshift d' -> derived_fields d = derived_fields d'.
Proof.
  intros (H1 & H2 & H3 & H4 & H5 & H6) (H1' & H2' & H3' & H4' & H5' & H6')
    Hreg (Hp & Ho & Hf) Hs.
  unfold start_derived, end_derived, limit_derived, rate_derived, volume_derived,
    control2_derived, rate_of, derive_start, derive_end, derive_limit, addr_shift,
    pair16, reg_at in *.
  reduce_fields. cbn in H1, H2, H3, H1', H2', H3'.
  apply pair_equal_spec in H4, H4'. destruct H4 as [H4 H7], H4' as [H4' H7'].
  unfold derived_fields.
  rewrite H1, H2, H3, H4, H5, H6, H7, H1', H2', H3', H4', H5', H6', H7'.
  rewrite Hreg, Hp, Ho, Hf, Hs. reflexivity.
Qed.

(** The register image after a write, after the replay and after the
    restore. *)
Lemma ADPCMB_write_reg d r v d' ev :
  0 <= r < 16 -> ADPCMB_write d r v = Some (d', ev) ->
  reg d' = <[Z.to_nat r := to_u8 v]> (reg d).
Proof.
  intros Hr0 Hw. write_case Hw.
  reg_cases r; cbn [Z.eqb Pos.eqb orb fst]; other_register.
Qed.

Lemma replay_reg rs regs : forall d d' ev,
  Forall (fun r => (r < 16)%nat) rs ->
  replay rs regs d = Some (d', ev) -> reg d' = replay_image rs regs (reg d).
Proof.
  induction rs as [|r rs IH]; intros d d' ev Hrs H; cbn [replay] in H.
  - apply Some_pair_inv in H. destruct H as [<- _]. reflexivity.
  - destruct (ADPCMB_write d (Z.of_nat r) _) as [[d1 ev1]|] eqn:E1; [|discriminate].
    destruct (replay rs regs d1) as [[d2 ev2]|] eqn:E2; [|discriminate].
    apply Some_pair_inv in H. destruct H as [<- _].
    apply Forall_cons in Hrs. destruct Hrs as [Hr Hrs'].
    rewrite (IH _ _ _ Hrs' E2).
    assert (0 <= Z.of_nat r < 16) as Hr' by lia.
    rewrite (ADPCMB_write_reg _ _ _ _ _ Hr' E1).
    rewrite Nat2Z.id, to_u8_idem. reflexivity.
Qed.

Lemma postload_regs_reg rs d regs d' ev :
  Forall (fun r => (r < 16)%nat) rs ->
  postload_regs rs d regs = Some (d', ev) ->
  reg d' = <[0%nat := to_u8 (default 0 (regs !! 0%nat))]> (replay_image rs regs (reg d)).
Proof.
  intros Hrs H. unfold postload_regs in H. cbv zeta in H.
  destruct (replay rs regs (set_volume 0 d)) as [[d1 ev1]|] eqn:E; [|discriminate].
  apply replay_reg in E; [|exact Hrs]. cbn [reg set_volume] in E.
  destruct (read_byte _); [|discriminate].
  apply Some_pair_inv in H. destruct H as [<- _].
  cbn [reg set_now_data set_reg]. rewrite E. reflexivity.
Qed.

Ltac sixteen l :=
  do 16 (destruct l as [|? l]; [discriminate|]); destruct l; [|discriminate].

Lemma ADPCMB_postload_reg d regs d' ev :
  length (reg d) = 16%nat -> length regs = 16%nat ->
  Forall (fun b => 0 <= b < 256) regs ->
  ADPCMB_postload d regs = Some (d', ev) -> reg d' = regs.
Proof.
  intros Hl Hlr Hb H. rewrite ADPCMB_postload_eq in H.
  apply postload_regs_reg in H;
    [|apply List.Forall_forall; intros r Hr; apply in_seq in Hr; lia].
  rewrite H. clear H. generalize (reg d) Hl. clear Hl. intros l Hl.
  sixteen l. sixteen regs. cbn.
  repeat match goal with
    | H : Forall _ (_ :: _) |- _ => inversion H; clear H; subst
    end.
  rewrite !to_u8_small by assumption. reflexivity.
Qed.

Lemma postload_regs_cases rs d regs d' ev :
  postload_regs rs d regs = Some (d', ev) ->
  exists d1 x y,
    replay rs regs (set_volume 0 d) = Some (d1, ev) /\
    d' = set_now_data x (set_reg (<[0%nat := y]> (reg d1)) d1).
Proof.
  intros H. unfold postload_regs in H. cbv zeta in H.
  destruct (replay rs regs (set_volume 0 d)) as [[d1 ev1]|]; [|discriminate].
  destruct (read_byte _); [|discriminate].
  apply Some_pair_inv in H. destruct H as [<- <-]. eauto.
Qed.

Lemma image_derived_store_0 d x y :
  image_derived d -> image_derived (set_now_data x (set_reg (<[0%nat := y]> (reg d)) d)).
Proof.
  unfold image_derived, start_derived, end_derived, limit_derived, rate_derived,
    volume_derived, control2_derived, rate_of, derive_start, derive_end, derive_limit,
    addr_shift, pair16, reg_at.
  reduce_fields. rewrite !list_lookup_insert_ne by lia. tauto.
Qed.



(** The restore into a unit [t] derives every field from the image. *)
Lemma ADPCMB_postload_derives t regs t' ev :
  image_ok t -> ADPCMB_postload t regs = Some (t', ev) ->
  image_derived t' /\ image_ok t' /\ same_host t t' /\ portstate t' = portstate t.
Proof.
  intros Hok H.
  assert (portstate t' = portstate t) as Hp.
  { assert (portstate t = portstate t) as Hp by reflexivity.
    revert Hp H. apply (ADPCMB_postload_inv (fun s => portstate s = portstate t));
      try solve [frame].
    intros s r v s' e Hr.
    apply (ADPCMB_write_inv (fun s => portstate s = portstate t)); try solve [frame].
    intros E0. lia. }
  rewrite ADPCMB_postload_eq in H. apply postload_regs_cases in H.
  destruct H as (d1 & x & y & Hrep & ->). rewrite replay_run in Hrep.
  assert (image_ok (set_volume 0 t)) as Hok0 by exact Hok.
  assert (same_host t (set_volume 0 t)) as Hh0 by (unfold same_host; auto).
  pose proof (image_ok_writes _ _ _ _ Hok0 Hrep) as [Hl Hs].
  pose proof (same_host_writes t _ _ _ _ Hh0 Hrep) as Hh.
  split; [|split; [|split]].
  - apply image_derived_store_0.
    eapply image_derived_after_writes; [| |exact Hrep]; [exact Hok0|].
    vm_compute. reflexivity.
  - unfold image_ok. cbn [reg DRAMportshift set_now_data set_reg].
    rewrite length_insert. auto.
  - exact Hh.
  - exact Hp.
Qed.





(** * Further properties *)

(** ** The control register *)

(** Bit 0 of the written value is bit 0 of the control state before the
    reset bit is looked at. *)
Lemma control_bits_reset v : Z.land (control_bits v) 0x01 = Z.land v 0x01.
Proof.
  unfold control_bits.
  rewrite <- !Z.land_assoc. change (Z.land (Z.lnot 0x40) (Z.land 0xf1 0x01)) with 0x01.
  rewrite Z.land_lor_distr_l. change (Z.land 0x20 0x01) with 0.
  apply Z.lor_0_r.
Qed.

(** X1. A write to register 0 always selects the external memory: whatever
    the value, it puts the cursor on the start address and arms the two
    dummy reads; the branch that zeroes the cursor for CPU-managed memory
    is never taken.  The control state it leaves is the masked value, or 0
    when the reset bit is set. *)
Theorem control_write_rewinds (d : YM_DELTAT) (v : Z) :
  exists d' ev,
    ADPCMB_write d 0 v = Some (d', ev) /\
    now_addr d' = start_cursor d /\ memread d' = 2 /\
    portstate d' = (if Z.land v 0x01 =? 0 then control_bits v else 0) /\
    start d' = start d /\ end_ d' = end_ d /\ limit d' = limit d.
Proof.
  exists (fst (write_control v (store_reg 0 v d))),
         (snd (write_control v (store_reg 0 v d))).
  split; [cbn; rewrite <- surjective_pairing; reflexivity|].
  destruct (control_bits_mode v) as [H5 _].
  unfold write_control. fold (control_bits v). cbv zeta.
  cbn [portstate set_portstate].
  assert ((Z.land (control_bits v) 0x20 =? 0) = false) as E5
    by (rewrite H5; reflexivity).
  destruct (Z.land (control_bits v) 0x80 =? 0);
    reduce_fields; rewrite E5; reduce_fields;
    rewrite control_bits_reset; destruct (Z.land v 0x01 =? 0);
    reduce_fields; repeat split; reflexivity.
Qed.

(** X2. A write to register 0 with the reset bit set, whatever the other
    bits, leaves the control state at 0 and the unit not busy; its only host
    call is the guarded status-set call for BRDY.  After it a tick changes
    nothing and calls nothing, and a read of the data register returns 0 and
    changes nothing. *)
Theorem control_write_reset_bit (d : YM_DELTAT) (v : Z) :
  Z.land v 0x01 <> 0 ->
  exists d',
    ADPCMB_write d 0 v = Some (d', status_set d (status_change_BRDY_bit d)) /\
    portstate d' = 0 /\ PCM_BSY d' = 0 /\
    ADPCMB_CALC d' = Some (d', []) /\
    ADPCMB_read d' = Some (0, d', []).
Proof.
  intros Hv. rewrite <- control_bits_reset in Hv. apply Z.eqb_neq in Hv.
  exists (fst (write_control v (store_reg 0 v d))).
  assert (portstate (fst (write_control v (store_reg 0 v d))) = 0 /\
          PCM_BSY (fst (write_control v (store_reg 0 v d))) = 0 /\
          snd (write_control v (store_reg 0 v d))
            = status_set d (status_change_BRDY_bit d)) as (Hp & Hb & Hev).
  { unfold write_control. fold (control_bits v). cbv zeta.
    cbn [portstate set_portstate].
    destruct (Z.land (control_bits v) 0x80 =? 0); reduce_fields;
      destruct (Z.land (control_bits v) 0x20 =? 0); reduce_fields;
      rewrite Hv; reduce_fields; repeat split; reflexivity. }
  split; [|split; [exact Hp|split; [exact Hb|split]]].
  - cbn. rewrite <- Hev, <- surjective_pairing. reflexivity.
  - apply ADPCMB_CALC_stopped. rewrite Hp. reflexivity.
  - unfold ADPCMB_read. rewrite Hp. reflexivity.
Qed.

Lemma control_write_reset_bit_witness :
  Z.land 0x81 0x01 <> 0 /\
  exists d',
    ADPCMB_write ym2610 0 0x81 = Some (d', [StatusSet 0x08]) /\
    portstate d' = 0 /\ PCM_BSY d' = 0 /\
    ADPCMB_CALC d' = Some (d', []) /\
    ADPCMB_read d' = Some (0, d', []).
Proof.
  assert (Z.land 0x81 0x01 <> 0) as H by (vm_compute; discriminate).
  split; [exact H|]. exact (control_write_reset_bit ym2610 0x81 H).
Defined.

(** ** The register image and the address registers *)

(** X3. A write to a register 0 to 15 goes through and stores the low byte
    of the value, as written, in the cell of the register image; the image
    keeps its 16 cells and its other cells.  For the prescale registers 6
    and 7 and the registers 14 and 15 this is all the write does: nothing
    but the cell changes and the host is not called. *)
Theorem register_image_store (d : YM_DELTAT) (r v : Z) :
  0 <= r < 16 -> length (reg d) = 16%nat ->
  exists d' ev,
    ADPCMB_write d r v = Some (d', ev) /\
    length (reg d') = 16%nat /\
    reg_at d' (Z.to_nat r) = to_u8 v /\
    (forall i, i <> Z.to_nat r -> reg_at d' i = reg_at d i) /\
    (r = 6 \/ r = 7 \/ r = 14 \/ r = 15 -> d' = store_reg r v d /\ ev = []).
Proof.
  intros Hr Hl.
  destruct (ADPCMB_write_total d r v) as (d' & ev & Hw); [lia|].
  exists d', ev. split; [exact Hw|].
  pose proof (ADPCMB_write_reg d r v d' ev Hr Hw) as Hreg.
  unfold reg_at. rewrite Hreg. split; [|split; [|split]].
  - rewrite length_insert. exact Hl.
  - rewrite list_lookup_insert_eq by lia. reflexivity.
  - intros i Hi. rewrite list_lookup_insert_ne by auto. reflexivity.
  - intros [->|[->|[->| ->]]]; apply Some_pair_inv in Hw; destruct Hw as [<- <-];
      split; reflexivity.
Qed.

Lemma register_image_store_witness :
  0 <= 3 < 16 /\ length (reg ym2610) = 16%nat /\
  exists d' ev,
    ADPCMB_write ym2610 3 0x1ab = Some (d', ev) /\
    length (reg d') = 16%nat /\
    reg_at d' 3 = 0xab /\
    forall i, i <> 3%nat -> reg_at d' i = reg_at ym2610 i.
Proof.
  assert (0 <= 3 < 16) as Hr by lia.
  assert (length (reg ym2610) = 16%nat) as Hl by reflexivity.
  split; [exact Hr|]. split; [exact Hl|].
  destruct (register_image_store ym2610 3 0x1ab Hr Hl) as (d' & ev & Hw & H1 & H2 & H3 & _).
  exists d', ev. auto.
Defined.

(** The image after the two bytes of a pair are stored, in either order. *)
Lemma pair_lookup (l : list Z) (lo hi : nat) (a b : Z) :
  lo <> hi -> (lo < length l)%nat -> (hi < length l)%nat ->
  default 0 (<[hi := b]> (<[lo := a]> l) !! hi) = b /\
  default 0 (<[hi := b]> (<[lo := a]> l) !! lo) = a /\
  default 0 (<[lo := a]> (<[hi := b]> l) !! hi) = b /\
  default 0 (<[lo := a]> (<[hi := b]> l) !! lo) = a.
Proof.
  intros Hne Hlo Hhi.
  rewrite (list_lookup_insert_eq (<[lo := a]> l) hi b) by (rewrite length_insert; lia).
  rewrite (list_lookup_insert_ne (<[lo := a]> l) hi lo b) by auto.
  rewrite (list_lookup_insert_eq l lo a) by lia.
  rewrite (list_lookup_insert_ne (<[hi := b]> l) lo hi a) by auto.
  rewrite (list_lookup_insert_eq l hi b) by lia.
  rewrite (list_lookup_insert_eq (<[hi := b]> l) lo a) by (rewrite length_insert; lia).
  auto.
Qed.

Lemma shifted_pair_range a b sh :
  0 <= a < 256 -> 0 <= b < 256 -> 0 <= sh <= 15 ->
  0 < 2 ^ sh <= 32768 /\ 0 <= b * 256 + a < 65536 /\
  Z.lor (b * 256) a = b * 256 + a.
Proof.
  intros Ha Hb Hs. split; [|split; [lia|apply lor_bytes; assumption]].
  split; [apply Z.pow_pos_nonneg; lia|].
  change 32768 with (2 ^ 15). apply Z.pow_le_mono_r; lia.
Qed.

(** X4. The two bytes of the start, stop and limit address pairs may be
    written in either order.  With a shift of 0 to 15 (8 on the YM2610) and
    the bytes [a] (low) and [b] (high), the start and the limit address are
    the 16-bit value shifted, and the end address is the last byte of the
    unit that the stop value designates; nothing wraps and the host is not
    called. *)
Theorem address_pairs_either_order (d : YM_DELTAT) (a b : Z) (high_first : bool) :
  length (reg d) = 16%nat -> 0 <= a < 256 -> 0 <= b < 256 ->
  0 <= addr_shift d <= 15 ->
  (exists d', run (write_pair 2 3 a b high_first) d = Some (d', []) /\
              start d' = (b * 256 + a) * 2 ^ addr_shift d) /\
  (exists d', run (write_pair 4 5 a b high_first) d = Some (d', []) /\
              end_ d' = (b * 256 + a + 1) * 2 ^ addr_shift d - 1) /\
  (exists d', run (write_pair 12 13 a b high_first) d = Some (d', []) /\
              limit d' = (b * 256 + a) * 2 ^ addr_shift d).
Proof.
  intros Hl Ha Hb Hs.
  destruct (shifted_pair_range a b (addr_shift d) Ha Hb Hs) as (Hpow & Hp & Hlor).
  split; [|split].
  - destruct (pair_lookup (reg d) 2 3 a b) as (E1 & E2 & E3 & E4); [lia..|].
    destruct high_first; eexists; (split; [reflexivity|]);
      unfold derive_start, pair16, reg_at, store_reg; reduce_fields;
      change (addr_shift _) with (addr_shift d);
      rewrite !(to_u8_small a), !(to_u8_small b) by assumption;
      change (Z.to_nat 2) with 2%nat; change (Z.to_nat 3) with 3%nat;
      rewrite ?E1, ?E2, ?E3, ?E4, Hlor, Z.shiftl_mul_pow2 by lia;
      apply to_u32_small; nia.
  - destruct (pair_lookup (reg d) 4 5 a b) as (E1 & E2 & E3 & E4); [lia..|].
    destruct high_first; eexists; (split; [reflexivity|]);
      unfold derive_end, pair16, reg_at, store_reg; reduce_fields;
      change (addr_shift _) with (addr_shift d);
      rewrite !(to_u8_small a), !(to_u8_small b) by assumption;
      change (Z.to_nat 4) with 4%nat; change (Z.to_nat 5) with 5%nat;
      rewrite ?E1, ?E2, ?E3, ?E4, Hlor, !Z.shiftl_mul_pow2, Z.mul_1_l by lia;
      rewrite (to_u32_small ((b * 256 + a) * _)) by nia;
      rewrite to_u32_small by nia; ring.
  - destruct (pair_lookup (reg d) 12 13 a b) as (E1 & E2 & E3 & E4); [lia..|].
    destruct high_first; eexists; (split; [reflexivity|]);
      unfold derive_limit, pair16, reg_at, store_reg; reduce_fields;
      change (addr_shift _) with (addr_shift d);
      rewrite !(to_u8_small a), !(to_u8_small b) by assumption;
      change (Z.to_nat 12) with 12%nat; change (Z.to_nat 13) with 13%nat;
      rewrite ?E1, ?E2, ?E3, ?E4, Hlor, Z.shiftl_mul_pow2 by lia;
      apply to_u32_small; nia.
Qed.

Lemma address_pairs_either_order_witness :
  length (reg ym2610) = 16%nat /\ 0 <= 0x34 < 256 /\ 0 <= 0x12 < 256 /\
  0 <= addr_shift ym2610 <= 15 /\
  exists d', run (write_pair 4 5 0x34 0x12 true) ym2610 = Some (d', []) /\
             end_ d' = 0x1234ff.
Proof.
  assert (length (reg ym2610) = 16%nat) as Hl by reflexivity.
  assert (0 <= 0x34 < 256) as Ha by lia.
  assert (0 <= 0x12 < 256) as Hb by lia.
  assert (0 <= addr_shift ym2610 <= 15) as Hs by (vm_compute; split; discriminate).
  split; [exact Hl|]. split; [exact Ha|]. split; [exact Hb|]. split; [exact Hs|].
  exact (proj1 (proj2 (address_pairs_either_order ym2610 0x34 0x12 true Hl Ha Hb Hs))).
Defined.

(** ** Control 2: the memory type and the pan *)

Lemma odd_control2 v : Z.odd (to_u8 (Z.lor v 0x01)) = true.
Proof.
  rewrite to_u8_lor_1, <- Z.bit0_odd, Z.lor_spec. apply orb_true_r.
Qed.

Lemma rom_type_reset panidx d0 : rom_type (fst (ADPCMB_reset panidx d0)).
Proof. split; reflexivity. Qed.

Lemma rom_type_write_control2 v s : rom_type s -> rom_type (write_control2 v s).
Proof.
  intros [Hs Hc]. unfold rom_type, write_control2. cbv zeta. reduce_fields.
  split; [|apply odd_control2].
  destruct (Z.land (control2 s) 3 =? _); reduce_fields; [exact Hs|].
  destruct (DRAMportshift s =? _); reduce_fields; [exact Hs|].
  apply odd_memory_type.
Qed.

Lemma rom_type_write d r v d' ev :
  rom_type d -> ADPCMB_write d r v = Some (d', ev) -> rom_type d'.
Proof.
  apply (ADPCMB_write_inv rom_type); try solve [unfold rom_type; frame].
  apply rom_type_write_control2.
Qed.

Lemma rom_type_run_op o d d' ev :
  rom_type d -> run_op o d = Some (d', ev) -> rom_type d'.
Proof.
  intros Hd H. destruct o as [panidx|r v| | |regs]; revert H; cbn [run_op]; intros H.
  - apply Some_pair_inv in H. destruct H as [<- _]. apply rom_type_reset.
  - eapply rom_type_write; eauto.
  - destruct (ADPCMB_read d) as [[[x d1] ev1]|] eqn:E; [|discriminate].
    apply Some_pair_inv in H. destruct H as [<- _].
    revert Hd E. apply (ADPCMB_read_inv rom_type); unfold rom_type; frame.
  - revert Hd H. apply (ADPCMB_CALC_inv rom_type); unfold rom_type; frame.
  - revert Hd H. apply (ADPCMB_postload_inv rom_type); try solve [unfold rom_type; frame].
    intros s r v s' e _. apply rom_type_write.
Qed.

Lemma reachable_rom_type d : reachable d -> rom_type d.
Proof.
  apply (reachable_inv rom_type).
  - intros; apply rom_type_reset.
  - intros; eapply rom_type_run_op; eauto.
Qed.

(** X5. The YM2610 cannot leave the ROM memory type: in every reachable
    state the right shift of the addresses is 0 and bit 0 of control 2 is
    set, so the address shift is the host's.  A write to register 1 then
    never refreshes the addresses: it leaves the start, end and limit
    address as they are and calls nothing. *)
Theorem memory_type_stays_rom (d : YM_DELTAT) :
  reachable d ->
  DRAMportshift d = 0 /\ Z.odd (control2 d) = true /\ addr_shift d = portshift d /\
  forall v,
    exists d',
      ADPCMB_write d 1 v = Some (d', []) /\
      start d' = start d /\ end_ d' = end_ d /\ limit d' = limit d /\
      DRAMportshift d' = 0.
Proof.
  intros Hr. destruct (reachable_rom_type d Hr) as [Hs Hc].
  split; [exact Hs|]. split; [exact Hc|]. split; [unfold addr_shift; lia|].
  intros v. exists (write_control2 v (store_reg 1 v d)).
  split; [reflexivity|].
  unfold write_control2. cbv zeta. reduce_fields.
  unfold store_reg. reduce_fields.
  rewrite Hs, odd_memory_type. change (0 =? 0) with true.
  destruct (Z.land (control2 d) 3 =? _); reduce_fields; auto.
Qed.

Lemma memory_type_stays_rom_witness :
  reachable ym2610 /\ DRAMportshift ym2610 = 0 /\ addr_shift ym2610 = 8.
Proof.
  split; [exact ym2610_reachable|].
  destruct (memory_type_stays_rom ym2610 ym2610_reachable) as (H1 & _ & H3 & _).
  split; [exact H1|exact H3].
Defined.

Lemma pan_bits x : 0 <= x < 256 -> Z.land (Z.shiftr (Z.lor x 1) 6) 3 = x / 64.
Proof.
  intros Hx.
  assert (forallb (fun b => Z.land (Z.shiftr (Z.lor b 1) 6) 3 =? b / 64)
            (map Z.of_nat (seq 0 256)) = true) as H by (vm_compute; reflexivity).
  pose proof (forall_bytes _ H x Hx) as E. apply Z.eqb_eq in E. exact E.
Qed.

Lemma pan_low_byte x : Z.land (Z.shiftr x 6) 3 = Z.land (Z.shiftr (to_u8 x) 6) 3.
Proof.
  unfold to_u8. change 256 with (2 ^ 8). change 3 with (Z.ones 2).
  rewrite !Z.land_ones, !Z.shiftr_div_pow2 by lia.
  change (2 ^ 8) with 256. change (2 ^ 6) with 64. change (2 ^ 2) with 4.
  Z.div_mod_to_equations. lia.
Qed.

(** X6. A write to register 1 selects the output accumulator by the bits 7
    and 6 of the value: the index is 0 to 3, within the four outputs,
    whatever the value; control 2 is the byte with its ROM bit forced.  The
    host is not called. *)
Theorem control2_write_pan (d : YM_DELTAT) (v : Z) :
  exists d',
    ADPCMB_write d 1 v = Some (d', []) /\
    pan d' = to_u8 v / 64 /\ 0 <= pan d' <= 3 /\
    control2 d' = Z.lor (to_u8 v) 0x01.
Proof.
  exists (write_control2 v (store_reg 1 v d)). split; [reflexivity|].
  assert (pan (write_control2 v (store_reg 1 v d)) = to_u8 v / 64) as Hp.
  { unfold write_control2. cbv zeta. reduce_fields.
    assert (forall s, pan (derive_limit (derive_end (derive_start s))) = pan s) as Hd
      by reflexivity.
    assert (pan (set_pan (Z.land (Z.shiftr (Z.lor v 1) 6) 3) (store_reg 1 v d))
            = to_u8 v / 64) as E.
    { reduce_fields. rewrite pan_low_byte, to_u8_lor_1. apply pan_bits, to_u8_range. }
    destruct (Z.land _ 3 =? _); [exact E|].
    destruct (_ =? _); [exact E|].
    rewrite Hd. reduce_fields. rewrite pan_low_byte, to_u8_lor_1.
    apply pan_bits, to_u8_range. }
  split; [exact Hp|]. split.
  - rewrite Hp. pose proof (to_u8_range v). Z.div_mod_to_equations. lia.
  - unfold write_control2. cbv zeta. reduce_fields. apply to_u8_lor_1.
Qed.

(** ** The data register as a port to the memory *)

Lemma rom_bytes_succ rom a k :
  rom_bytes rom a (S k) = to_u8 (rom a) :: rom_bytes rom (a + 1) k.
Proof.
  unfold rom_bytes. cbn [seq map]. rewrite Z.add_0_r. f_equal.
  rewrite <- seq_shift, map_map. apply map_ext. intros i. do 2 f_equal. lia.
Qed.

(** X7. In read mode, past the dummy reads, the data register streams the
    external memory: with the cursor on the byte address [a] and [k] bytes
    left before the end address, [k] reads return the bytes [a] to
    [a + k - 1] in order and leave the cursor on the byte [a + k]. *)
Theorem data_register_streams (k : nat) :
  forall (d : YM_DELTAT) (rom : Z -> Z) (a : Z),
  Z.land (portstate d) 0xe0 = 0x20 -> memread d = 0 -> read_byte d = Some rom ->
  now_addr d = 2 * a -> 0 <= a -> a + Z.of_nat k <= end_ d < 2 ^ 31 ->
  exists d',
    read_values k d = Some (rom_bytes rom a k, d') /\
    now_addr d' = 2 * (a + Z.of_nat k) /\
    Z.land (portstate d') 0xe0 = 0x20 /\ memread d' = 0.
Proof.
  induction k as [|k IH]; intros d rom a Hmode Hmem Hrom Hcur Ha Hend.
  - exists d. cbn [read_values rom_bytes seq map]. rewrite Z.add_0_r. auto.
  - assert (to_u32 (Z.shiftl (end_ d) 1) = 2 * end_ d) as Ee
      by (rewrite Z.shiftl_mul_pow2 by lia; rewrite to_u32_small; lia).
    assert (ADPCMB_read d =
              Some (to_u8 (rom a), set_now_addr (2 * (a + 1)) d,
                    status_reset d (status_change_BRDY_bit d)
                      ++ status_set d (status_change_BRDY_bit d))) as Hread.
    { unfold ADPCMB_read. rewrite Hmode, Hmem, Ee, Hcur, Hrom.
      change (0x20 =? 0x20) with true. change (negb (0 =? 0)) with false.
      cbv iota.
      assert ((2 * a =? 2 * end_ d) = false) as -> by (apply Z.eqb_neq; lia).
      cbn [negb]. cbv zeta.
      replace (Z.shiftr (2 * a) 1) with a
        by (rewrite Z.shiftr_div_pow2 by lia; change (2 ^ 1) with 2;
            rewrite Z.mul_comm, Z.div_mul; lia).
      rewrite to_u32_small by lia.
      replace (2 * a + 2) with (2 * (a + 1)) by ring. reflexivity. }
    destruct (IH (set_now_addr (2 * (a + 1)) d) rom (a + 1))
      as (d' & Hvs & Hcur' & Hmode' & Hmem'); try assumption; try reflexivity;
      [lia|reduce_fields; lia|].
    exists d'. cbn [read_values]. rewrite Hread, Hvs, rom_bytes_succ.
    split; [reflexivity|]. split; [rewrite Hcur'; lia|auto].
Qed.

Lemma data_register_streams_witness :
  Z.land (portstate reading) 0xe0 = 0x20 /\ memread reading = 0 /\
  read_byte reading = Some rom55 /\ now_addr reading = 2 * 0 /\ 0 <= 0 /\
  0 + Z.of_nat 3 <= end_ reading < 2 ^ 31 /\
  exists d', read_values 3 reading = Some ([0x55; 0x56; 0x57], d') /\ now_addr d' = 6.
Proof.
  assert (Z.land (portstate reading) 0xe0 = 0x20) as H1 by (vm_compute; reflexivity).
  assert (memread reading = 0) as H2 by (vm_compute; reflexivity).
  assert (read_byte reading = Some rom55) as H3 by reflexivity.
  assert (now_addr reading = 2 * 0) as H4 by (vm_compute; reflexivity).
  assert (0 <= 0) as H5 by lia.
  assert (0 + Z.of_nat 3 <= end_ reading < 2 ^ 31) as H6
    by (vm_compute; split; [discriminate|reflexivity]).
  split; [exact H1|]. split; [exact H2|]. split; [exact H3|]. split; [exact H4|].
  split; [exact H5|]. split; [exact H6|].
  destruct (data_register_streams 3 reading rom55 0 H1 H2 H3 H4 H5 H6)
    as (d' & Hv & Hc & _).
  exists d'. split; [exact Hv|exact Hc].
Defined.

(** X8. A read of the data register is inert in two cases.  Outside the
    read mode (while the unit plays, or is idle) it returns 0, changes
    nothing and calls nothing.  In read mode with no dummy read left to do
    ([memread] is 0) and the cursor on the end address it returns 0 and
    changes nothing, and each such read raises EOS again: the byte at the
    end address itself is never returned.  In both cases any number of
    reads return zeros and leave the state.  In read mode with a dummy read
    left to do ([memread] is not 0) the read is not inert, wherever the
    cursor is: it returns 0 and calls nothing, but puts the cursor on the
    start address and counts [memread] down. *)
Theorem data_register_inert (d : YM_DELTAT) (n : nat) :
  (Z.land (portstate d) 0xe0 <> 0x20 ->
   ADPCMB_read d = Some (0, d, []) /\ read_values n d = Some (repeat 0 n, d)) /\
  (Z.land (portstate d) 0xe0 = 0x20 -> memread d = 0 -> now_addr d = end_cursor d ->
   ADPCMB_read d = Some (0, d, status_set d (status_change_EOS_bit d)) /\
   read_values n d = Some (repeat 0 n, d)) /\
  (Z.land (portstate d) 0xe0 = 0x20 -> memread d <> 0 ->
   ADPCMB_read d
   = Some (0, set_memread (to_u8 (memread d - 1)) (set_now_addr (start_cursor d) d),
           [])).
Proof.
  assert (forall ev, ADPCMB_read d = Some (0, d, ev) ->
                     read_values n d = Some (repeat 0 n, d)) as Hn.
  { intros ev H. induction n as [|n IH]; cbn [read_values repeat]; [reflexivity|].
    rewrite H, IH. reflexivity. }
  split; [|split].
  - intros Hmode.
    assert (ADPCMB_read d = Some (0, d, [])) as H
      by (unfold ADPCMB_read; apply Z.eqb_neq in Hmode; rewrite Hmode; reflexivity).
    split; [exact H|exact (Hn _ H)].
  - intros Hmode Hmem Hcur.
    assert (ADPCMB_read d = Some (0, d, status_set d (status_change_EOS_bit d))) as H.
    { unfold end_cursor in Hcur. unfold ADPCMB_read.
      rewrite Hmode, Hmem, Hcur, !Z.eqb_refl. reflexivity. }
    split; [exact H|exact (Hn _ H)].
  - intros Hmode Hmem. apply Z.eqb_neq in Hmem.
    unfold ADPCMB_read. rewrite Hmode, Hmem. reflexivity.
Qed.

Lemma data_register_inert_witness :
  Z.land (portstate reading_empty) 0xe0 = 0x20 /\ memread reading_empty = 0 /\
  now_addr reading_empty = end_cursor reading_empty /\
  ADPCMB_read reading_empty = Some (0, reading_empty, [StatusSet 0x80]) /\
  read_values 4 reading_empty = Some ([0; 0; 0; 0], reading_empty).
Proof.
  assert (Z.land (portstate reading_empty) 0xe0 = 0x20) as H1 by (vm_compute; reflexivity).
  assert (memread reading_empty = 0) as H2 by (vm_compute; reflexivity).
  assert (now_addr reading_empty = end_cursor reading_empty) as H3
    by (vm_compute; reflexivity).
  split; [exact H1|]. split; [exact H2|]. split; [exact H3|].
  exact (proj1 (proj2 (data_register_inert reading_empty 4)) H1 H2 H3).
Defined.

(** ** The decode engine, pass by pass *)

Lemma even_cursor x : Z.even (to_u32 (Z.shiftl x 1)) = true.
Proof.
  unfold to_u32. rewrite Z.shiftl_mul_pow2 by lia. change (2 ^ 1) with 2.
  change 4294967296 with (2 * 2147483648).
  rewrite (Z.mul_comm x 2), Z.mul_mod_distr_l by lia.
  apply Z.even_mul.
Qed.

Lemma odd_not_even_cursor n x : Z.odd n = true -> n <> to_u32 (Z.shiftl x 1).
Proof.
  intros Ho E. pose proof (even_cursor x) as He. rewrite <- E in He.
  rewrite <- Z.negb_odd, Ho in He. discriminate.
Qed.

(** A pass with the cursor on the low nibble: neither the limit nor the end
    address is found, no byte is fetched. *)
Lemma ext_body_low_nibble d :
  Z.odd (now_addr d) = true ->
  ext_body d =
    Some (Next,
          adpcm_update (Z.land (now_data d) 0x0f)
            (set_now_addr (Z.land (to_u32 (now_addr d + 1)) (Z.shiftl 1 (24 + 1) - 1)) d),
          []).
Proof.
  intros Ho. unfold ext_body, ext_limit_wrap. cbv zeta.
  assert ((now_addr d =? to_u32 (Z.shiftl (limit d) 1)) = false) as ->
    by (apply Z.eqb_neq, odd_not_even_cursor, Ho).
  assert ((now_addr d =? to_u32 (Z.shiftl (end_ d) 1)) = false) as ->
    by (apply Z.eqb_neq, odd_not_even_cursor, Ho).
  unfold ext_decode, ext_fetch. rewrite Ho. reflexivity.
Qed.

(** A pass with the cursor on the high nibble, off the limit and the end
    address: the byte under the cursor is fetched. *)
Lemma ext_body_high_nibble d rom :
  read_byte d = Some rom -> Z.even (now_addr d) = true ->
  now_addr d <> limit_cursor d -> now_addr d <> end_cursor d ->
  ext_body d =
    Some (Next,
          adpcm_update (Z.shiftr (to_u8 (rom (Z.shiftr (now_addr d) 1))) 4)
            (set_now_addr (Z.land (to_u32 (now_addr d + 1)) (Z.shiftl 1 (24 + 1) - 1))
               (set_now_data (to_u8 (rom (Z.shiftr (now_addr d) 1))) d)),
          []).
Proof.
  intros Hrom He Hl Hend. unfold ext_body, ext_limit_wrap. cbv zeta.
  unfold limit_cursor, end_cursor in *.
  apply Z.eqb_neq in Hl, Hend. rewrite Hl, Hend.
  unfold ext_decode, ext_fetch. rewrite <- Z.negb_even, He, Hrom. reflexivity.
Qed.

Lemma next_cursor n :
  0 <= n < 4294967296 ->
  Z.land (to_u32 (n + 1)) (Z.shiftl 1 (24 + 1) - 1) = (n + 1) mod 2 ^ 25.
Proof.
  intros Hn. change (Z.shiftl 1 (24 + 1) - 1) with (Z.ones 25).
  rewrite Z.land_ones by lia. unfold to_u32.
  change 4294967296 with (2 ^ 25 * 128). change (2 ^ 25) with 33554432.
  Z.div_mod_to_equations. lia.
Qed.

(** The two passes that decode a byte. *)
Lemma ext_two_passes d rom :
  read_byte d = Some rom -> Z.even (now_addr d) = true ->
  0 <= now_addr d < 4294967296 ->
  now_addr d <> limit_cursor d -> now_addr d <> end_cursor d ->
  let b := to_u8 (rom (Z.shiftr (now_addr d) 1)) in
  exists d1 d2,
    ext_body d = Some (Next, d1, []) /\ ext_body d1 = Some (Next, d2, []) /\
    now_data d2 = b /\ now_addr d2 = (now_addr d + 2) mod 2 ^ 25 /\
    map decoded [d1; d2] = map decoded (decode_nibbles [b / 16; b mod 16] d).
Proof.
  intros Hrom He Hn Hl Hend b.
  pose proof (ext_body_high_nibble d rom Hrom He Hl Hend) as H1. fold b in H1.
  rewrite next_cursor in H1 by exact Hn.
  set (d1 := adpcm_update (Z.shiftr b 4)
               (set_now_addr ((now_addr d + 1) mod 2 ^ 25) (set_now_data b d))) in *.
  assert (now_addr d1 = (now_addr d + 1) mod 2 ^ 25) as Hc1 by reflexivity.
  assert (now_data d1 = b) as Hb1 by reflexivity.
  assert (exists m, now_addr d = 2 * m) as [m Hm] by (apply Z.even_spec, He).
  assert (now_addr d1 = 2 * (m mod 2 ^ 24) + 1) as Hc1'.
  { rewrite Hc1, Hm. change (2 ^ 25) with 33554432. change (2 ^ 24) with 16777216.
    Z.div_mod_to_equations. lia. }
  assert (Z.odd (now_addr d1) = true) as Ho
    by (rewrite Hc1', Z.add_comm, Z.odd_add_mul_2; reflexivity).
  pose proof (ext_body_low_nibble d1 Ho) as H2.
  rewrite next_cursor in H2
    by (rewrite Hc1; change (2 ^ 25) with 33554432; Z.div_mod_to_equations; lia).
  rewrite Hb1 in H2.
  eexists; eexists. split; [exact H1|]. split; [exact H2|].
  split; [reflexivity|]. split.
  - unfold adpcm_update. reduce_fields. rewrite Hc1, Hm.
    change (2 ^ 25) with 33554432. Z.div_mod_to_equations. lia.
  - assert (Z.shiftr b 4 = b / 16) as E4 by (rewrite Z.shiftr_div_pow2 by lia; reflexivity).
    assert (Z.land b 0x0f = b mod 16) as E0
      by (change 0x0f with (Z.ones 4); rewrite Z.land_ones by lia; reflexivity).
    unfold d1. rewrite E4, E0. reflexivity.
Qed.

(** X9. A byte of the sample is decoded in two passes of the loop, the high
    nibble first.  From an even cursor that is neither on the limit nor on
    the end address, the first pass fetches the byte under the cursor and
    decodes its high nibble; the second pass decodes its low nibble without
    a fetch, and without looking for the end: the limit and the end address
    are found on byte boundaries only.  The cursor moves on by two nibbles,
    modulo 2^25, and the host is not called. *)
Theorem byte_decoded_high_nibble_first (d : YM_DELTAT) (rom : Z -> Z) :
  read_byte d = Some rom -> Z.even (now_addr d) = true ->
  0 <= now_addr d < 4294967296 ->
  now_addr d <> limit_cursor d -> now_addr d <> end_cursor d ->
  let b := to_u8 (rom (Z.shiftr (now_addr d) 1)) in
  exists d1 d2,
    ext_body d = Some (Next, d1, []) /\ ext_body d1 = Some (Next, d2, []) /\
    now_data d2 = b /\ now_addr d2 = (now_addr d + 2) mod 2 ^ 25 /\
    map decoded [d1; d2] = map decoded (decode_nibbles [b / 16; b mod 16] d).
Proof. apply ext_two_passes. Qed.

Lemma byte_decoded_high_nibble_first_witness :
  read_byte playing = Some rom55 /\ Z.even (now_addr playing) = true /\
  0 <= now_addr playing < 4294967296 /\
  now_addr playing <> limit_cursor playing /\ now_addr playing <> end_cursor playing /\
  ext_body playing = Some (Next, playing_next, []) /\
  ext_body playing_next = Some (Next, playing_second, []) /\
  now_data playing_second = 0x55 /\ now_addr playing_second = 2 /\
  map decoded [playing_next; playing_second]
    = map decoded (decode_nibbles [5; 5] playing).
Proof.
  assert (read_byte playing = Some rom55) as H1 by reflexivity.
  assert (Z.even (now_addr playing) = true) as H2 by (vm_compute; reflexivity).
  assert (0 <= now_addr playing < 4294967296) as H3
    by (vm_compute; split; [discriminate|reflexivity]).
  assert (now_addr playing <> limit_cursor playing) as H4 by (vm_compute; discriminate).
  assert (now_addr playing <> end_cursor playing) as H5 by (vm_compute; discriminate).
  split; [exact H1|]. split; [exact H2|]. split; [exact H3|].
  split; [exact H4|]. split; [exact H5|].
  destruct (byte_decoded_high_nibble_first playing rom55 H1 H2 H3 H4 H5)
    as (d1 & d2 & E1 & E2 & Hb & Hc & Hd).
  assert (d1 = playing_next) as ->.
  { unfold playing_next. rewrite E1. reflexivity. }
  assert (d2 = playing_second) as ->.
  { unfold playing_second. rewrite E2. reflexivity. }
  split; [exact E1|]. split; [exact E2|]. split; [exact Hb|]. split; [exact Hc|exact Hd].
Defined.

Lemma nibble_cases data :
  0 <= data < 8 ->
  data = 0 \/ data = 1 \/ data = 2 \/ data = 3 \/
  data = 4 \/ data = 5 \/ data = 6 \/ data = 7.
Proof. lia. Qed.

(** X10. Bit 3 of a nibble is the sign and the bits 2 to 0 the magnitude.
    In range, a nibble 0 to 7 raises the predictor, unless it saturates at
    32767, and the nibble with the sign bit lowers it, unless it saturates
    at -32768; the new step size does not depend on the sign; a magnitude
    below 4 does not raise the step size and a magnitude of 4 or more does
    not lower it. *)
Theorem nibble_sign_and_magnitude (d : YM_DELTAT) (data : Z) :
  in_range d -> 0 <= data < 8 ->
  (acc d < acc (adpcm_update data d) \/
   acc (adpcm_update data d) = YM_DELTAT_DECODE_MAX) /\
  (acc (adpcm_update (data + 8) d) < acc d \/
   acc (adpcm_update (data + 8) d) = YM_DELTAT_DECODE_MIN) /\
  adpcmd (adpcm_update (data + 8) d) = adpcmd (adpcm_update data d) /\
  (data < 4 -> adpcmd (adpcm_update data d) <= adpcmd d) /\
  (4 <= data -> adpcmd d <= adpcmd (adpcm_update data d)).
Proof.
  intros Hd Hdata.
  destruct (adpcm_update_exact data d Hd) as (_ & Ha & Hs); [lia|].
  destruct (adpcm_update_exact (data + 8) d Hd) as (_ & Ha' & Hs'); [lia|].
  rewrite Ha, Ha', Hs, Hs'. clear Ha Ha' Hs Hs'.
  destruct Hd as [Hacc Hstep].
  unfold YM_DELTAT_Limit, YM_DELTAT_DECODE_MIN, YM_DELTAT_DECODE_MAX,
    YM_DELTAT_DECODE_RANGE, YM_DELTAT_DELTA_MIN, YM_DELTAT_DELTA_MAX in *.
  destruct (nibble_cases data Hdata) as [->|[->|[->|[->|[->|[->|[->| ->]]]]]]];
    cbn [Z.add Pos.add Pos.succ];
    match goal with
    | |- context [ym_deltat_decode_tableB1 ?n] =>
        let t := eval vm_compute in (ym_deltat_decode_tableB1 n) in
        change (ym_deltat_decode_tableB1 n) with t
    end;
    match goal with
    | |- context [ym_deltat_decode_tableB1 ?n] =>
        let t := eval vm_compute in (ym_deltat_decode_tableB1 n) in
        change (ym_deltat_decode_tableB1 n) with t
    end;
    repeat match goal with
    | |- context [ym_deltat_decode_tableB2 ?n] =>
        let t := eval vm_compute in (ym_deltat_decode_tableB2 n) in
        change (ym_deltat_decode_tableB2 n) with t
    end;
    repeat match goal with
    | |- context [?a <? ?b] => destruct (Z.ltb_spec a b)
    end;
    Z.quot_rem_to_equations; lia.
Qed.

Lemma nibble_sign_and_magnitude_witness :
  in_range ym2610 /\ 0 <= 7 < 8 /\
  acc (adpcm_update 7 ym2610) = 238 /\ acc (adpcm_update 15 ym2610) = -238 /\
  adpcmd (adpcm_update 15 ym2610) = adpcmd (adpcm_update 7 ym2610).
Proof.
  assert (in_range ym2610) as H1 by (apply reachable_in_range, ym2610_reachable).
  assert (0 <= 7 < 8) as H2 by lia.
  split; [exact H1|]. split; [exact H2|].
  split; [reflexivity|]. split; [reflexivity|].
  exact (proj1 (proj2 (proj2 (nibble_sign_and_magnitude ym2610 7 H1 H2)))).
Defined.

(** The interpolation without the 32-bit wraps. *)
Lemma interpolate_exact d :
  mixable d ->
  adpcml (fst (interpolate d)) = interpolated d * volume d /\
  snd (interpolate d) = [Mix (pan d) (interpolated d * volume d)] /\
  Z.min (prev_acc d) (acc d) <= interpolated d <= Z.max (prev_acc d) (acc d) /\
  - 2147483648 <= interpolated d * volume d < 2147483648.
Proof.
  intros (Ha & Hp & Hn & Hv).
  unfold YM_DELTAT_DECODE_MIN, YM_DELTAT_DECODE_MAX, YM_DELTAT_DECODE_RANGE in *.
  assert (Z.min (prev_acc d) (acc d) <= interpolated d <= Z.max (prev_acc d) (acc d))
    as Hb.
  { unfold interpolated. split.
    - apply Z.div_le_lower_bound; [lia|]. nia.
    - apply Z.div_le_upper_bound; [lia|]. nia. }
  assert (adpcml (fst (interpolate d)) = interpolated d * volume d) as Hl.
  { unfold interpolate. cbv zeta. reduce_fields.
    change (Z.shiftl 1 YM_DELTAT_SHIFT) with 65536.
    rewrite (to_u32_small (65536 - now_step d)) by lia.
    rewrite (to_i32_small (65536 - now_step d)) by lia.
    rewrite (to_i32_small (now_step d)) by lia.
    rewrite (to_i32_small (prev_acc d * _)) by nia.
    rewrite (to_i32_small (acc d * _)) by nia.
    rewrite (to_i32_small (_ + _)) by nia.
    unfold YM_DELTAT_SHIFT. rewrite Z.shiftr_div_pow2 by lia.
    change (2 ^ 16) with 65536. fold (interpolated d).
    apply to_i32_small. nia. }
  split; [exact Hl|]. split; [|split; [exact Hb|nia]].
  unfold interpolate in Hl |- *. cbv zeta in Hl |- *. cbn [snd fst] in Hl |- *.
  rewrite Hl. reflexivity.
Qed.

(** X11. The interpolator does not overflow.  With 16-bit predictors, a
    phase below 65536 and a 16-bit volume, the held sample is the linear
    interpolation between the previous predictor and the predictor, rounded
    down, times the volume; the interpolation lies between the two
    predictors; this sample is the one added to the output that [pan]
    selects. *)
Theorem interpolate_between (d : YM_DELTAT) :
  mixable d ->
  adpcml (fst (interpolate d)) = interpolated d * volume d /\
  snd (interpolate d) = [Mix (pan d) (interpolated d * volume d)] /\
  Z.min (prev_acc d) (acc d) <= interpolated d <= Z.max (prev_acc d) (acc d) /\
  - 2147483648 <= interpolated d * volume d < 2147483648.
Proof. apply interpolate_exact. Qed.

Lemma interpolate_between_witness :
  mixable playing_loud /\
  interpolated playing_loud = 243 /\
  snd (interpolate playing_loud) = [Mix 0 61965].
Proof.
  assert (mixable playing_loud) as H
    by (vm_compute; intuition (discriminate || reflexivity)).
  split; [exact H|]. split; [vm_compute; reflexivity|].
  exact (proj1 (proj2 (interpolate_between playing_loud H))).
Defined.

(** ** The output tick *)

Lemma phase_fraction p : 0 <= p -> Z.land p (Z.shiftl 1 YM_DELTAT_SHIFT - 1) = p mod 65536.
Proof.
  intros Hp. change (Z.shiftl 1 YM_DELTAT_SHIFT - 1) with (Z.ones 16).
  rewrite Z.land_ones by lia. reflexivity.
Qed.

(** A tick is the loop of [tick_steps] passes from [tick_entry], none when
    the phase stays below 65536, and then the interpolation unless a pass
    left the function. *)
Lemma synthesis_cases body d d' ev :
  synthesis body d = Some (d', ev) ->
  exists fl d1 ev1,
    do_while body (tick_steps d) (tick_entry d) = Some (fl, d1, ev1) /\
    ((fl = Return /\ d' = d1 /\ ev = ev1) \/
     (fl = Next /\ d' = fst (interpolate d1) /\ ev = ev1 ++ snd (interpolate d1))).
Proof.
  intros H. destruct (Nat.eq_dec (tick_steps d) 0%nat) as [E0|Hn].
  - rewrite E0. cbn [do_while]. exists Next, (tick_entry d), [].
    split; [reflexivity|]. right. split; [reflexivity|].
    unfold synthesis in H. unfold tick_steps, tick_entry in *. cbv zeta in H |- *.
    cbn [now_step set_now_step] in H |- *.
    pose proof (to_u32_range (now_step d + step d)) as Hph.
    set (p := to_u32 (now_step d + step d)) in *.
    assert (p < 65536) as Hlt.
    { unfold YM_DELTAT_SHIFT in E0. rewrite Z.shiftr_div_pow2 in E0 by lia.
      change (2 ^ 16) with 65536 in E0.
      destruct (Z_lt_le_dec p 65536) as [Hlt|Hge]; [exact Hlt|].
      assert (1 <= p / 65536) by (apply Z.div_le_lower_bound; lia). lia. }
    assert ((Z.shiftl 1 YM_DELTAT_SHIFT <=? p) = false) as E
      by (apply Z.leb_gt; exact Hlt).
    rewrite E in H.
    rewrite phase_fraction, Z.mod_small by lia.
    assert (set_now_step p (set_now_step p d) = set_now_step p d) as -> by reflexivity.
    apply Some_inj in H. rewrite H. split; reflexivity.
  - rewrite synthesis_loop in H by lia.
    destruct (do_while body (tick_steps d) (tick_entry d)) as [[[fl d1] ev1]|];
      [|discriminate].
    exists fl, d1, ev1. split; [reflexivity|].
    destruct fl.
    + right. destruct (interpolate d1) as [d2 ev2].
      apply Some_pair_inv in H. destruct H as [<- <-]. auto.
    + left. apply Some_pair_inv in H. destruct H as [<- <-]. auto.
Qed.

(** The tick of a loop that runs to its end. *)
Lemma synthesis_total_cases body d d1 ev1 :
  do_while body (tick_steps d) (tick_entry d) = Some (Next, d1, ev1) ->
  synthesis body d = Some (fst (interpolate d1), ev1 ++ snd (interpolate d1)).
Proof.
  intros Hloop. destruct (Nat.eq_dec (tick_steps d) 0%nat) as [E0|Hn].
  - rewrite E0 in Hloop. cbn [do_while] in Hloop.
    apply Some_triple_inv in Hloop. destruct Hloop as (_ & <- & <-).
    unfold synthesis. unfold tick_steps, tick_entry in *. cbv zeta.
    cbn [now_step set_now_step].
    pose proof (to_u32_range (now_step d + step d)) as Hph.
    set (p := to_u32 (now_step d + step d)) in *.
    assert (p < 65536) as Hlt.
    { unfold YM_DELTAT_SHIFT in E0. rewrite Z.shiftr_div_pow2 in E0 by lia.
      change (2 ^ 16) with 65536 in E0.
      destruct (Z_lt_le_dec p 65536) as [Hlt|Hge]; [exact Hlt|].
      assert (1 <= p / 65536) by (apply Z.div_le_lower_bound; lia). lia. }
    assert ((Z.shiftl 1 YM_DELTAT_SHIFT <=? p) = false) as ->
      by (apply Z.leb_gt; exact Hlt).
    rewrite phase_fraction, Z.mod_small by lia.
    assert (set_now_step p (set_now_step p d) = set_now_step p d) as -> by reflexivity.
    destruct (interpolate (set_now_step p d)). reflexivity.
  - rewrite synthesis_loop by lia. rewrite Hloop.
    destruct (interpolate d1). reflexivity.
Qed.

(** A loop that ran to its end went through passes that all went on. *)
Lemma do_while_next_inv (P : YM_DELTAT -> Prop) body :
  (forall d d' ev, P d -> body d = Some (Next, d', ev) -> P d' /\ ev = []) ->
  forall n d d' ev, P d -> do_while body n d = Some (Next, d', ev) -> P d' /\ ev = [].
Proof.
  intros Hbody n. induction n as [|n IH]; intros d d' ev Hd H; cbn [do_while] in H.
  - apply Some_triple_inv in H. destruct H as (_ & <- & <-). auto.
  - destruct (body d) as [[[fl d1] ev1]|] eqn:Eb; [|discriminate].
    destruct fl; [|apply Some_triple_inv in H; destruct H as (H & _); discriminate].
    destruct (Hbody _ _ _ Hd Eb) as [Hd1 ->].
    destruct (do_while body n d1) as [[[fl2 d2] ev2]|] eqn:Er; [|discriminate].
    apply Some_triple_inv in H. destruct H as (-> & <- & <-).
    destruct (IH _ _ _ Hd1 Er) as [Hd2 ->]. auto.
Qed.

Section PassInvariants.

Variable P : YM_DELTAT -> Prop.

Hypothesis P_now_addr : forall d x, P d -> P (set_now_addr x d).

Hypothesis P_now_data : forall d x, P d -> P (set_now_data x d).

Hypothesis P_update : forall d data, P d -> P (adpcm_update data d).

Hypothesis P_repeat : forall d, P d -> P (ext_repeat d).

(** What the assignments of a decode step keep, a pass that goes on keeps;
    such a pass calls nothing. *)
Lemma ext_body_next_inv d d' ev :
  P d -> ext_body d = Some (Next, d', ev) -> P d' /\ ev = [].
Proof.
  intros Hd H. apply ext_body_cases in H. cbv zeta in H.
  pose proof (ext_limit_wrap_inv P P_now_addr d Hd) as Hd1.
  destruct H as [(Hfl & _)|[(_ & -> & _ & _ & H)|(_ & -> & _ & H)]];
    [discriminate|split; [|reflexivity]..];
    (eapply (ext_decode_inv P); [exact P_now_addr|exact P_now_data|exact P_update| |exact H]);
    auto.
Qed.

Lemma do_while_ext_next_inv n d d' ev :
  P d -> do_while ext_body n d = Some (Next, d', ev) -> P d' /\ ev = [].
Proof. apply do_while_next_inv. intros s s' e. apply ext_body_next_inv. Qed.

End PassInvariants.

(** The loop leaves the function by the end of the sample only: its one
    call is the guarded status-set call for EOS. *)
Lemma do_while_ext_leaves n : forall d d' ev,
  do_while ext_body n d = Some (Return, d', ev) ->
  ev = status_set d (status_change_EOS_bit d) /\
  portstate d' = 0 /\ PCM_BSY d' = 0 /\ adpcml d' = 0 /\ prev_acc d' = 0 /\
  now_addr d' = end_cursor d' /\ Z.land (portstate d) 0x10 = 0.
Proof.
  induction n as [|n IH]; intros d d' ev H; cbn [do_while] in H.
  - apply Some_triple_inv in H. destruct H as (H & _); discriminate.
  - destruct (ext_body d) as [[[fl d1] ev1]|] eqn:Eb; [|discriminate].
    destruct fl.
    + destruct (ext_body_next _ _ _ Eb) as [-> (Hp & _ & _ & Hh & Hb)].
      destruct (do_while ext_body n d1) as [[[fl2 d2] ev2]|] eqn:Er; [|discriminate].
      apply Some_triple_inv in H. destruct H as (-> & <- & <-).
      destruct (IH _ _ _ Er) as (-> & H1 & H2 & H3 & H4 & H5 & H6).
      unfold status_set. rewrite Hh, Hb, <- Hp. auto 8.
    + apply Some_triple_inv in H. destruct H as (_ & <- & <-).
      apply ext_body_cases in Eb. cbv zeta in Eb.
      destruct Eb as [(_ & Hc & Hr & E)|[(Hfl & _)|(Hfl & _)]]; [|discriminate..].
      apply pair_equal_spec in E. destruct E as [-> ->].
      unfold ext_limit_wrap in *.
      destruct (now_addr d =? to_u32 (Z.shiftl (limit d) 1));
        unfold ext_end_of_sample, end_cursor; reduce_fields;
        cbn [now_addr end_ portstate set_now_addr] in Hc, Hr; auto 8.
Qed.

(** The two ways in which a tick of the external-memory playback ends. *)
Lemma ext_tick_cases d d' ev :
  Z.land (portstate d) 0xe0 = 0xa0 ->
  ADPCMB_CALC d = Some (d', ev) ->
  now_step d' = tick_phase d mod 65536 /\ pan d' = pan d /\
  ((ev = [Mix (pan d) (adpcml d')] /\
    portstate d' = portstate d /\ PCM_BSY d' = PCM_BSY d /\
    exists d1, do_while ext_body (tick_steps d) (tick_entry d) = Some (Next, d1, []) /\
               d' = fst (interpolate d1)) \/
   (ev = status_set d (status_change_EOS_bit d) /\
    portstate d' = 0 /\ PCM_BSY d' = 0 /\ adpcml d' = 0 /\
    Z.land (portstate d) 0x10 = 0)).
Proof.
  intros Hmode H. unfold ADPCMB_CALC in H. apply Z.eqb_eq in Hmode. rewrite Hmode in H.
  unfold YM_DELTAT_synthesis_from_external_memory in H.
  apply synthesis_cases in H. destruct H as (fl & d1 & ev1 & Hloop & Hend).
  assert (now_step (tick_entry d) = tick_phase d mod 65536 /\ pan (tick_entry d) = pan d)
    as He.
  { split; [|reflexivity]. unfold tick_entry, tick_phase. cbv zeta. reduce_fields.
    apply phase_fraction, to_u32_range. }
  assert (now_step d1 = tick_phase d mod 65536 /\ pan d1 = pan d) as [Hphase Hpan].
  { revert He Hloop.
    apply (do_while_inv (fun s => now_step s = tick_phase d mod 65536 /\ pan s = pan d)).
    intros s fl' s' e.
    apply (ext_body_inv (fun s => now_step s = tick_phase d mod 65536 /\ pan s = pan d));
      frame. }
  destruct Hend as [(-> & -> & ->)|(-> & -> & ->)].
  - split; [exact Hphase|]. split; [exact Hpan|]. right.
    destruct (do_while_ext_leaves _ _ _ _ Hloop) as (Hev & Hp & Hb & Hl & _ & _ & Hr).
    auto.
  - split; [exact Hphase|]. split; [exact Hpan|]. left.
    assert ((portstate d1 = portstate d /\ PCM_BSY d1 = PCM_BSY d) /\ ev1 = [])
      as [(Hp & Hb) ->].
    { assert (portstate (tick_entry d) = portstate d /\
              PCM_BSY (tick_entry d) = PCM_BSY d) as H0 by (split; reflexivity).
      revert H0 Hloop.
      apply (do_while_ext_next_inv
               (fun s => portstate s = portstate d /\ PCM_BSY s = PCM_BSY d)); frame. }
    split; [|split; [exact Hp|split; [exact Hb|]]].
    + rewrite <- Hpan. reflexivity.
    + exists d1. auto.
Qed.

(** X12. A tick of the external-memory playback ends in one of two ways.
    Either its loop runs its [tick_steps] passes: then the only host call of
    the tick is the addition of the held sample to the output that [pan]
    selects, and the unit plays on.  Or a pass finds the end of the sample
    with the repeat bit clear: then the only host call is the guarded
    status-set call for EOS, nothing is added to the output, and the unit
    is idle and not busy.  In both cases the phase keeps its fraction, the
    low 16 bits of the phase after the rate was added, and [pan] is kept. *)
Theorem tick_mixes_or_ends (d d' : YM_DELTAT) (ev : list host_call) :
  Z.land (portstate d) 0xe0 = 0xa0 ->
  ADPCMB_CALC d = Some (d', ev) ->
  now_step d' = tick_phase d mod 65536 /\ pan d' = pan d /\
  ((ev = [Mix (pan d) (adpcml d')] /\
    portstate d' = portstate d /\ PCM_BSY d' = PCM_BSY d /\
    exists d1, do_while ext_body (tick_steps d) (tick_entry d) = Some (Next, d1, []) /\
               d' = fst (interpolate d1)) \/
   (ev = status_set d (status_change_EOS_bit d) /\
    portstate d' = 0 /\ PCM_BSY d' = 0 /\ adpcml d' = 0 /\
    Z.land (portstate d) 0x10 = 0)).
Proof. apply ext_tick_cases. Qed.

Lemma tick_mixes_or_ends_witness :
  Z.land (portstate looping) 0xe0 = 0xa0 /\
  ADPCMB_CALC looping = Some (tick_state looping, tick_calls looping) /\
  now_step (tick_state looping) = 16384 /\ pan (tick_state looping) = 0.
Proof.
  assert (Z.land (portstate looping) 0xe0 = 0xa0) as H1 by (vm_compute; reflexivity).
  assert (ADPCMB_CALC looping = Some (tick_state looping, tick_calls looping)) as H2
    by (vm_compute; reflexivity).
  split; [exact H1|]. split; [exact H2|].
  destruct (tick_mixes_or_ends looping _ _ H1 H2) as (H3 & H4 & _).
  split; [exact H3|exact H4].
Defined.

(** With the repeat bit set no pass leaves the loop. *)
Lemma ext_tick_repeat d d' ev :
  Z.land (portstate d) 0xe0 = 0xa0 -> Z.land (portstate d) 0x10 <> 0 ->
  ADPCMB_CALC d = Some (d', ev) ->
  ev = [Mix (pan d) (adpcml d')] /\ portstate d' = portstate d /\
  PCM_BSY d' = PCM_BSY d /\ pan d' = pan d.
Proof.
  intros Hmode Hrep H.
  destruct (ext_tick_cases d d' ev Hmode H) as (_ & Hpan & [(-> & Hp & Hb & _)|(_ & _ & _ & _ & E)]);
    [auto|contradiction].
Qed.

(** X13. With the repeat bit set the playback never ends: on a host that
    maps the memory, any number of ticks go through, each adds one sample
    to the output that [pan] selects and makes no other call, no EOS is
    raised, and the control state and the busy flag stay as they are. *)
Theorem repeat_plays_on (n : nat) :
  forall (d : YM_DELTAT) (rom : Z -> Z),
  mapped rom d ->
  Z.land (portstate d) 0xe0 = 0xa0 -> Z.land (portstate d) 0x10 <> 0 ->
  exists d' ev,
    run (repeat OpCalc n) d = Some (d', ev) /\
    portstate d' = portstate d /\ PCM_BSY d' = PCM_BSY d /\
    length ev = n /\ Forall (mixes (pan d)) ev.
Proof.
  induction n as [|n IH]; intros d rom Hmap Hmode Hrep.
  - exists d, []. cbn. auto.
  - destruct (run_op_total rom OpCalc d Hmap I) as (d1 & ev1 & H1 & Hmap1).
    cbn [repeat run]. rewrite H1. cbn [run_op] in H1.
    destruct (ext_tick_repeat d d1 ev1 Hmode Hrep H1) as (-> & Hp & Hb & Hpan).
    destruct (IH d1 rom Hmap1) as (d' & ev & Hrun & Hp' & Hb' & Hlen & Hmix);
      [rewrite Hp; assumption..|].
    rewrite Hrun. exists d', ([Mix (pan d) (adpcml d1)] ++ ev).
    split; [reflexivity|]. split; [congruence|]. split; [congruence|].
    split; [cbn; lia|].
    constructor; [eexists; reflexivity|]. rewrite <- Hpan. exact Hmix.
Qed.

Lemma repeat_plays_on_witness :
  mapped rom55 looping /\
  Z.land (portstate looping) 0xe0 = 0xa0 /\ Z.land (portstate looping) 0x10 <> 0 /\
  exists d' ev,
    run (repeat OpCalc 1000) looping = Some (d', ev) /\
    portstate d' = 0xb0 /\ length ev = 1000%nat.
Proof.
  assert (mapped rom55 looping) as H1 by reflexivity.
  assert (Z.land (portstate looping) 0xe0 = 0xa0) as H2 by (vm_compute; reflexivity).
  assert (Z.land (portstate looping) 0x10 <> 0) as H3 by (vm_compute; discriminate).
  split; [exact H1|]. split; [exact H2|]. split; [exact H3|].
  destruct (repeat_plays_on 1000 looping rom55 H1 H2 H3) as (d' & ev & Hr & Hp & _ & Hl & _).
  exists d', ev. split; [exact Hr|]. split; [exact Hp|exact Hl].
Defined.

(** ** The volume and the range of the output *)

(** The level that a write to register 0x0b computes, without the wrap. *)
Lemma volume_level v range :
  0 <= range < 2147483648 ->
  Z.quot (to_i32 (Z.land v 0xff * Z.quot range 256)) YM_DELTAT_DECODE_RANGE
    = to_u8 v * (range / 256) / 32768 /\
  0 <= to_u8 v * (range / 256) / 32768 <= 65279.
Proof.
  intros Hr. rewrite to_u8_land_ff. pose proof (to_u8_range v) as Hv.
  rewrite (Z.quot_div_nonneg range 256) by lia.
  assert (0 <= range / 256 <= 8388607) as Hq by (Z.div_mod_to_equations; lia).
  assert (0 <= to_u8 v * (range / 256) <= 2139094785) as Hm by nia.
  rewrite to_i32_small by lia. unfold YM_DELTAT_DECODE_RANGE.
  rewrite Z.quot_div_nonneg by lia.
  split; [reflexivity|]. Z.div_mod_to_equations. lia.
Qed.

Lemma levels_update data d : levels d -> levels (adpcm_update data d).
Proof.
  intros (Hr & Hp & Hv). split; [apply adpcm_update_in_range|]. split.
  - change (prev_acc (adpcm_update data d)) with (acc d). apply Hr.
  - exact Hv.
Qed.

Ltac frame_levels :=
  unfold levels, in_range, range_ok; frame;
  unfold YM_DELTAT_DECODE_MIN, YM_DELTAT_DECODE_MAX, YM_DELTAT_DECODE_RANGE,
    YM_DELTAT_DELTA_MIN, YM_DELTAT_DELTA_MAX, YM_DELTAT_DELTA_DEF in *;
  try solve [intuition lia].

Lemma levels_write_volume v s : levels s -> levels (write_volume v s).
Proof.
  intros (Hr & Hp & Hv). unfold write_volume. cbv zeta.
  assert (forall x, levels (set_volume
            (Z.quot (to_i32 (Z.land v 0xff * Z.quot (output_range s) 256))
               YM_DELTAT_DECODE_RANGE) (set_adpcml x s))) as H.
  { intros x. split; [exact Hr|]. split; [exact Hp|].
    unfold range_ok. reduce_fields. intros Ho.
    destruct (volume_level v (output_range s) Ho) as [-> Hb]. exact Hb. }
  destruct (volume s =? 0); [exact (H (adpcml s))|].
  match goal with |- levels (set_adpcml ?x (set_volume ?y s)) =>
    change (levels (set_volume y (set_adpcml x s))) end.
  apply H.
Qed.

Lemma levels_write d r v d' ev :
  levels d -> ADPCMB_write d r v = Some (d', ev) -> levels d'.
Proof.
  apply (ADPCMB_write_inv levels);
    [frame_levels..|apply levels_write_volume|frame_levels].
Qed.

Lemma levels_reset panidx d0 : levels (fst (ADPCMB_reset panidx d0)).
Proof.
  split; [apply in_range_reset|]. split; [vm_compute; intuition discriminate|].
  intros _. cbn. lia.
Qed.

Lemma levels_run_op o d d' ev : levels d -> run_op o d = Some (d', ev) -> levels d'.
Proof.
  intros Hd H. destruct o as [panidx|r v| | |regs]; revert H; cbn [run_op]; intros H.
  - apply Some_pair_inv in H. destruct H as [<- _]. apply levels_reset.
  - eapply levels_write; eauto.
  - destruct (ADPCMB_read d) as [[[x d1] ev1]|] eqn:E; [|discriminate].
    apply Some_pair_inv in H. destruct H as [<- _].
    revert Hd E. apply (ADPCMB_read_inv levels); frame_levels.
  - revert Hd H.
    apply (ADPCMB_CALC_inv levels);
      [frame_levels|frame_levels|intros; apply levels_update; assumption|frame_levels..].
  - revert Hd H. apply (ADPCMB_postload_inv levels); try solve [frame_levels].
    intros s r v s' e _. apply levels_write.
Qed.

Lemma reachable_levels d : reachable d -> levels d.
Proof.
  apply (reachable_inv levels).
  - intros; apply levels_reset.
  - intros; eapply levels_run_op; eauto.
Qed.

(** X14. On a host whose output range is a non-negative [int32_t], the
    volume of every reachable state is a level of 0 to 65279, and a write
    to register 0x0b computes it without overflow: the level is the byte
    times the 256th of the output range, divided by 32768.  When the volume
    was 0 the write leaves the held sample as it is. *)
Theorem volume_is_a_level (d : YM_DELTAT) :
  reachable d -> range_ok d ->
  0 <= volume d <= 65279 /\
  forall v,
    exists d',
      ADPCMB_write d 11 v = Some (d', []) /\
      volume d' = to_u8 v * (output_range d / 256) / 32768 /\
      0 <= volume d' <= 65279 /\
      (volume d = 0 -> adpcml d' = adpcml d).
Proof.
  intros Hr Ho. destruct (reachable_levels d Hr) as (_ & _ & Hv).
  split; [exact (Hv Ho)|].
  intros v. exists (write_volume v (store_reg 11 v d)). split; [reflexivity|].
  destruct (volume_level v (output_range d) Ho) as [E Hb].
  unfold write_volume. cbv zeta. unfold store_reg. reduce_fields.
  destruct (volume d =? 0) eqn:E0; reduce_fields; rewrite E;
    (split; [reflexivity|split; [exact Hb|]]).
  - reflexivity.
  - intros Hz. apply Z.eqb_neq in E0. contradiction.
Qed.

Lemma volume_is_a_level_witness :
  reachable ym2610 /\ range_ok ym2610 /\
  exists d', ADPCMB_write ym2610 11 0x80 = Some (d', []) /\ volume d' = 128.
Proof.
  assert (range_ok ym2610) as Ho by (vm_compute; split; [discriminate|reflexivity]).
  split; [exact ym2610_reachable|]. split; [exact Ho|].
  destruct (proj2 (volume_is_a_level ym2610 ym2610_reachable Ho) 0x80)
    as (d' & Hw & Hv & _).
  exists d'. split; [exact Hw|exact Hv].
Defined.

(** X15. No sample overflows.  From a reachable state on a host with a
    valid output range, the sample that a tick of the playback adds to the
    output is the interpolation between the previous predictor and the
    predictor of the state that the decode loop leaves, times the volume:
    it lies between -32768 and 32767 times the volume, within an
    [int32_t]. *)
Theorem mixed_sample_in_range (d d' : YM_DELTAT) (ev : list host_call) (p s : Z) :
  reachable d -> range_ok d ->
  Z.land (portstate d) 0xe0 = 0xa0 ->
  ADPCMB_CALC d = Some (d', ev) -> In (Mix p s) ev ->
  p = pan d /\ s = adpcml d' /\
  -32768 * volume d <= s <= 32767 * volume d /\
  -2147483648 <= s < 2147483648.
Proof.
  intros Hr Ho Hmode H Hin.
  pose proof (reachable_levels d Hr) as Hl.
  destruct (ext_tick_cases d d' ev Hmode H)
    as (_ & _ & [(-> & _ & _ & d1 & Hloop & ->)|(-> & _)]).
  - destruct Hin as [E|[]]. injection E as <- <-.
    assert ((levels d1 /\ volume d1 = volume d /\ output_range d1 = output_range d
             /\ now_step d1 = now_step (tick_entry d))) as (Hl1 & Hv1 & Ho1 & Hn1).
    { assert (levels (tick_entry d) /\ volume (tick_entry d) = volume d /\
              output_range (tick_entry d) = output_range d /\
              now_step (tick_entry d) = now_step (tick_entry d)) as H0
        by (split; [exact Hl|repeat split]).
      revert H0 Hloop.
      apply (do_while_inv
               (fun t => levels t /\ volume t = volume d /\
                         output_range t = output_range d /\
                         now_step t = now_step (tick_entry d))).
      intros t fl t' e.
      apply (ext_body_inv
               (fun t => levels t /\ volume t = volume d /\
                         output_range t = output_range d /\
                         now_step t = now_step (tick_entry d)));
        intros;
        match goal with
        | H : _ /\ _ /\ _ /\ _ |- _ => destruct H as (Hl0 & ? & ? & ?)
        end;
        (split; [|repeat split; assumption]);
        [revert Hl0; frame_levels..|apply levels_update; assumption
        |revert Hl0; frame_levels|revert Hl0; frame_levels]. }
    assert (mixable d1) as Hm.
    { destruct Hl1 as ((Ha & _) & Hp & Hv). unfold mixable.
      split; [exact Ha|]. split; [exact Hp|]. split.
      - rewrite Hn1. unfold tick_entry. cbv zeta. reduce_fields.
        rewrite phase_fraction by apply to_u32_range.
        apply Z.mod_pos_bound. lia.
      - unfold range_ok in *. rewrite Ho1 in Hv. specialize (Hv Ho). lia. }
    destruct (interpolate_exact d1 Hm) as (Hs & _ & Hb & Hi).
    split; [reflexivity|]. split; [reflexivity|].
    change (-32768 * volume d <= adpcml (fst (interpolate d1)) <= 32767 * volume d /\
            -2147483648 <= adpcml (fst (interpolate d1)) < 2147483648).
    rewrite Hs, <- Hv1. split; [|exact Hi].
    destruct Hm as (Ha & Hp & _ & Hv).
    unfold YM_DELTAT_DECODE_MIN, YM_DELTAT_DECODE_MAX, YM_DELTAT_DECODE_RANGE in *.
    nia.
  - exfalso. unfold status_set in Hin.
    destruct (_ && _); [destruct Hin as [E|[]]; discriminate|contradiction].
Qed.

Lemma looping_reachable : reachable looping.
Proof.
  apply (run_state_reachable
           [OpWrite 4 0x00; OpWrite 10 0x40; OpWrite 11 0xff; OpWrite 0 0x90] ym2610);
    [exact ym2610_reachable|].
  vm_compute. reflexivity.
Qed.

Lemma looping_later_reachable : reachable looping_later.
Proof.
  apply (run_state_reachable (repeat OpCalc 9) looping); [exact looping_reachable|].
  vm_compute. reflexivity.
Qed.

Lemma mixed_sample_in_range_witness :
  reachable looping_later /\ range_ok looping_later /\
  Z.land (portstate looping_later) 0xe0 = 0xa0 /\
  ADPCMB_CALC looping_later = Some (tick_state looping_later, [Mix 0 79560]) /\
  In (Mix 0 79560) [Mix 0 79560] /\
  -32768 * volume looping_later <= 79560 <= 32767 * volume looping_later.
Proof.
  assert (reachable looping_later) as H1 by exact looping_later_reachable.
  assert (range_ok looping_later) as H2 by (vm_compute; split; [discriminate|reflexivity]).
  assert (Z.land (portstate looping_later) 0xe0 = 0xa0) as H3 by (vm_compute; reflexivity).
  assert (ADPCMB_CALC looping_later = Some (tick_state looping_later, [Mix 0 79560]))
    as H4 by (vm_compute; reflexivity).
  assert (In (Mix 0 79560) [Mix 0 79560]) as H5 by (left; reflexivity).
  split; [exact H1|]. split; [exact H2|]. split; [exact H3|]. split; [exact H4|].
  split; [exact H5|].
  exact (proj1 (proj2 (proj2 (mixed_sample_in_range looping_later _ _ 0 79560
                                H1 H2 H3 H4 H5)))).
Defined.

(** ** The busy flag *)

Lemma busy_write_control v s : busy_while_started (fst (write_control v s)).
Proof.
  unfold busy_while_started, write_control. fold (control_bits v). cbv zeta.
  cbn [portstate set_portstate].
  destruct (Z.land (control_bits v) 0x80 =? 0) eqn:E7; reduce_fields;
    destruct (Z.land (control_bits v) 0x20 =? 0); reduce_fields;
    destruct (Z.land (control_bits v) 0x01 =? 0); reduce_fields;
    intros H; try reflexivity;
    solve [apply Z.eqb_eq in E7; contradiction | exfalso; apply H; reflexivity].
Qed.

Ltac frame_busy :=
  intros; unfold busy_while_started in *; unfold_write; unfold_decode; cbn;
  break_ifs; cbn; auto.

Lemma busy_write d r v d' ev :
  busy_while_started d -> ADPCMB_write d r v = Some (d', ev) -> busy_while_started d'.
Proof.
  apply (ADPCMB_write_inv busy_while_started);
    try solve [frame_busy].
  intros _ s _. apply busy_write_control.
Qed.

Lemma busy_run_op o d d' ev :
  busy_while_started d -> run_op o d = Some (d', ev) -> busy_while_started d'.
Proof.
  intros Hd H. destruct o as [panidx|r v| | |regs]; revert H; cbn [run_op]; intros H.
  - apply Some_pair_inv in H. destruct H as [<- _]. intros E. exfalso. apply E. reflexivity.
  - eapply busy_write; eauto.
  - destruct (ADPCMB_read d) as [[[x d1] ev1]|] eqn:E; [|discriminate].
    apply Some_pair_inv in H. destruct H as [<- _].
    revert Hd E. apply (ADPCMB_read_inv busy_while_started); frame_busy.
  - revert Hd H.
    apply (ADPCMB_CALC_inv busy_while_started);
      try solve [frame_busy].
    intros s _ E. exfalso. apply E. reflexivity.
  - revert Hd H.
    apply (ADPCMB_postload_inv busy_while_started);
      try solve [frame_busy].
    intros s r v s' e _. apply busy_write.
Qed.

(** X16. While the unit plays it is busy: in every reachable state with the
    start bit set, [PCM_BSY] is 1.  The converse fails, since [ADPCMB_reset]
    does not clear the flag: a reset after a start leaves the unit in read
    mode with the start bit clear, where a tick does nothing, and still
    busy. *)
Theorem busy_while_playing (d : YM_DELTAT) :
  reachable d ->
  (Z.land (portstate d) 0x80 <> 0 -> PCM_BSY d = 1) /\
  (forall v panidx,
      Z.land v 0x80 <> 0 -> Z.land v 0x01 = 0 ->
      exists d1 ev1 d2,
        ADPCMB_write d 0 v = Some (d1, ev1) /\ PCM_BSY d1 = 1 /\
        d2 = fst (ADPCMB_reset panidx d1) /\
        PCM_BSY d2 = 1 /\ portstate d2 = 0x20 /\ ADPCMB_CALC d2 = Some (d2, [])).
Proof.
  intros Hr. split.
  - revert d Hr. apply (reachable_inv busy_while_started).
    + intros d0 panidx E. exfalso. apply E. reflexivity.
    + intros; eapply busy_run_op; eauto.
  - intros v panidx H7 H0.
    exists (fst (write_control v (store_reg 0 v d))),
           (snd (write_control v (store_reg 0 v d))).
    eexists. split; [cbn; rewrite <- surjective_pairing; reflexivity|].
    assert (PCM_BSY (fst (write_control v (store_reg 0 v d))) = 1) as Hb.
    { rewrite <- control_bits_start in H7. rewrite <- control_bits_reset in H0.
      apply Z.eqb_neq in H7. apply Z.eqb_eq in H0.
      unfold write_control. fold (control_bits v). cbv zeta.
      cbn [portstate set_portstate]. rewrite H7. reduce_fields.
      destruct (Z.land (control_bits v) 0x20 =? 0); reduce_fields;
        rewrite H0; reflexivity. }
    split; [exact Hb|]. split; [reflexivity|]. split; [exact Hb|].
    split; [reflexivity|]. apply ADPCMB_CALC_stopped. reflexivity.
Qed.

Lemma busy_while_playing_witness :
  reachable looping /\ Z.land (portstate looping) 0x80 <> 0 /\ PCM_BSY looping = 1.
Proof.
  assert (reachable looping) as H1 by exact looping_reachable.
  assert (Z.land (portstate looping) 0x80 <> 0) as H2 by (vm_compute; discriminate).
  split; [exact H1|]. split; [exact H2|].
  exact (proj1 (busy_while_playing looping H1) H2).
Defined.

(** ** What a call leaves alone *)

(** X17. A tick decodes and mixes, and leaves what the host has programmed:
    the register image, the start, end and limit address, the rate, the
    volume, control 2 and the pan, and the state of the data port. *)
Theorem tick_keeps_program (d d' : YM_DELTAT) (ev : list host_call) :
  ADPCMB_CALC d = Some (d', ev) -> programmed_fields d' = programmed_fields d.
Proof.
  assert (programmed_fields d = programmed_fields d) as H0 by reflexivity.
  revert H0.
  apply (ADPCMB_CALC_inv (fun s => programmed_fields s = programmed_fields d));
    unfold programmed_fields; frame.
Qed.

Lemma tick_keeps_program_witness :
  ADPCMB_CALC looping_later = Some (tick_state looping_later, [Mix 0 79560]) /\
  programmed_fields (tick_state looping_later) = programmed_fields looping_later.
Proof.
  assert (ADPCMB_CALC looping_later = Some (tick_state looping_later, [Mix 0 79560]))
    as H by (vm_compute; reflexivity).
  split; [exact H|]. exact (tick_keeps_program looping_later _ _ H).
Defined.

(** The same as [frame] for a property that mentions a tested field. *)
Ltac frame_tested :=
  intros; unfold_write; unfold_decode; cbn;
  repeat match goal with
    | |- context [if ?c then _ else _] => destruct c eqn:?
    end;
  cbn; solve [assumption | congruence].

Lemma host_fields_write d r v d' ev :
  ADPCMB_write d r v = Some (d', ev) -> host_fields d' = host_fields d.
Proof.
  assert (host_fields d = host_fields d) as H0 by reflexivity. revert H0.
  apply (ADPCMB_write_inv (fun s => host_fields s = host_fields d));
    unfold host_fields; frame_tested.
Qed.

Lemma host_fields_run_op o d d' ev :
  run_op o d = Some (d', ev) -> host_fields d' = host_fields d.
Proof.
  intros H. destruct o as [panidx|r v| | |regs]; revert H; cbn [run_op]; intros H.
  - apply Some_pair_inv in H. destruct H as [<- _]. reflexivity.
  - eapply host_fields_write; eauto.
  - destruct (ADPCMB_read d) as [[[x d1] ev1]|] eqn:E; [|discriminate].
    apply Some_pair_inv in H. destruct H as [<- _].
    assert (host_fields d = host_fields d) as H0 by reflexivity. revert H0 E.
    apply (ADPCMB_read_inv (fun s => host_fields s = host_fields d));
      unfold host_fields; frame_tested.
  - assert (host_fields d = host_fields d) as H0 by reflexivity. revert H0 H.
    apply (ADPCMB_CALC_inv (fun s => host_fields s = host_fields d));
      unfold host_fields; frame_tested.
  - assert (host_fields d = host_fields d) as H0 by reflexivity. revert H0 H.
    apply (ADPCMB_postload_inv (fun s => host_fields s = host_fields d));
      try solve [unfold host_fields; frame_tested].
    intros s r v s' e _ Hs Hw. rewrite <- Hs. eapply host_fields_write; eauto.
Qed.

Lemma host_fields_run os : forall d d' ev,
  run os d = Some (d', ev) -> host_fields d' = host_fields d.
Proof.
  induction os as [|o os IH]; intros d d' ev H; cbn [run] in H.
  - apply Some_pair_inv in H. destruct H as [<- _]. reflexivity.
  - destruct (run_op o d) as [[d1 ev1]|] eqn:E1; [|discriminate].
    destruct (run os d1) as [[d2 ev2]|] eqn:E2; [|discriminate].
    apply Some_pair_inv in H. destruct H as [<- _].
    rewrite (IH _ _ _ E2). eapply host_fields_run_op; eauto.
Qed.

(** X18. No call of the unit changes what the host set up when it attached
    it: through any sequence of resets, register writes, reads, ticks and
    restores the memory, the three callbacks, the status bits, the address
    shift, the output range and the clock ratio stay as they were. *)
Theorem host_setup_is_kept (os : list op) (d d' : YM_DELTAT) (ev : list host_call) :
  run os d = Some (d', ev) -> host_fields d' = host_fields d.
Proof. apply host_fields_run. Qed.

Lemma host_setup_is_kept_witness :
  run (write_ops program) ym2610 = Some (programmed, program_calls) /\
  host_fields programmed = host_fields ym2610.
Proof.
  assert (run (write_ops program) ym2610 = Some (programmed, program_calls)) as H
    by (vm_compute; reflexivity).
  split; [exact H|]. exact (host_setup_is_kept _ _ _ _ H).
Defined.

(** ** The restore and the playback in flight *)

(** A write to a register other than 0 leaves the playback in flight and
    calls nothing, on the YM2610; a write to the volume register does when
    the volume was 0. *)
Lemma write_keeps_playback d r v d' ev :
  ym2610_portstate (portstate d) -> 1 <= r -> (r = 11 -> volume d = 0) ->
  ADPCMB_write d r v = Some (d', ev) ->
  ev = [] /\ playback d' = playback d /\ (r <> 11 -> volume d' = volume d).
Proof.
  intros Hp Hr Hv Hw.
  destruct (ym2610_portstate_not_cpu _ Hp) as [Hcpu Hrec].
  apply Z.eqb_neq in Hcpu, Hrec.
  apply ADPCMB_write_cases in Hw.
  destruct Hw as [(_ & -> & ->)|(Hr16 & Hw)]; [auto|].
  cbv zeta in Hw.
  assert (r = 1 \/ r = 8 \/ r = 11 \/
          (r <> 1 /\ r <> 8 /\ r <> 11)) as [->|[->|[->|(H1 & H8 & H11)]]] by lia.
  - cbn [Z.eqb Pos.eqb] in Hw. apply pair_equal_spec in Hw. destruct Hw as [-> ->].
    split; [reflexivity|]. unfold write_control2. cbv zeta.
    break_ifs; (split; [reflexivity|intros _; reflexivity]).
  - cbn [Z.eqb Pos.eqb orb] in Hw.
    assert (d' = fst (write_data v (store_reg 8 v d)) /\
            ev = snd (write_data v (store_reg 8 v d))) as [-> ->]
      by (rewrite <- Hw; auto).
    unfold write_data.
    change (portstate (store_reg 8 v d)) with (portstate d).
    rewrite Hrec, Hcpu. cbn [fst snd]. split; [reflexivity|].
    split; [reflexivity|intros _; reflexivity].
  - cbn [Z.eqb Pos.eqb orb] in Hw. apply pair_equal_spec in Hw. destruct Hw as [-> ->].
    split; [reflexivity|]. split; [|intros H; contradiction].
    unfold write_volume. cbv zeta.
    change (volume (store_reg 11 v d)) with (volume d).
    rewrite (Hv eq_refl). reflexivity.
  - assert ((r =? 0) = false) as E0 by (apply Z.eqb_neq; lia).
    assert ((r =? 1) = false) as E1 by (apply Z.eqb_neq; lia).
    assert ((r =? 8) = false) as E8 by (apply Z.eqb_neq; lia).
    assert ((r =? 11) = false) as E11 by (apply Z.eqb_neq; lia).
    rewrite E0, E1, E8, E11 in Hw.
    repeat match type of Hw with
      | _ = (if ?c then _ else _) => destruct c
      end;
      apply pair_equal_spec in Hw; destruct Hw as [-> ->];
      (split; [reflexivity|split; [reflexivity|intros _; reflexivity]]).
Qed.

Lemma replay_keeps_playback regs rs : forall d d' ev,
  ym2610_portstate (portstate d) ->
  Forall (fun r => (1 <= r)%nat) rs -> NoDup rs ->
  (volume d = 0 \/ ~ elem_of 11%nat rs) ->
  replay rs regs d = Some (d', ev) -> ev = [] /\ playback d' = playback d.
Proof.
  induction rs as [|r rs IH]; intros d d' ev Hp Hge Hnd Hv H; cbn [replay] in H.
  - apply Some_pair_inv in H. destruct H as [<- <-]. auto.
  - destruct (ADPCMB_write d (Z.of_nat r) _) as [[d1 ev1]|] eqn:E1; [|discriminate].
    destruct (replay rs regs d1) as [[d2 ev2]|] eqn:E2; [|discriminate].
    apply Some_pair_inv in H. destruct H as [<- <-].
    inversion Hge as [|? ? Hr Hge']; subst. inversion Hnd as [|? ? Hnin Hnd']; subst.
    assert (Z.of_nat r = 11 -> volume d = 0) as Hv11.
    { intros E. destruct Hv as [Hv|Hv]; [exact Hv|].
      exfalso. apply Hv. replace r with 11%nat by lia. left. }
    assert (1 <= Z.of_nat r) as Hr1 by lia.
    destruct (write_keeps_playback _ _ _ _ _ Hp Hr1 Hv11 E1) as (-> & Hpb & Hvol).
    assert (portstate d1 = portstate d) as Hp1
      by (unfold playback in Hpb; congruence).
    destruct (IH d1 d2 ev2) as [-> Hpb2]; try assumption.
    + rewrite Hp1. exact Hp.
    + destruct (Nat.eq_dec r 11%nat) as [->|Hne]; [right; exact Hnin|].
      destruct Hv as [Hv|Hv]; [left|right; intros Hin; apply Hv; right; exact Hin].
      rewrite Hvol by lia. exact Hv.
    + split; [reflexivity|congruence].
Qed.

(** What the restore leaves of the playback in flight, on the YM2610. *)
Lemma postload_regs_keeps_playback rs d regs d' ev :
  ym2610_portstate (portstate d) ->
  Forall (fun r => (1 <= r)%nat) rs -> NoDup rs ->
  postload_regs rs d regs = Some (d', ev) ->
  ev = [] /\ playback d' = playback d /\
  exists rom, read_byte d' = Some rom /\
              now_data d' = to_u8 (rom (Z.shiftr (now_addr d') 1)).
Proof.
  intros Hp Hge Hnd H. unfold postload_regs in H. cbv zeta in H.
  destruct (replay rs regs (set_volume 0 d)) as [[d1 ev1]|] eqn:E; [|discriminate].
  destruct (replay_keeps_playback regs rs (set_volume 0 d) d1 ev1) as [-> Hpb];
    [exact Hp|exact Hge|exact Hnd|left; reflexivity|exact E|].
  match type of H with
  | match read_byte ?s with _ => _ end = _ =>
      change (read_byte s) with (read_byte d1) in H;
      destruct (read_byte d1) as [m|] eqn:Em; [|discriminate]
  end.
  apply Some_pair_inv in H. destruct H as [<- <-].
  split; [reflexivity|]. split; [exact Hpb|].
  exists m. split; [exact Em|reflexivity].
Qed.

Lemma postload_keeps_playback d regs d' ev :
  ym2610_portstate (portstate d) -> ADPCMB_postload d regs = Some (d', ev) ->
  ev = [] /\ playback d' = playback d /\
  exists rom, read_byte d' = Some rom /\
              now_data d' = to_u8 (rom (Z.shiftr (now_addr d') 1)).
Proof.
  intros Hp H. rewrite (ADPCMB_postload_eq d regs) in H.
  eapply postload_regs_keeps_playback; [exact Hp| | |exact H].
  - apply List.Forall_forall. intros r Hr. apply in_seq in Hr. lia.
  - apply NoDup_seq.
Qed.

(** X19. The restore keeps the playback in flight.  On the YM2610, in any
    reachable state (and on a host that maps the memory, without which the
    restore fails), [ADPCMB_postload] calls nothing and leaves the held
    sample, the predictors, the step size, the phase, the control state,
    the busy flag, the cursor and the state of the data port as they are,
    whatever the image: the volume is zeroed first so that the replay of
    the volume register does not rescale the held sample, and register 0 is
    not replayed.  It reloads [now_data] with the byte of the memory under
    the cursor. *)
Theorem restore_keeps_playback
    (d : YM_DELTAT) (regs : list Z) (d' : YM_DELTAT) (ev : list host_call) :
  reachable d -> ADPCMB_postload d regs = Some (d', ev) ->
  ev = [] /\ playback d' = playback d /\
  exists rom, read_byte d' = Some rom /\
              now_data d' = to_u8 (rom (Z.shiftr (now_addr d') 1)).
Proof.
  intros Hr. apply postload_keeps_playback, reachable_portstate, Hr.
Qed.

Lemma restore_keeps_playback_witness :
  reachable looping_later /\
  ADPCMB_postload looping_later (repeat 0 16) = Some (restored, []) /\
  playback restored = playback looping_later /\
  (volume looping_later, volume restored) = (255, 0) /\
  (adpcml looping_later, adpcml restored) = (61965, 61965).
Proof.
  assert (ADPCMB_postload looping_later (repeat 0 16) = Some (restored, [])) as H
    by (vm_compute; reflexivity).
  split; [exact looping_later_reachable|]. split; [exact H|].
  split; [|split; vm_compute; reflexivity].
  exact (proj1 (proj2 (restore_keeps_playback looping_later (repeat 0 16) restored []
                         looping_later_reachable H))).
Defined.

(** ** The calls to the host *)

Lemma host_fields_status d t :
  host_fields t = host_fields d ->
  status_set_handler t = status_set_handler d /\
  status_reset_handler t = status_reset_handler d /\
  status_change_EOS_bit t = status_change_EOS_bit d /\
  status_change_BRDY_bit t = status_change_BRDY_bit d.
Proof. unfold host_fields. intros H. repeat split; congruence. Qed.

Lemma expected_status_set d t bit :
  host_fields t = host_fields d ->
  bit = status_change_EOS_bit t \/ bit = status_change_BRDY_bit t ->
  Forall (expected_call d) (status_set t bit).
Proof.
  intros Hh Hbit. destruct (host_fields_status d t Hh) as (Hs & _ & He & Hb).
  unfold status_set.
  destruct (status_set_handler t) eqn:E; [|constructor].
  destruct (bit =? 0) eqn:E0; cbn [negb andb]; [constructor|].
  apply Z.eqb_neq in E0.
  constructor; [|constructor]. cbn. rewrite <- Hs, <- He, <- Hb. auto.
Qed.

Lemma expected_status_reset d t :
  host_fields t = host_fields d ->
  Forall (expected_call d) (status_reset t (status_change_BRDY_bit t)).
Proof.
  intros Hh. destruct (host_fields_status d t Hh) as (_ & Hr & _ & Hb).
  unfold status_reset.
  destruct (status_reset_handler t) eqn:E; [|constructor].
  destruct (status_change_BRDY_bit t =? 0) eqn:E0; cbn [negb andb]; [constructor|].
  apply Z.eqb_neq in E0.
  constructor; [|constructor]. cbn. rewrite <- Hr, <- Hb. auto.
Qed.

(** The calls of a write on the YM2610: none, or the status-set call for
    BRDY of a write to register 0 with the reset bit. *)
Lemma ADPCMB_write_calls d r v d' ev :
  ym2610_portstate (portstate d) -> ADPCMB_write d r v = Some (d', ev) ->
  ev = [] \/ ev = status_set d (status_change_BRDY_bit d).
Proof.
  intros Hp Hw.
  destruct (Z_le_gt_dec 1 r) as [Hr|Hr].
  - left. assert (r = 11 \/ r <> 11) as [->|Hne] by lia.
    + apply ADPCMB_write_cases in Hw.
      destruct Hw as [(Hr' & _)|(_ & Hw)]; [lia|].
      cbv zeta in Hw. cbn [Z.eqb Pos.eqb orb] in Hw.
      apply pair_equal_spec in Hw. apply Hw.
    + eapply (write_keeps_playback d r v d' ev Hp Hr); [intros; contradiction|exact Hw].
  - apply ADPCMB_write_cases in Hw.
    destruct Hw as [(Hr' & _)|(Hr' & Hw)]; [lia|].
    assert (r = 0) as -> by lia. cbv zeta in Hw. cbn [Z.eqb] in Hw.
    assert (ev = snd (write_control v (store_reg 0 v d))) as ->
      by (rewrite <- Hw; reflexivity).
    unfold write_control. cbv zeta.
    break_ifs; cbn [snd]; first [left; reflexivity | right; reflexivity].
Qed.

Lemma run_op_calls o d d' ev :
  ym2610_portstate (portstate d) -> run_op o d = Some (d', ev) ->
  Forall (expected_call d) ev.
Proof.
  intros Hp H. destruct o as [panidx|r v| | |regs]; revert H; cbn [run_op]; intros H.
  - apply Some_pair_inv in H. destruct H as [_ <-].
    apply expected_status_set; [reflexivity|right; reflexivity].
  - destruct (ADPCMB_write_calls _ _ _ _ _ Hp H) as [->| ->]; [constructor|].
    apply expected_status_set; [reflexivity|right; reflexivity].
  - destruct (ADPCMB_read d) as [[[x d1] ev1]|] eqn:E; [|discriminate].
    apply Some_pair_inv in H. destruct H as [_ <-].
    unfold ADPCMB_read in E.
    repeat match type of E with
      | (if ?c then _ else _) = _ => destruct c
      | match ?x with Some _ => _ | None => _ end = _ => destruct x; [|discriminate]
      end;
      apply Some_triple_inv in E; destruct E as (_ & _ & <-); try constructor.
    + apply Forall_app. split;
        [apply expected_status_reset|apply expected_status_set; [|right]]; reflexivity.
    + apply expected_status_set; [reflexivity|left; reflexivity].
  - destruct (Z.land (portstate d) 0xe0 =? 0xa0) eqn:Emode.
    + apply Z.eqb_eq in Emode.
      destruct (ext_tick_cases d d' ev Emode H) as (_ & _ & [(-> & _)|(-> & _)]).
      * constructor; [exact I|constructor].
      * apply expected_status_set; [reflexivity|left; reflexivity].
    + destruct (ym2610_portstate_not_cpu _ Hp) as [Hcpu _]. apply Z.eqb_neq in Hcpu.
      unfold ADPCMB_CALC in H. rewrite Emode, Hcpu in H.
      apply Some_pair_inv in H. destruct H as [_ <-]. constructor.
  - destruct (postload_keeps_playback d regs d' ev Hp H) as (-> & _). constructor.
Qed.

Lemma run_calls os : forall d d' ev,
  ym2610_portstate (portstate d) -> run os d = Some (d', ev) ->
  Forall (expected_call d) ev.
Proof.
  induction os as [|o os IH]; intros d d' ev Hp H; cbn [run] in H.
  - apply Some_pair_inv in H. destruct H as [_ <-]. constructor.
  - destruct (run_op o d) as [[d1 ev1]|] eqn:E1; [|discriminate].
    destruct (run os d1) as [[d2 ev2]|] eqn:E2; [|discriminate].
    apply Some_pair_inv in H. destruct H as [_ <-].
    apply Forall_app. split; [eapply run_op_calls; eauto|].
    pose proof (run_op_portstate o d d1 ev1 Hp E1) as Hp1.
    pose proof (host_fields_run_op o d d1 ev1 E1) as Hh.
    pose proof (IH d1 d2 ev2 Hp1 E2) as Hev.
    eapply Forall_impl; [exact Hev|].
    intros c Hc. destruct (host_fields_status d d1 Hh) as (Hs & Hr & He & Hb).
    destruct c; cbn in Hc |- *; rewrite <- ?Hs, <- ?Hr, <- ?He, <- ?Hb; exact Hc.
Qed.

(** X20. What the YM2610 asks of its host.  Through any sequence of calls
    from a reachable state, the unit calls the status-set handler only when
    it is set, and only for the EOS or the BRDY bit when the host gave the
    flag a bit; it calls the status-reset handler only when it is set and
    only for BRDY: the unit never clears EOS.  It never calls the byte-write
    callback, since the record bit cannot be set.  Its other calls are the
    additions of a sample to an output. *)
Theorem host_calls_are_expected
    (os : list op) (d d' : YM_DELTAT) (ev : list host_call) :
  reachable d -> run os d = Some (d', ev) -> Forall (expected_call d) ev.
Proof.
  intros Hr. apply run_calls, reachable_portstate, Hr.
Qed.

Lemma host_calls_are_expected_witness :
  reachable ym2610 /\
  run (write_ops program) ym2610 = Some (programmed, program_calls) /\
  Forall (expected_call ym2610) program_calls.
Proof.
  assert (run (write_ops program) ym2610 = Some (programmed, program_calls)) as H
    by (vm_compute; reflexivity).
  split; [exact ym2610_reachable|]. split; [exact H|].
  exact (host_calls_are_expected _ _ _ _ ym2610_reachable H).
Defined.

(** ** The CPU-fed synthesis *)

Lemma cpu_body_pass d :
  exists d' ev,
    cpu_body d = Some (Next, d', ev) /\ same_feed d d' /\
    now_addr d' = to_u32 (now_addr d + 1) /\
    Forall (eq (StatusSet (status_change_BRDY_bit d))) ev.
Proof.
  unfold cpu_body. destruct (Z.odd (now_addr d)); cbv zeta; eexists; eexists;
    (split; [reflexivity|]); (split; [unfold same_feed; repeat split; reflexivity|]);
    (split; [reflexivity|]); [|constructor].
  unfold status_set. destruct (_ && _); repeat constructor.
Qed.

(** The CPU-fed loop has no way out: it runs all its passes, each moving the
    cursor on by a nibble; its only calls are status-set calls for BRDY. *)
Lemma do_while_cpu n : forall d,
  0 <= now_addr d < 4294967296 ->
  exists d' ev,
    do_while cpu_body n d = Some (Next, d', ev) /\ same_feed d d' /\
    now_addr d' = to_u32 (now_addr d + Z.of_nat n) /\
    Forall (eq (StatusSet (status_change_BRDY_bit d))) ev /\
    (length ev <= n)%nat.
Proof.
  induction n as [|n IH]; intros d Ha.
  - exists d, []. cbn [do_while]. split; [reflexivity|].
    split; [unfold same_feed; repeat split; reflexivity|].
    split; [|split; [constructor|cbn; lia]].
    rewrite Z.add_0_r, to_u32_small by exact Ha. reflexivity.
  - destruct (cpu_body_pass d) as (d1 & ev1 & E1 & Hs1 & Ha1 & Hev1).
    assert (length ev1 <= 1)%nat as Hl1.
    { revert E1. unfold cpu_body. destruct (Z.odd (now_addr d)); cbv zeta;
        intros E1; apply Some_triple_inv in E1; destruct E1 as (_ & _ & <-);
        [|cbn; lia].
      unfold status_set. destruct (_ && _); cbn; lia. }
    destruct (IH d1) as (d2 & ev2 & E2 & Hs2 & Ha2 & Hev2 & Hl2).
    { rewrite Ha1. apply to_u32_range. }
    exists d2, (ev1 ++ ev2). cbn [do_while]. rewrite E1, E2.
    split; [reflexivity|].
    destruct Hs1 as (P1 & P2 & P3 & P4 & P5 & P6 & P7).
    destruct Hs2 as (Q1 & Q2 & Q3 & Q4 & Q5 & Q6 & Q7).
    split; [unfold same_feed; repeat split; congruence|].
    split; [|split].
    + rewrite Ha2, Ha1. unfold to_u32.
      rewrite Zplus_mod_idemp_l. f_equal. lia.
    + apply Forall_app. split; [exact Hev1|]. rewrite <- P7. exact Hev2.
    + rewrite length_app. lia.
Qed.

(** X21. The CPU-fed synthesis never ends and needs no memory.  In the mode
    0x80 a tick goes through on any host: its loop runs all its
    [tick_steps] passes, each moving the cursor on by a nibble with no mask
    and no end test; its host calls are status-set calls for BRDY, at most
    one a pass, followed by the addition of the held sample to the output
    that [pan] selects; the control state and the busy flag are kept. *)
Theorem cpu_tick_plays_on (d : YM_DELTAT) :
  Z.land (portstate d) 0xe0 = 0x80 -> 0 <= now_addr d < 4294967296 ->
  exists d' ev,
    ADPCMB_CALC d = Some (d', ev ++ [Mix (pan d) (adpcml d')]) /\
    Forall (eq (StatusSet (status_change_BRDY_bit d))) ev /\
    (length ev <= tick_steps d)%nat /\
    now_addr d' = to_u32 (now_addr d + Z.of_nat (tick_steps d)) /\
    now_step d' = tick_phase d mod 65536 /\
    portstate d' = portstate d /\ PCM_BSY d' = PCM_BSY d.
Proof.
  intros Hmode Ha.
  destruct (do_while_cpu (tick_steps d) (tick_entry d) Ha)
    as (d1 & ev1 & Hloop & (P1 & P2 & P3 & P4 & _) & Ha1 & Hev & Hlen).
  assert (synthesis cpu_body d =
            Some (fst (interpolate d1), ev1 ++ snd (interpolate d1))) as Hs.
  { apply synthesis_total_cases. exact Hloop. }
  exists (fst (interpolate d1)), ev1.
  assert ((Z.land (portstate d) 0xe0 =? 0xa0) = false) as E1
    by (rewrite Hmode; reflexivity).
  assert ((Z.land (portstate d) 0xe0 =? 0x80) = true) as E2
    by (rewrite Hmode; reflexivity).
  split.
  - unfold ADPCMB_CALC. rewrite E1, E2.
    unfold YM_DELTAT_synthesis_from_CPU_memory. rewrite Hs.
    unfold interpolate. cbv zeta. cbn [fst snd]. reduce_fields. rewrite P3.
    reflexivity.
  - split; [exact Hev|]. split; [exact Hlen|]. split; [exact Ha1|].
    split; [|split; [exact P1|exact P2]].
    change (now_step (fst (interpolate d1))) with (now_step d1). rewrite P4.
    unfold tick_entry, tick_phase. cbv zeta. reduce_fields.
    apply phase_fraction, to_u32_range.
Qed.

Lemma cpu_tick_plays_on_witness :
  Z.land (portstate cpu_fed) 0xe0 = 0x80 /\ 0 <= now_addr cpu_fed < 4294967296 /\
  exists d' ev,
    ADPCMB_CALC cpu_fed = Some (d', ev ++ [Mix (pan cpu_fed) (adpcml d')]) /\
    now_addr d' = 1 /\ now_step d' = 32768.
Proof.
  assert (Z.land (portstate cpu_fed) 0xe0 = 0x80) as H1 by (vm_compute; reflexivity).
  assert (0 <= now_addr cpu_fed < 4294967296) as H2
    by (vm_compute; split; [discriminate|reflexivity]).
  split; [exact H1|]. split; [exact H2|].
  destruct (cpu_tick_plays_on cpu_fed H1 H2) as (d' & ev & Hc & _ & _ & Ha & Hn & _).
  exists d', ev. split; [exact Hc|]. split; [exact Ha|exact Hn].
Defined.

(** ** The start of the playback *)

(** A write to register 0 with the start bit set and the reset bit clear
    selects the playback from the external memory. *)
Lemma control_bits_play_mode v :
  Z.land v 0x80 <> 0 -> Z.land v 0x01 = 0 ->
  Z.land (control_bits v) 0x80 <> 0 /\ Z.land (control_bits v) 0x20 <> 0 /\
  Z.land (control_bits v) 0x01 = 0 /\ Z.land (control_bits v) 0xe0 = 0xa0.
Proof.
  intros H7 H0.
  rewrite land_byte_mask in H7, H0 by lia. rewrite control_bits_byte.
  assert (forallb
            (fun x =>
               implb (negb (Z.land x 0x80 =? 0) && (Z.land x 0x01 =? 0))
                 (negb (Z.land (control_bits x) 0x80 =? 0)
                  && negb (Z.land (control_bits x) 0x20 =? 0)
                  && (Z.land (control_bits x) 0x01 =? 0)
                  && (Z.land (control_bits x) 0xe0 =? 0xa0)))
            (map Z.of_nat (seq 0 256)) = true) as H by (vm_compute; reflexivity).
  pose proof (forall_bytes _ H (to_u8 v) (to_u8_range v)) as Hv. cbv beta in Hv.
  apply Z.eqb_neq in H7. apply Z.eqb_eq in H0. rewrite H7, H0 in Hv.
  cbn [negb andb implb] in Hv.
  repeat (apply andb_prop in Hv; destruct Hv as [Hv ?]).
  repeat match goal with
    | E : (_ =? _) = true |- _ => apply Z.eqb_eq in E
    | E : negb (_ =? _) = true |- _ => apply negb_true_iff, Z.eqb_neq in E
    end.
  auto.
Qed.

Lemma write_control_play_mode v s :
  Z.land v 0x80 <> 0 -> Z.land v 0x01 = 0 ->
  write_control v s =
    (set_memread 2
       (set_now_addr (to_u32 (Z.shiftl (start s) 1))
          (set_now_data 0
             (set_adpcmd YM_DELTAT_DELTA_DEF
                (set_adpcml 0
                   (set_prev_acc 0
                      (set_acc 0
                         (set_now_step 0
                            (set_PCM_BSY 1 (set_portstate (control_bits v) s))))))))),
     []).
Proof.
  intros H7 H0. destruct (control_bits_play_mode v H7 H0) as (B7 & B5 & B0 & _).
  unfold write_control. fold (control_bits v). cbv zeta.
  apply Z.eqb_neq in B7, B5. apply Z.eqb_eq in B0.
  cbn [portstate set_portstate]. rewrite B7. reduce_fields. rewrite B5.
  reduce_fields. rewrite B0. reflexivity.
Qed.

(** X22. The playback starts on the byte at the start address.  After a
    write to register 0 with the start bit set and the reset bit clear the
    unit is busy, in the mode 0xa0, with the predictor at 0 and the step
    size at 127.  On a host that maps the memory, with the start address
    off the end and the limit address, the first two passes of the decode
    loop then decode the high and the low nibble of the byte at the start
    address, from these defaults, and call nothing. *)
Theorem playback_starts_at_start_address (d : YM_DELTAT) (v : Z) (rom : Z -> Z) :
  read_byte d = Some rom ->
  Z.land v 0x80 <> 0 -> Z.land v 0x01 = 0 ->
  0 <= start d < 2 ^ 31 ->
  start_cursor d <> end_cursor d -> start_cursor d <> limit_cursor d ->
  let b := to_u8 (rom (start d)) in
  exists d1 d2,
    ADPCMB_write d 0 v = Some (started v d, []) /\
    Z.land (portstate (started v d)) 0xe0 = 0xa0 /\ PCM_BSY (started v d) = 1 /\
    acc (started v d) = 0 /\ adpcmd (started v d) = 127 /\
    ext_body (started v d) = Some (Next, d1, []) /\
    ext_body d1 = Some (Next, d2, []) /\
    now_data d2 = b /\ now_addr d2 = (2 * start d + 2) mod 2 ^ 25 /\
    map decoded [d1; d2] = map decoded (decode_nibbles [b / 16; b mod 16] (started v d)).
Proof.
  intros Hrom H7 H0 Hs He Hl b.
  destruct (control_bits_play_mode v H7 H0) as (_ & _ & _ & Hmode).
  pose proof (write_control_play_mode v (store_reg 0 v d) H7 H0) as Hw.
  assert (started v d =
            set_memread 2
              (set_now_addr (to_u32 (Z.shiftl (start (store_reg 0 v d)) 1))
                 (set_now_data 0
                    (set_adpcmd YM_DELTAT_DELTA_DEF
                       (set_adpcml 0
                          (set_prev_acc 0
                             (set_acc 0
                                (set_now_step 0
                                   (set_PCM_BSY 1
                                      (set_portstate (control_bits v)
                                         (store_reg 0 v d))))))))))) as Hst
    by (unfold started; rewrite Hw; reflexivity).
  assert (now_addr (started v d) = start_cursor d) as Ha by (rewrite Hst; reflexivity).
  assert (read_byte (started v d) = Some rom) as Hrom' by (rewrite Hst; exact Hrom).
  assert (limit_cursor (started v d) = limit_cursor d) as Hl'
    by (rewrite Hst; reflexivity).
  assert (end_cursor (started v d) = end_cursor d) as He' by (rewrite Hst; reflexivity).
  destruct (ext_two_passes (started v d) rom) as (d1 & d2 & E1 & E2 & Hb & Hc & Hd).
  - exact Hrom'.
  - rewrite Ha. apply even_cursor.
  - rewrite Ha. apply to_u32_range.
  - rewrite Ha, Hl'. exact Hl.
  - rewrite Ha, He'. exact He.
  - rewrite Ha in Hb, Hc, Hd. rewrite start_cursor_byte in Hb, Hd by exact Hs.
    exists d1, d2.
    split; [cbn; unfold started; rewrite Hw; reflexivity|].
    split; [rewrite Hst; exact Hmode|].
    split; [rewrite Hst; reflexivity|].
    split; [rewrite Hst; reflexivity|].
    split; [rewrite Hst; reflexivity|].
    split; [exact E1|]. split; [exact E2|]. split; [exact Hb|].
    split; [|exact Hd].
    rewrite Hc. unfold start_cursor. rewrite Z.shiftl_mul_pow2 by lia.
    rewrite to_u32_small by lia. f_equal. lia.
Qed.

Lemma playback_starts_at_start_address_witness :
  read_byte loaded = Some rom55 /\
  Z.land 0x80 0x80 <> 0 /\ Z.land 0x80 0x01 = 0 /\
  0 <= start loaded < 2 ^ 31 /\
  start_cursor loaded <> end_cursor loaded /\
  start_cursor loaded <> limit_cursor loaded /\
  exists d1 d2,
    ADPCMB_write loaded 0 0x80 = Some (started 0x80 loaded, []) /\
    ext_body (started 0x80 loaded) = Some (Next, d1, []) /\
    ext_body d1 = Some (Next, d2, []) /\
    now_data d2 = 0x55 /\ now_addr d2 = 2 /\
    map decoded [d1; d2] = [(0, 174, 202); (174, 451, 321)].
Proof.
  assert (read_byte loaded = Some rom55) as H1 by reflexivity.
  assert (Z.land 0x80 0x80 <> 0) as H2 by (vm_compute; discriminate).
  assert (Z.land 0x80 0x01 = 0) as H3 by reflexivity.
  assert (0 <= start loaded < 2 ^ 31) as H4
    by (vm_compute; split; [discriminate|reflexivity]).
  assert (start_cursor loaded <> end_cursor loaded) as H5 by (vm_compute; discriminate).
  assert (start_cursor loaded <> limit_cursor loaded) as H6 by (vm_compute; discriminate).
  split; [exact H1|]. split; [exact H2|]. split; [exact H3|]. split; [exact H4|].
  split; [exact H5|]. split; [exact H6|].
  destruct (playback_starts_at_start_address loaded 0x80 rom55 H1 H2 H3 H4 H5 H6)
    as (d1 & d2 & Hw & _ & _ & _ & _ & E1 & E2 & Hb & Hc & Hd).
  exists d1, d2. split; [exact Hw|]. split; [exact E1|]. split; [exact E2|].
  split; [exact Hb|]. split; [exact Hc|]. rewrite Hd. vm_compute. reflexivity.
Defined.

(** ** The limit address *)

(** X23. The playback wraps at the limit address.  A pass that finds the
    cursor on the limit address takes it to address 0 and goes on as a pass
    from there: the end address is compared with the new cursor.  So, on a
    host that maps the memory and with an end address other than 0, the
    pass decodes the high nibble of the byte 0 and calls nothing, whatever
    the repeat bit. *)
Theorem limit_wrap_precedes_end (d : YM_DELTAT) (rom : Z -> Z) :
  now_addr d = limit_cursor d -> read_byte d = Some rom -> end_cursor d <> 0 ->
  ext_body d = ext_body (set_now_addr 0 d) /\
  exists d',
    ext_body d = Some (Next, d', []) /\
    now_addr d' = 1 /\ now_data d' = to_u8 (rom 0) /\
    decoded d' = decoded (adpcm_update (to_u8 (rom 0) / 16) d).
Proof.
  intros Hl Hrom He. unfold limit_cursor in Hl. unfold end_cursor in He.
  assert (ext_limit_wrap d = set_now_addr 0 d) as Hw
    by (unfold ext_limit_wrap; rewrite Hl, Z.eqb_refl; reflexivity).
  assert (ext_limit_wrap (set_now_addr 0 d) = set_now_addr 0 d) as Hw0
    by (unfold ext_limit_wrap; destruct (_ =? _); reflexivity).
  assert (ext_body d = ext_body (set_now_addr 0 d)) as Hb
    by (unfold ext_body; cbv zeta; rewrite Hw, Hw0; reflexivity).
  split; [exact Hb|].
  assert ((0 =? to_u32 (Z.shiftl (end_ d) 1)) = false) as E0
    by (apply Z.eqb_neq; auto).
  unfold ext_body. cbv zeta. rewrite Hw. reduce_fields. rewrite E0.
  unfold ext_decode, ext_fetch. reduce_fields. rewrite Hrom.
  change (Z.odd 0) with false. cbv iota. cbv zeta. reduce_fields.
  eexists. split; [reflexivity|]. split; [reflexivity|]. split; [reflexivity|].
  unfold decoded. rewrite Z.shiftr_div_pow2 by lia. reflexivity.
Qed.

Lemma limit_wrap_precedes_end_witness :
  now_addr at_limit = limit_cursor at_limit /\ read_byte at_limit = Some rom55 /\
  end_cursor at_limit <> 0 /\
  now_addr at_limit = 0x200 /\
  exists d', ext_body at_limit = Some (Next, d', []) /\ now_addr d' = 1.
Proof.
  assert (now_addr at_limit = limit_cursor at_limit) as H1 by (vm_compute; reflexivity).
  assert (read_byte at_limit = Some rom55) as H2 by reflexivity.
  assert (end_cursor at_limit <> 0) as H3 by (vm_compute; discriminate).
  split; [exact H1|]. split; [exact H2|]. split; [exact H3|].
  split; [vm_compute; reflexivity|].
  destruct (proj2 (limit_wrap_precedes_end at_limit rom55 H1 H2 H3))
    as (d' & Hb & Ha & _).
  exists d'. split; [exact Hb|exact Ha].
Defined.

(** ** The restore, twice *)

(** Two states with the same fields are the same state. *)
Lemma YM_DELTAT_ext d d' :
  host_fields d = host_fields d' -> playback d = playback d' ->
  derived_fields d = derived_fields d' ->
  now_data d = now_data d' -> pan d = pan d' ->
  DRAMportshift d = DRAMportshift d' -> reg d = reg d' ->
  d = d'.
Proof.
  destruct d, d'. unfold host_fields, playback, derived_fields. reduce_fields.
  intros H1 H2 H3 H4 H5 H6 H7.
  repeat match goal with
    | H : (_, _) = (_, _) |- _ => apply pair_equal_spec in H; destruct H
    end.
  subst. reflexivity.
Qed.

Lemma pan_derived_write d r v d' ev :
  image_ok d -> pan_derived d \/ control2_regs r = true ->
  ADPCMB_write d r v = Some (d', ev) -> pan_derived d'.
Proof.
  intros [Hl _] Hd Hw. unfold pan_derived, control2_regs in *.
  assert (pan d = reg_at d 1 / 64 \/ r = 1) as Hd' by (destruct Hd; [auto|right; lia]).
  clear Hd. rename Hd' into Hd.
  write_case Hw.
  reg_cases r; cbn [Z.eqb Pos.eqb orb fst]; other_register.
  all: rewrite list_lookup_insert_eq by (rewrite Hl; cbn; lia);
    cbn [from_option id]; rewrite pan_low_byte, to_u8_lor_1;
    apply pan_bits, to_u8_range.
Qed.

Lemma pan_derived_store_0 d x y :
  pan_derived d -> pan_derived (set_now_data x (set_reg (<[0%nat := y]> (reg d)) d)).
Proof.
  unfold pan_derived, reg_at. reduce_fields.
  rewrite list_lookup_insert_ne by lia. auto.
Qed.

(** The restore derives the pan from the image. *)
Lemma ADPCMB_postload_pan t regs t' ev :
  image_ok t -> ADPCMB_postload t regs = Some (t', ev) -> pan_derived t'.
Proof.
  intros Hok H.
  rewrite (ADPCMB_postload_eq t regs) in H. apply postload_regs_cases in H.
  destruct H as (d1 & x & y & Hrep & ->). rewrite replay_run in Hrep.
  apply pan_derived_store_0.
  assert (image_ok (set_volume 0 t)) as Hok0 by exact Hok.
  eapply (derived_after_writes pan_derived control2_regs);
    [|exact Hok0| |exact Hrep].
  - intros; eapply pan_derived_write; eassumption.
  - right. vm_compute. reflexivity.
Qed.

(** The restore on the YM2610, into a unit with a 16-byte image and from an
    image of 16 bytes. *)
Lemma ADPCMB_postload_result d regs d' ev :
  ym2610_portstate (portstate d) -> image_ok d ->
  length regs = 16%nat -> Forall (fun b => 0 <= b < 256) regs ->
  ADPCMB_postload d regs = Some (d', ev) ->
  ev = [] /\ ym2610_portstate (portstate d') /\ image_ok d' /\
  host_fields d' = host_fields d /\ playback d' = playback d /\
  image_derived d' /\ pan_derived d' /\ reg d' = regs /\
  exists rom, read_byte d' = Some rom /\
              now_data d' = to_u8 (rom (Z.shiftr (now_addr d') 1)).
Proof.
  intros Hp Hok Hl Hb H.
  destruct (postload_keeps_playback d regs d' ev Hp H) as (-> & Hpb & Hrom).
  destruct (ADPCMB_postload_derives d regs d' [] Hok H) as (Hd & Hok' & _ & Hps).
  split; [reflexivity|]. split; [rewrite Hps; exact Hp|]. split; [exact Hok'|].
  split; [exact (host_fields_run_op (OpPostload regs) d d' [] H)|].
  split; [exact Hpb|]. split; [exact Hd|].
  split; [exact (ADPCMB_postload_pan d regs d' [] Hok H)|].
  split; [|exact Hrom].
  exact (ADPCMB_postload_reg d regs d' [] (proj1 Hok) Hl Hb H).
Qed.

(** X24. The restore is idempotent on the YM2610.  From a reachable state
    with a 16-byte register image, the restore of an image of 16 bytes
    leaves a state that a second restore of the same image does not change:
    every field that the restore writes is a function of the image, the
    host's constants and the cursor.  The second restore calls nothing. *)
Theorem restore_is_idempotent
    (d : YM_DELTAT) (regs : list Z) (d1 : YM_DELTAT) (ev1 : list host_call) :
  reachable d -> length (reg d) = 16%nat ->
  length regs = 16%nat -> Forall (fun b => 0 <= b < 256) regs ->
  ADPCMB_postload d regs = Some (d1, ev1) ->
  ADPCMB_postload d1 regs = Some (d1, []).
Proof.
  intros Hr Hl Hlr Hb H1.
  pose proof (reachable_portstate d Hr) as Hp.
  assert (image_ok d) as Hok by (split; [exact Hl|apply reachable_rom_type, Hr]).
  destruct (ADPCMB_postload_result d regs d1 ev1 Hp Hok Hlr Hb H1)
    as (_ & Hp1 & Hok1 & Hh1 & Hpb1 & Hd1 & Hpan1 & Hreg1 & rom & Hrom1 & Hn1).
  destruct (run_op_total rom (OpPostload regs) d1 Hrom1 I) as (d2 & ev2 & H2 & _).
  rewrite run_op_postload in H2.
  destruct (ADPCMB_postload_result d1 regs d2 ev2 Hp1 Hok1 Hlr Hb H2)
    as (-> & _ & Hok2 & Hh2 & Hpb2 & Hd2 & Hpan2 & Hreg2 & rom2 & Hrom2 & Hn2).
  assert (d2 = d1) as E; [|rewrite E in H2; exact H2].
  assert (read_byte d2 = read_byte d1) as Hrb
    by (unfold host_fields in Hh2; congruence).
  assert (now_addr d2 = now_addr d1) as Ha by (unfold playback in Hpb2; congruence).
  apply YM_DELTAT_ext.
  - exact Hh2.
  - exact Hpb2.
  - apply image_derived_unique; try assumption.
    + congruence.
    + unfold host_fields in Hh2. unfold same_host. repeat split; congruence.
    + destruct Hok1 as [_ ->], Hok2 as [_ ->]. reflexivity.
  - rewrite Hn2, Hn1, Ha. rewrite Hrom2, Hrom1 in Hrb. congruence.
  - unfold pan_derived, reg_at in *. rewrite Hpan2, Hpan1, Hreg2, Hreg1. reflexivity.
  - destruct Hok1 as [_ ->], Hok2 as [_ ->]. reflexivity.
  - congruence.
Qed.

Lemma restore_is_idempotent_witness :
  reachable looping_later /\ length (reg looping_later) = 16%nat /\
  length (repeat 0 16) = 16%nat /\ Forall (fun b => 0 <= b < 256) (repeat 0 16) /\
  ADPCMB_postload looping_later (repeat 0 16) = Some (restored, []) /\
  ADPCMB_postload restored (repeat 0 16) = Some (restored, []).
Proof.
  assert (length (reg looping_later) = 16%nat) as H2 by (vm_compute; reflexivity).
  assert (length (repeat 0 16) = 16%nat) as H3 by reflexivity.
  assert (Forall (fun b => 0 <= b < 256) (repeat 0 16)) as H4
    by (repeat constructor; lia).
  assert (ADPCMB_postload looping_later (repeat 0 16) = Some (restored, [])) as H5
    by (vm_compute; reflexivity).
  split; [exact looping_later_reachable|]. split; [exact H2|]. split; [exact H3|].
  split; [exact H4|]. split; [exact H5|].
  exact (restore_is_idempotent looping_later (repeat 0 16) restored []
           looping_later_reachable H2 H3 H4 H5).
Defined.

(** ** The rate of the playback *)

Lemma clear_runb_ok n d : clear_runb n d = true -> clear_run n d.
Proof.
  unfold clear_runb, clear_run. intros H.
  apply andb_prop in H. destruct H as [H H3].
  apply andb_prop in H. destruct H as [H1 H2].
  apply Z.leb_le in H1. apply Z.ltb_lt in H2.
  split; [exact H1|]. split; [exact H2|].
  intros i Hi. rewrite forallb_forall in H3.
  specialize (H3 (Z.to_nat i)).
  rewrite Z2Nat.id in H3 by lia.
  assert (In (Z.to_nat i) (seq 0 n)) as Hin by (apply in_seq; lia).
  apply H3 in Hin. apply andb_prop in Hin. destruct Hin as [E1 E2].
  apply negb_true_iff, Z.eqb_neq in E1, E2. auto.
Qed.

(** A pass off the limit and the end address decodes a nibble and moves the
    cursor on by one. *)
Lemma ext_body_advances d rom :
  read_byte d = Some rom -> clear_run 1 d ->
  exists d',
    ext_body d = Some (Next, d', []) /\ now_addr d' = now_addr d + 1 /\
    read_byte d' = Some rom /\ limit_cursor d' = limit_cursor d /\
    end_cursor d' = end_cursor d.
Proof.
  intros Hrom (H0 & Htop & Hoff).
  destruct (Hoff 0) as [Hl He]; [lia|]. rewrite Z.add_0_r in Hl, He.
  pose proof (next_cursor (now_addr d)) as Hn.
  rewrite Z.mod_small in Hn by (change (Z.of_nat 1) with 1 in Htop; lia).
  destruct (Z.odd (now_addr d)) eqn:Ho.
  - rewrite ext_body_low_nibble by exact Ho.
    rewrite Hn by (change (2 ^ 25) with 33554432 in Htop; lia).
    eexists. split; [reflexivity|]. auto.
  - rewrite (ext_body_high_nibble d rom) by
      (try assumption; rewrite <- Z.negb_odd, Ho; reflexivity).
    rewrite Hn by (change (2 ^ 25) with 33554432 in Htop; lia).
    eexists. split; [reflexivity|]. auto.
Qed.

Lemma do_while_ext_advances n : forall d rom,
  read_byte d = Some rom -> clear_run n d ->
  exists d',
    do_while ext_body n d = Some (Next, d', []) /\
    now_addr d' = now_addr d + Z.of_nat n.
Proof.
  induction n as [|n IH]; intros d rom Hrom Hc.
  - exists d. cbn [do_while]. split; [reflexivity|]. cbn. lia.
  - destruct Hc as (H0 & Htop & Hoff).
    destruct (ext_body_advances d rom Hrom) as (d1 & E1 & Ha1 & Hrom1 & Hl1 & He1).
    { split; [exact H0|]. split; [lia|]. intros i Hi. apply Hoff. lia. }
    destruct (IH d1 rom Hrom1) as (d2 & E2 & Ha2).
    { split; [lia|]. split; [lia|]. intros i Hi.
      rewrite Ha1, Hl1, He1. replace (now_addr d + 1 + i) with (now_addr d + (1 + i)) by ring.
      apply Hoff. lia. }
    exists d2. cbn [do_while]. rewrite E1, E2. split; [reflexivity|]. lia.
Qed.

(** X25. The rate of the playback.  A tick adds the rate [step] to the phase
    and decodes one nibble for each whole 65536 in it: on a host that maps
    the memory, when the cursors that the tick passes are off the limit and
    the end address and below 2^25, the tick moves the cursor on by
    [tick_steps] nibbles, the quotient of the new phase by 65536, keeps the
    remainder as the phase, and its only host call is the addition of the
    held sample to the output. *)
Theorem tick_advances_by_the_rate (d : YM_DELTAT) (rom : Z -> Z) :
  Z.land (portstate d) 0xe0 = 0xa0 -> read_byte d = Some rom ->
  clear_run (tick_steps d) d ->
  exists d',
    ADPCMB_CALC d = Some (d', [Mix (pan d) (adpcml d')]) /\
    now_addr d' = now_addr d + Z.of_nat (tick_steps d) /\
    Z.of_nat (tick_steps d) = tick_phase d / 65536 /\
    now_step d' = tick_phase d mod 65536.
Proof.
  intros Hmode Hrom Hc.
  destruct (do_while_ext_advances (tick_steps d) (tick_entry d) rom Hrom Hc)
    as (d1 & Hloop & Ha).
  exists (fst (interpolate d1)).
  assert (ADPCMB_CALC d = Some (fst (interpolate d1), [] ++ snd (interpolate d1))) as Hc1.
  { unfold ADPCMB_CALC. apply Z.eqb_eq in Hmode. rewrite Hmode.
    apply synthesis_total_cases. exact Hloop. }
  destruct (ext_tick_cases d _ _ Hmode Hc1) as (Hphase & Hpan & _).
  split; [|split; [exact Ha|split; [|exact Hphase]]].
  - rewrite Hc1. cbn [app]. unfold interpolate. cbv zeta. cbn [fst snd].
    reduce_fields.
    assert (pan d1 = pan d) as -> by exact Hpan. reflexivity.
  - unfold tick_steps, tick_phase, YM_DELTAT_SHIFT.
    rewrite Z.shiftr_div_pow2 by lia. change (2 ^ 16) with 65536.
    apply Z2Nat.id. apply Z.div_pos; [apply to_u32_range|lia].
Qed.

Lemma tick_advances_by_the_rate_witness :
  Z.land (portstate hurrying) 0xe0 = 0xa0 /\ read_byte hurrying = Some rom55 /\
  clear_run (tick_steps hurrying) hurrying /\
  exists d',
    ADPCMB_CALC hurrying = Some (d', [Mix (pan hurrying) (adpcml d')]) /\
    now_addr d' = 3 /\ now_step d' = 32768.
Proof.
  assert (Z.land (portstate hurrying) 0xe0 = 0xa0) as H1 by (vm_compute; reflexivity).
  assert (read_byte hurrying = Some rom55) as H2 by reflexivity.
  assert (clear_run (tick_steps hurrying) hurrying) as H3
    by (apply clear_runb_ok; vm_compute; reflexivity).
  split; [exact H1|]. split; [exact H2|]. split; [exact H3|].
  destruct (tick_advances_by_the_rate hurrying rom55 H1 H2 H3) as (d' & Hc & Ha & _ & Hn).
  exists d'. split; [exact Hc|]. split; [exact Ha|exact Hn].
Defined.

(** ** The stream of nibbles *)

Lemma rom_nibbles_succ rom c n :
  rom_nibbles rom c (S n) = rom_nibble rom c :: rom_nibbles rom (c + 1) n.
Proof.
  unfold rom_nibbles. cbn [seq map]. rewrite Z.add_0_r. f_equal.
  rewrite <- seq_shift, map_map. apply map_ext. intros i. f_equal. lia.
Qed.

(** The decoding of a stream depends on the predictor and the step size it
    starts from, and on nothing else. *)
Lemma adpcm_update_decoded data s s' :
  acc s = acc s' -> adpcmd s = adpcmd s' ->
  decoded (adpcm_update data s) = decoded (adpcm_update data s').
Proof.
  intros Ha Hs. unfold decoded, adpcm_update. cbv zeta.
  cbn [prev_acc acc adpcmd set_prev_acc set_acc set_adpcmd].
  rewrite Ha, Hs. reflexivity.
Qed.

Lemma decode_nibbles_decoded l : forall s s',
  acc s = acc s' -> adpcmd s = adpcmd s' ->
  map decoded (decode_nibbles l s) = map decoded (decode_nibbles l s').
Proof.
  induction l as [|data l IH]; intros s s' Ha Hs; cbn [decode_nibbles map].
  - reflexivity.
  - cbv zeta. cbn [map]. f_equal.
    + apply adpcm_update_decoded; assumption.
    + apply IH; [apply (f_equal (fun t => snd (fst t)) (adpcm_update_decoded data s s' Ha Hs))
                |apply (f_equal snd (adpcm_update_decoded data s s' Ha Hs))].
Qed.

(** A pass off the limit and the end address decodes the nibble under the
    cursor. *)
Lemma ext_body_decodes d rom :
  read_byte d = Some rom -> clear_run 1 d -> byte_held rom d ->
  exists d',
    ext_body d = Some (Next, d', []) /\ now_addr d' = now_addr d + 1 /\
    read_byte d' = Some rom /\ limit_cursor d' = limit_cursor d /\
    end_cursor d' = end_cursor d /\ byte_held rom d' /\
    decoded d' = decoded (adpcm_update (rom_nibble rom (now_addr d)) d).
Proof.
  intros Hrom (H0 & Htop & Hoff) Hheld.
  destruct (Hoff 0) as [Hl He]; [lia|]. rewrite Z.add_0_r in Hl, He.
  change (Z.of_nat 1) with 1 in Htop.
  pose proof (next_cursor (now_addr d)) as Hn.
  rewrite Z.mod_small in Hn by lia.
  assert (Z.shiftr (now_addr d + 1) 1 = Z.shiftr (now_addr d) 1 \/
          Z.odd (now_addr d) = true) as Hsame.
  { destruct (Z.odd (now_addr d)) eqn:Ho; [right; reflexivity|left].
    rewrite !Z.shiftr_div_pow2 by lia. change (2 ^ 1) with 2.
    rewrite <- Z.negb_even in Ho. apply negb_false_iff, Z.even_spec in Ho.
    destruct Ho as [m Hm]. rewrite Hm. Z.div_mod_to_equations. lia. }
  unfold rom_nibble. cbv zeta.
  destruct (Z.odd (now_addr d)) eqn:Ho.
  - rewrite ext_body_low_nibble by exact Ho.
    rewrite Hn by (change (2 ^ 25) with 33554432 in Htop; lia).
    eexists. split; [reflexivity|]. split; [reflexivity|].
    split; [exact Hrom|]. split; [reflexivity|]. split; [reflexivity|]. split.
    + unfold byte_held, adpcm_update. reduce_fields. intros Ho'.
      rewrite Z.odd_add, Ho in Ho'. discriminate.
    + rewrite <- (Hheld Ho). reflexivity.
  - rewrite (ext_body_high_nibble d rom) by
      (try assumption; rewrite <- Z.negb_odd, Ho; reflexivity).
    rewrite Hn by (change (2 ^ 25) with 33554432 in Htop; lia).
    eexists. split; [reflexivity|]. split; [reflexivity|].
    split; [exact Hrom|]. split; [reflexivity|]. split; [reflexivity|]. split.
    + unfold byte_held, adpcm_update. reduce_fields. intros _.
      destruct Hsame as [-> |E]; [reflexivity|discriminate].
    + reflexivity.
Qed.

(** The passes of a clear run decode the nibbles of the memory in order. *)
Lemma ext_passes_decode n : forall d rom,
  read_byte d = Some rom -> clear_run n d -> byte_held rom d ->
  exists dn,
    ext_passes n d = Some dn /\ now_addr dn = now_addr d + Z.of_nat n /\
    read_byte dn = Some rom /\ limit_cursor dn = limit_cursor d /\
    end_cursor dn = end_cursor d /\
    length (decode_trace ext_body n d) = n /\
    map decoded (decode_trace ext_body n d)
      = map decoded (decode_nibbles (rom_nibbles rom (now_addr d) n) d).
Proof.
  induction n as [|n IH]; intros d rom Hrom Hc Hheld.
  - exists d. cbn [ext_passes decode_trace]. rewrite Z.add_0_r. auto 8.
  - destruct Hc as (H0 & Htop & Hoff).
    destruct (ext_body_decodes d rom Hrom) as
      (d1 & E1 & Ha1 & Hrom1 & Hl1 & He1 & Hheld1 & Hd1);
      [|exact Hheld|].
    { split; [exact H0|]. split; [lia|]. intros i Hi. apply Hoff. lia. }
    destruct (IH d1 rom Hrom1) as (dn & En & Han & Hromn & Hln & Hen & Hlen & Hdn);
      [|exact Hheld1|].
    { split; [lia|]. split; [lia|]. intros i Hi.
      rewrite Ha1, Hl1, He1.
      replace (now_addr d + 1 + i) with (now_addr d + (1 + i)) by ring.
      apply Hoff. lia. }
    exists dn. cbn [ext_passes decode_trace]. rewrite E1.
    split; [exact En|]. split; [lia|]. split; [exact Hromn|].
    split; [congruence|]. split; [congruence|].
    split; [cbn [length]; rewrite Hlen; reflexivity|].
    rewrite rom_nibbles_succ. cbn [decode_nibbles map]. cbv zeta. cbn [map].
    rewrite Hd1, Hdn, Ha1. f_equal.
    apply decode_nibbles_decoded.
    + unfold decoded in Hd1. congruence.
    + unfold decoded in Hd1. congruence.
Qed.

(** X26. The decode loop decodes the nibble stream of the memory in order.
    On a host that maps the memory, over [n] passes whose cursors are off
    the limit and the end address and below 2^25, from a cursor [c] (on an
    odd cursor, with the byte under it held in [now_data]), every pass goes
    on, and the predictors and step sizes after the passes are those of the
    ADPCM decoding of the [n] nibbles of the memory from [c] on, high nibble
    of each byte first; the cursor ends on [c + n]. *)
Theorem stream_decoded_in_order (n : nat) (d : YM_DELTAT) (rom : Z -> Z) :
  read_byte d = Some rom -> clear_run n d -> byte_held rom d ->
  exists dn,
    ext_passes n d = Some dn /\ now_addr dn = now_addr d + Z.of_nat n /\
    length (decode_trace ext_body n d) = n /\
    map decoded (decode_trace ext_body n d)
      = map decoded (decode_nibbles (rom_nibbles rom (now_addr d) n) d).
Proof.
  intros Hrom Hc Hheld.
  destruct (ext_passes_decode n d rom Hrom Hc Hheld)
    as (dn & En & Han & _ & _ & _ & Hlen & Hdn).
  exists dn. auto.
Qed.

Lemma stream_decoded_in_order_witness :
  read_byte playing = Some rom55 /\ clear_run 4 playing /\ byte_held rom55 playing /\
  rom_nibbles rom55 (now_addr playing) 4 = [5; 5; 5; 6] /\
  exists dn,
    ext_passes 4 playing = Some dn /\ now_addr dn = 4 /\
    map decoded (decode_trace ext_body 4 playing)
      = map decoded (decode_nibbles [5; 5; 5; 6] playing).
Proof.
  assert (read_byte playing = Some rom55) as H1 by reflexivity.
  assert (clear_run 4 playing) as H2 by (apply clear_runb_ok; vm_compute; reflexivity).
  assert (byte_held rom55 playing) as H3 by (intros E; vm_compute in E; discriminate).
  split; [exact H1|]. split; [exact H2|]. split; [exact H3|].
  split; [vm_compute; reflexivity|].
  destruct (stream_decoded_in_order 4 playing rom55 H1 H2 H3) as (dn & E & Ha & _ & Hd).
  exists dn. split; [exact E|]. split; [exact Ha|exact Hd].
Defined.

(** X27. A sample is played up to the byte before its end address.  With
    the repeat bit clear, on a host that maps the memory, from the cursor on
    the byte [a] at or below the end address (below 2^24) and with the limit
    address out of the way, the loop decodes the 2 * (end - a) nibbles of
    the bytes [a] to [end - 1] in order, and the next pass finds the cursor
    on the end address: it leaves the function with the guarded status-set
    call for EOS, the unit idle and not busy.  The byte at the end address
    itself is not decoded. *)
Theorem sample_ends_before_the_end_byte (d : YM_DELTAT) (rom : Z -> Z) (a : Z) :
  read_byte d = Some rom -> Z.land (portstate d) 0x10 = 0 ->
  now_addr d = 2 * a -> 0 <= a <= end_ d -> end_ d < 2 ^ 24 ->
  (forall i, 0 <= i <= 2 * (end_ d - a) -> now_addr d + i <> limit_cursor d) ->
  let n := Z.to_nat (2 * (end_ d - a)) in
  exists dn d',
    ext_passes n d = Some dn /\ now_addr dn = 2 * end_ d /\
    length (decode_trace ext_body n d) = n /\
    map decoded (decode_trace ext_body n d)
      = map decoded (decode_nibbles (rom_nibbles rom (2 * a) n) d) /\
    ext_body dn = Some (Return, d', status_set d (status_change_EOS_bit d)) /\
    portstate d' = 0 /\ PCM_BSY d' = 0 /\ adpcml d' = 0.
Proof.
  intros Hrom Hrep Hcur Ha He Hlim n.
  assert (end_cursor d = 2 * end_ d) as Hec.
  { unfold end_cursor. rewrite Z.shiftl_mul_pow2 by lia.
    change (2 ^ 24) with 16777216 in He. rewrite to_u32_small by lia. lia. }
  assert (Z.of_nat n = 2 * (end_ d - a)) as Hn by (unfold n; lia).
  assert (clear_run n d) as Hc.
  { split; [lia|]. split.
    - rewrite Hn, Hcur. change (2 ^ 24) with 16777216 in He.
      change (2 ^ 25) with 33554432. lia.
    - intros i Hi. split; [apply Hlim; lia|]. rewrite Hec, Hcur. lia. }
  assert (byte_held rom d) as Hheld.
  { intros Ho. rewrite Hcur, Z.odd_mul in Ho. discriminate. }
  destruct (ext_passes_decode n d rom Hrom Hc Hheld)
    as (dn & En & Han & _ & Hln & Hen & Hlen & Hdn).
  pose proof (ext_passes_same_control _ _ _ En) as (Hp & _ & _ & Hh & Hb).
  assert (now_addr dn = 2 * end_ d) as Hat by (rewrite Han, Hn, Hcur; ring).
  assert (ext_limit_wrap dn = dn) as Hw.
  { unfold ext_limit_wrap. fold (limit_cursor dn). rewrite Hln.
    assert ((now_addr dn =? limit_cursor d) = false) as ->; [|reflexivity].
    apply Z.eqb_neq. rewrite Han. apply Hlim. lia. }
  exists dn, (fst (ext_end_of_sample dn)).
  split; [exact En|]. split; [exact Hat|]. split; [exact Hlen|].
  split; [rewrite <- Hcur; exact Hdn|].
  split; [|repeat split; reflexivity].
  rewrite (ext_body_end_of_sample dn).
  - rewrite Hw. unfold status_set. rewrite Hh, Hb. reflexivity.
  - rewrite Hw, Hen, Hec. exact Hat.
  - rewrite Hp. exact Hrep.
Qed.

Lemma sample_ends_before_the_end_byte_witness :
  read_byte playing = Some rom55 /\ Z.land (portstate playing) 0x10 = 0 /\
  now_addr playing = 2 * 0 /\ 0 <= 0 <= end_ playing /\ end_ playing < 2 ^ 24 /\
  end_ playing = 0x1ff /\
  exists dn d',
    ext_passes 1022 playing = Some dn /\ now_addr dn = 2 * 0x1ff /\
    ext_body dn = Some (Return, d', [StatusSet 0x80]).
Proof.
  assert (read_byte playing = Some rom55) as H1 by reflexivity.
  assert (Z.land (portstate playing) 0x10 = 0) as H2 by (vm_compute; reflexivity).
  assert (now_addr playing = 2 * 0) as H3 by (vm_compute; reflexivity).
  assert (end_ playing = 0x1ff) as He by (vm_compute; reflexivity).
  assert (0 <= 0 <= end_ playing) as H4 by (rewrite He; lia).
  assert (end_ playing < 2 ^ 24) as H5 by (rewrite He; reflexivity).
  assert (forall i, 0 <= i <= 2 * (end_ playing - 0) ->
                    now_addr playing + i <> limit_cursor playing) as H6.
  { assert (limit_cursor playing = 4294967294) as -> by (vm_compute; reflexivity).
    rewrite H3, He. intros i Hi. lia. }
  split; [exact H1|]. split; [exact H2|]. split; [exact H3|]. split; [exact H4|].
  split; [exact H5|]. split; [exact He|].
  destruct (sample_ends_before_the_end_byte playing rom55 0 H1 H2 H3 H4 H5 H6)
    as (dn & d' & En & Ha & _ & _ & Hb & _).
  exists dn, d'. rewrite He in En, Ha. split; [exact En|]. split; [exact Ha|exact Hb].
Defined.

(** ** DELTA-N: the rate *)

(** On a host that takes one chip clock per output sample the product of a
    16-bit DELTA-N and [freqbase] is exact: the conversions to a double and
    back return the value. *)
Lemma rate_at_one z : 0 <= z < 65536 -> F2Z (PrimFloat.mul (Z2F z) 1%float) = z.
Proof.
  intros Hz.
  assert (forallb
            (fun h => forallb
                        (fun l => F2Z (PrimFloat.mul (Z2F (h * 256 + l)) 1%float)
                                  =? h * 256 + l)
                        (map Z.of_nat (seq 0 256)))
            (map Z.of_nat (seq 0 256)) = true) as H by (vm_compute; reflexivity).
  assert (0 <= z / 256 < 256) as Hh
    by (split; [apply Z.div_pos; lia|apply Z.div_lt_upper_bound; lia]).
  assert (0 <= z mod 256 < 256) as Hl by (apply Z.mod_pos_bound; lia).
  pose proof (forall_bytes _ H (z / 256) Hh) as H1. cbv beta in H1.
  pose proof (forall_bytes _ H1 (z mod 256) Hl) as H2. cbv beta in H2.
  apply Z.eqb_eq in H2.
  replace (z / 256 * 256 + z mod 256) with z in H2
    by (rewrite (Z.div_mod z 256) at 1 by lia; ring).
  exact H2.
Qed.

Lemma one_step_at_most n s :
  0 <= n < 65536 -> 0 <= s < 65536 ->
  (Z.to_nat (Z.shiftr (to_u32 (n + s)) YM_DELTAT_SHIFT) <= 1)%nat.
Proof.
  intros Hn Hs. rewrite to_u32_small by lia.
  unfold YM_DELTAT_SHIFT. rewrite Z.shiftr_div_pow2 by lia.
  change (2 ^ 16) with 65536.
  assert (0 <= (n + s) / 65536 < 2)
    by (split; [apply Z.div_pos; lia|apply Z.div_lt_upper_bound; lia]).
  lia.
Qed.

(** X28. The two bytes of DELTA-N, the registers 9 and 10, may be written in
    either order: with the bytes [a] (low) and [b] (high) the writes leave
    [delta] at the 16-bit value and [step] at its product with [freqbase],
    truncated, and call nothing on the host.  On a host that takes one chip
    clock per output sample ([freqbase] 1) the rate is the 16-bit value
    itself, so that a tick whose phase is a fraction decodes one nibble at
    most. *)
Theorem deltan_pair_sets_the_rate (d : YM_DELTAT) (a b : Z) (high_first : bool) :
  length (reg d) = 16%nat -> 0 <= a < 256 -> 0 <= b < 256 ->
  exists d',
    run (write_pair 9 10 a b high_first) d = Some (d', []) /\
    delta d' = b * 256 + a /\
    step d' = to_u32 (F2Z (PrimFloat.mul (Z2F (b * 256 + a)) (freqbase d))) /\
    now_step d' = now_step d /\
    (freqbase d = 1%float ->
     step d' = b * 256 + a /\
     (0 <= now_step d < 65536 -> (tick_steps d' <= 1)%nat)).
Proof.
  intros Hl Ha Hb.
  assert (0 <= b * 256 + a < 65536) as Hp by lia.
  pose proof (lor_bytes b a Hb Ha) as Hlor.
  destruct (pair_lookup (reg d) 9 10 a b) as (E1 & E2 & E3 & E4); [lia..|].
  assert (forall d' : YM_DELTAT,
             delta d' = b * 256 + a ->
             step d' = to_u32 (F2Z (PrimFloat.mul (Z2F (b * 256 + a)) (freqbase d))) ->
             now_step d' = now_step d ->
             freqbase d = 1%float ->
             step d' = b * 256 + a /\
             (0 <= now_step d < 65536 -> (tick_steps d' <= 1)%nat)) as Hone.
  { intros d' Hd Hs Hn Hf. rewrite Hf, rate_at_one, to_u32_small in Hs by lia.
    split; [exact Hs|]. intros Hn'. unfold tick_steps. rewrite Hs, Hn.
    apply one_step_at_most; assumption. }
  destruct high_first; eexists; (split; [reflexivity|]);
    (match goal with
     | |- delta ?x = _ /\ _ =>
         assert (delta x = b * 256 + a) as Hd;
         [unfold write_deltan, pair16, reg_at, store_reg; reduce_fields;
          rewrite !(to_u8_small a), !(to_u8_small b) by assumption;
          change (Z.to_nat 9) with 9%nat; change (Z.to_nat 10) with 10%nat;
          rewrite ?E1, ?E2, ?E3, ?E4; exact Hlor|];
         assert (step x = to_u32 (F2Z (PrimFloat.mul (Z2F (b * 256 + a)) (freqbase d))))
           as Hs;
         [rewrite <- Hd; reflexivity|];
         assert (now_step x = now_step d) as Hn by reflexivity;
         split; [exact Hd|split; [exact Hs|split; [exact Hn|apply Hone; assumption]]]
     end).
Qed.

Lemma deltan_pair_sets_the_rate_witness :
  length (reg ym2610) = 16%nat /\ 0 <= 0x00 < 256 /\ 0 <= 0x40 < 256 /\
  exists d',
    run (write_pair 9 10 0x00 0x40 true) ym2610 = Some (d', []) /\
    delta d' = 0x4000 /\ step d' = 0x4000 /\ (tick_steps d' <= 1)%nat.
Proof.
  assert (length (reg ym2610) = 16%nat) as Hl by reflexivity.
  assert (0 <= 0x00 < 256) as Ha by lia.
  assert (0 <= 0x40 < 256) as Hb by lia.
  split; [exact Hl|]. split; [exact Ha|]. split; [exact Hb|].
  destruct (deltan_pair_sets_the_rate ym2610 0x00 0x40 true Hl Ha Hb)
    as (d' & Hr & Hd & _ & _ & Hone).
  destruct (Hone eq_refl) as (Hs & Ht).
  exists d'. split; [exact Hr|]. split; [exact Hd|]. split; [exact Hs|].
  apply Ht. vm_compute. split; [discriminate|reflexivity].
Defined.
